(** * Remote Render add-on (renderer-ui.py): a shallow embedding

    The add-on is a small job-submission-and-polling client living inside
    Blender.  Its operators mutate the scene's settings (the job
    collection), talk to a render server over HTTP and touch the local
    file system.  Here each operator is a function in a state-and-exception
    monad over an explicit [state]; everything the add-on cannot decide
    itself (what the server answers, whether [plyer] is installed, what
    the clock says) is passed in as an explicit environment value.
    A Python string is kept as the bytes of its UTF-8 encoding; slicing
    counts characters.  Paths are those of a POSIX system. *)

From Stdlib Require Import ZArith List Bool Lia Ascii String.
From stdpp Require Import base list strings gmap pretty.
Import ListNotations.
Open Scope string_scope.
Open Scope list_scope.
Open Scope Z_scope.
Set Warnings "-register-all".

(** ** Python values coming out of [response.json()] *)

(** A Python float as far as [int()] and truthiness can tell. *)
Inductive pyfloat :=
| FNan
| FInf (negative : bool)
| FFin (num : Z) (den : positive).

(** The value returned by [response.json()].  [JNull] is Python's [None];
    a [JObj] lists the items of the parsed dict (keys unique). *)
Inductive json :=
| JNull
| JBool (b : bool)
| JInt (z : Z)
| JFloat (f : pyfloat)
| JStr (s : string)
| JArr (items : list json)
| JObj (items : list (string * json)).

(** Python exceptions.  Every class here derives from [Exception], so a
    bare [except Exception] catches them all; a narrower [except C] looks
    at the class and its bases.  [ConnectionError], [Timeout] and their
    kin are the classes of [requests.exceptions]: a [ConnectTimeout] is
    both a [ConnectionError] and a [Timeout]. *)
Inductive exn_class :=
| ImportError | ModuleNotFoundError
| OSError | FileNotFoundError | IsADirectoryError | PermissionError
| RequestException | ConnectionError | Timeout | ConnectTimeout | ReadTimeout
| SSLError | ProxyError | HTTPError | InvalidJSONError | JSONDecodeError
| AttributeError | TypeError | ValueError
| ArithmeticError | OverflowError
| RuntimeError | NotImplementedError
| LookupError | KeyError | IndexError.

#[global] Instance exn_class_eq_dec : EqDecision exn_class.
Proof. solve_decision. Defined.

(** The direct base classes of a class, [Exception] left out. *)
Definition bases (c : exn_class) : list exn_class :=
  match c with
  | ModuleNotFoundError => [ImportError]
  | FileNotFoundError | IsADirectoryError | PermissionError => [OSError]
  | RequestException => [OSError]
  | ConnectionError | Timeout | HTTPError | InvalidJSONError => [RequestException]
  | ConnectTimeout => [ConnectionError; Timeout]
  | ReadTimeout => [Timeout]
  | SSLError | ProxyError => [ConnectionError]
  | JSONDecodeError => [InvalidJSONError; ValueError]
  | OverflowError => [ArithmeticError]
  | NotImplementedError => [RuntimeError]
  | KeyError | IndexError => [LookupError]
  | _ => []
  end.

(** The class and what it inherits from, up to [depth] steps away. *)
Fixpoint ancestors (depth : nat) (c : exn_class) : list exn_class :=
  c :: match depth with
       | O => []
       | S d => flat_map (ancestors d) (bases c)
       end.

(** [issubclass(c, target)]: what [except target] asks of the class of
    the exception in flight (no chain of bases is longer than four). *)
Definition is_a (c target : exn_class) : bool :=
  bool_decide (target ∈ ancestors 4 c).

Record exn := Exn { exn_cls : exn_class; exn_msg : string }.

Definition is_ImportError (e : exn) : bool := is_a (exn_cls e) ImportError.

Module Py.

(** [bool(v)] *)
Definition truthy (v : json) : bool :=
  match v with
  | JNull => false
  | JBool b => b
  | JInt z => negb (z =? 0)
  | JFloat FNan => true
  | JFloat (FInf _) => true
  | JFloat (FFin n _) => negb (n =? 0)
  | JStr s => negb (String.eqb s "")
  | JArr l => match l with [] => false | _ => true end
  | JObj l => match l with [] => false | _ => true end
  end.

(** item lookup in the items of a dict *)
Fixpoint assoc (k : string) (items : list (string * json)) : option json :=
  match items with
  | [] => None
  | (k', v) :: rest => if String.eqb k k' then Some v else assoc k rest
  end.

(** [d.get(k, default)]; only dicts have [get] *)
Definition get (d : json) (k : string) (default : json) : exn + json :=
  match d with
  | JObj items => inr (match assoc k items with Some v => v | None => default end)
  | _ => inl (Exn AttributeError "object has no attribute 'get'")
  end.

(** [k in d] for a dict [d] (asked here only of values on which [get]
    has already succeeded, which are dicts) *)
Definition has_key (d : json) (k : string) : bool :=
  match d with
  | JObj items => match assoc k items with Some _ => true | None => false end
  | _ => false
  end.

(** [d[k]] for a dict [d] *)
Definition getitem (d : json) (k : string) : exn + json :=
  match d with
  | JObj items =>
      match assoc k items with
      | Some v => inr v
      | None => inl (Exn KeyError k)
      end
  | _ => inl (Exn TypeError "object is not subscriptable")
  end.

Definition is_space (c : ascii) : bool :=
  let n := N_of_ascii c in
  ((9 <=? n) && (n <=? 13) || (n =? 32))%N.

Definition digit_val (c : ascii) : option Z :=
  let n := Z.of_N (N_of_ascii c) in
  if (48 <=? n) && (n <=? 57) then Some (n - 48) else None.

Fixpoint lstrip (l : list ascii) : list ascii :=
  match l with
  | c :: rest => if is_space c then lstrip rest else l
  | [] => []
  end.

Definition strip (l : list ascii) : list ascii := rev (lstrip (rev (lstrip l))).

(** digits of a decimal literal, single underscores allowed between
    digits; [acc] is the value read so far, [after_digit] says whether
    the previous character was a digit *)
Fixpoint digits (l : list ascii) (acc : Z) (after_digit : bool) : option Z :=
  match l with
  | [] => if after_digit then Some acc else None
  | c :: rest =>
      match digit_val c with
      | Some d => digits rest (10 * acc + d) true
      | None =>
          if Ascii.eqb c "_"%char && after_digit
          then match rest with
               | [] => None
               | _ => digits rest acc false
               end
          else None
      end
  end.

(** [int(s)] for a string of ASCII characters: blanks stripped, optional
    sign, decimal digits; more than 4300 digits are refused (the limit
    Python has had since 3.10.7 and 3.11).  Python also reads the decimal
    digits and blanks of other scripts; strings with such characters are
    not modelled and count as refused here. *)
Definition int_of_string (s : string) : option Z :=
  let l := strip (list_ascii_of_string s) in
  if (4300 <? length (List.filter (fun c => match digit_val c with
                                            | Some _ => true
                                            | None => false
                                            end) l))%nat
  then None
  else match l with
       | "-"%char :: rest => option_map Z.opp (digits rest 0 false)
       | "+"%char :: rest => digits rest 0 false
       | _ => digits l 0 false
       end.

(** [int(v)] *)
Definition int (v : json) : exn + Z :=
  match v with
  | JInt z => inr z
  | JBool b => inr (if b then 1 else 0)
  | JFloat (FFin n d) => inr (Z.quot n (Z.pos d))
  | JFloat FNan => inl (Exn ValueError "cannot convert float NaN to integer")
  | JFloat (FInf _) => inl (Exn OverflowError "cannot convert float infinity to integer")
  | JStr s =>
      match int_of_string s with
      | Some z => inr z
      | None => inl (Exn ValueError "invalid literal for int() with base 10")
      end
  | JNull | JArr _ | JObj _ =>
      inl (Exn TypeError "int() argument must be a string or a real number")
  end.

(** A byte that continues a character in UTF-8: [10xxxxxx]. *)
Definition is_continuation (c : ascii) : bool :=
  let n := N_of_ascii c in
  ((128 <=? n) && (n <? 192))%N.

(** [s[:n]]: the first [n] characters, each with the bytes that continue
    it. *)
Fixpoint prefix (n : nat) (s : string) : string :=
  match s with
  | EmptyString => ""
  | String c rest =>
      if is_continuation c then String c (prefix n rest)
      else match n with
           | O => ""
           | S n' => String c (prefix n' rest)
           end
  end.

(** [os.path.dirname] (POSIX): what precedes the last slash, trailing
    slashes dropped unless nothing else is left *)
Fixpoint split_last_slash (s : string) : option (string * string) :=
  match s with
  | EmptyString => None
  | String c rest =>
      match split_last_slash rest with
      | Some (h, t) => Some (String c h, t)
      | None => if Ascii.eqb c "/"%char then Some ("", rest) else None
      end
  end.

Fixpoint all_slashes (s : string) : bool :=
  match s with
  | EmptyString => true
  | String c rest => Ascii.eqb c "/"%char && all_slashes rest
  end.

Fixpoint rstrip_slashes (s : string) : string :=
  match s with
  | EmptyString => ""
  | String c rest => if all_slashes s then "" else String c (rstrip_slashes rest)
  end.

Definition dirname (p : string) : string :=
  match split_last_slash p with
  | None => ""
  | Some (h, _) =>
      let head := h +:+ "/" in
      if all_slashes head then head else rstrip_slashes head
  end.

(** [os.path.basename] (POSIX): what follows the last slash *)
Fixpoint basename_from (s : string) (cur : string) : string :=
  match s with
  | EmptyString => cur
  | String c rest =>
      if Ascii.eqb c "/"%char then basename_from rest ""
      else basename_from rest (cur +:+ String c "")
  end.

Definition basename (p : string) : string := basename_from p "".

Fixpoint ends_with_slash (s : string) : bool :=
  match s with
  | EmptyString => false
  | String c EmptyString => Ascii.eqb c "/"%char
  | String _ rest => ends_with_slash rest
  end.

(** [os.path.join(a, b)] (POSIX) *)
Definition path_join (a b : string) : string :=
  match b with
  | String c _ =>
      if Ascii.eqb c "/"%char then b
      else if String.eqb a "" || ends_with_slash a then a +:+ b
           else a +:+ "/" +:+ b
  | EmptyString =>
      if String.eqb a "" || ends_with_slash a then a else a +:+ "/"
  end.

End Py.

(** ** Data model *)

(** [RemoteRenderJob(PropertyGroup)] *)
Record RemoteRenderJob := {
  job_id : string;
  scene_name : string;
  submitted_time : string;
  status : string;
  progress : Z;
  is_complete : bool;
  has_notification : bool;
  error_message : string
}.

(** The record [settings.jobs.add()] appends: every property at its
    declared default. *)
Definition RemoteRenderJob_default : RemoteRenderJob := {|
  job_id := "";
  scene_name := "";
  submitted_time := "";
  status := "SUBMITTED";
  progress := 0;
  is_complete := false;
  has_notification := true;
  error_message := ""
|}.

Definition set_job_id (v : string) (j : RemoteRenderJob) : RemoteRenderJob :=
  {| job_id := v; scene_name := scene_name j; submitted_time := submitted_time j;
     status := status j; progress := progress j; is_complete := is_complete j;
     has_notification := has_notification j; error_message := error_message j |}.

Definition set_scene_name (v : string) (j : RemoteRenderJob) : RemoteRenderJob :=
  {| job_id := job_id j; scene_name := v; submitted_time := submitted_time j;
     status := status j; progress := progress j; is_complete := is_complete j;
     has_notification := has_notification j; error_message := error_message j |}.

Definition set_submitted_time (v : string) (j : RemoteRenderJob) : RemoteRenderJob :=
  {| job_id := job_id j; scene_name := scene_name j; submitted_time := v;
     status := status j; progress := progress j; is_complete := is_complete j;
     has_notification := has_notification j; error_message := error_message j |}.

Definition set_status (v : string) (j : RemoteRenderJob) : RemoteRenderJob :=
  {| job_id := job_id j; scene_name := scene_name j; submitted_time := submitted_time j;
     status := v; progress := progress j; is_complete := is_complete j;
     has_notification := has_notification j; error_message := error_message j |}.

Definition set_progress (v : Z) (j : RemoteRenderJob) : RemoteRenderJob :=
  {| job_id := job_id j; scene_name := scene_name j; submitted_time := submitted_time j;
     status := status j; progress := v; is_complete := is_complete j;
     has_notification := has_notification j; error_message := error_message j |}.

Definition set_is_complete (v : bool) (j : RemoteRenderJob) : RemoteRenderJob :=
  {| job_id := job_id j; scene_name := scene_name j; submitted_time := submitted_time j;
     status := status j; progress := progress j; is_complete := v;
     has_notification := has_notification j; error_message := error_message j |}.

Definition set_has_notification (v : bool) (j : RemoteRenderJob) : RemoteRenderJob :=
  {| job_id := job_id j; scene_name := scene_name j; submitted_time := submitted_time j;
     status := status j; progress := progress j; is_complete := is_complete j;
     has_notification := v; error_message := error_message j |}.

Definition set_error_message (v : string) (j : RemoteRenderJob) : RemoteRenderJob :=
  {| job_id := job_id j; scene_name := scene_name j; submitted_time := submitted_time j;
     status := status j; progress := progress j; is_complete := is_complete j;
     has_notification := has_notification j; error_message := v |}.

(** The items of the [render_quality] enum property. *)
Inductive Quality := CUSTOM | FAST | HIGH.

(** The identifier Python code reads from the enum property. *)
Definition quality_id (q : Quality) : string :=
  match q with CUSTOM => "CUSTOM" | FAST => "FAST" | HIGH => "HIGH" end.

(** [ServerIntegratedSettings(PropertyGroup)] *)
Record ServerIntegratedSettings := {
  server_url : string;
  start_frame : Z;
  end_frame : Z;
  jobs : list RemoteRenderJob;
  show_notifications : bool;
  render_quality : Quality;
  server_status : string;
  last_check : string
}.

Definition set_jobs (l : list RemoteRenderJob) (s : ServerIntegratedSettings)
  : ServerIntegratedSettings :=
  {| server_url := server_url s; start_frame := start_frame s; end_frame := end_frame s;
     jobs := l; show_notifications := show_notifications s;
     render_quality := render_quality s; server_status := server_status s;
     last_check := last_check s |}.

(** What the operators read from [bpy]: [bpy.data.filepath] and the
    render settings of [bpy.context.scene].  Strings that come from
    Blender are C strings: they hold no NUL character. *)
Record Bpy := {
  data_filepath : string;
  resolution_x : Z;
  resolution_y : Z;
  render_engine : string;
  cycles_samples : Z
}.

(** ** Effects *)

(** Functions handed to [bpy.app.timers.register]. *)
Inductive callback :=
| update_ui
| show_notification (level message : string).

(** What an operator does to the outside world, in order. *)
Inductive event :=
| HttpGet (url : string) (timeout : Z)
| HttpPostJson (url : string) (payload : json) (timeout : Z)
| HttpPostFile (url : string) (filename : string) (timeout : Z)
| Report (level message : string)
| TimerRegister (cb : callback)
| DesktopNotify (title message : string) (timeout : Z)
| Sleep (seconds : Z)
| ThreadStart (monitored : string)
| SaveMainfile (path : string)
| Print (text : string)
| StartFile (path : string)
| System (command : string).

(** What may be special about something that stands at a path: it is a
    directory, a file the add-on may delete but not read, or a file it may
    read but not delete (its directory is read-only). *)
Inductive obstacle :=
| Directory
| UnreadableFile
| ProtectedFile.

(** The file system as far as the add-on meets it: the paths at which
    something exists, and which of them are special.  What exists and is
    not special is a file the add-on may read, overwrite and delete;
    [special] is consulted only for paths that exist. *)
Record filesystem := {
  existing : gset string;
  special : gmap string obstacle
}.

(** The mutable world: the scene's settings (with the job collection),
    the file system, and the log of effects so far. *)
Record state := {
  settings : ServerIntegratedSettings;
  fs : filesystem;
  trace : list event
}.

(** The paths at which something exists: what [os.path.exists] sees. *)
Definition files (s : state) : gset string := existing (fs s).

Inductive result (A : Type) :=
| Ok (a : A)
| Raise (e : exn).
Arguments Ok {A} a.
Arguments Raise {A} e.

(** A Python computation: runs on a state, returns or raises. *)
Definition M (A : Type) : Type := state -> result A * state.

Definition ret {A} (a : A) : M A := fun s => (Ok a, s).

Definition raise {A} (e : exn) : M A := fun s => (Raise e, s).

Definition bind {A B} (m : M A) (k : A -> M B) : M B :=
  fun s => match m s with
           | (Ok a, s') => k a s'
           | (Raise e, s') => (Raise e, s')
           end.

Notation "x <- c1 ;; c2" := (bind c1 (fun x => c2))
  (at level 100, c1 at next level, right associativity).
Notation "c1 ;; c2" := (bind c1 (fun _ => c2))
  (at level 100, right associativity).

Definition lift {A} (r : exn + A) : M A :=
  match r with inl e => raise e | inr a => ret a end.

(** [try: body  except Exception as e: handler e] *)
Definition try_except {A} (body : M A) (handler : exn -> M A) : M A :=
  fun s => match body s with
           | (Ok a, s') => (Ok a, s')
           | (Raise e, s') => handler e s'
           end.

(** [try: body  finally: cleanup]; an exception of the cleanup replaces
    the outcome of the body. *)
Definition try_finally {A} (body : M A) (cleanup : M unit) : M A :=
  fun s => match body s with
           | (r, s') =>
               match cleanup s' with
               | (Ok _, s'') => (r, s'')
               | (Raise e, s'') => (Raise e, s'')
               end
           end.

Definition emit (e : event) : M unit :=
  fun s => (Ok tt, {| settings := settings s; fs := fs s;
                      trace := trace s ++ [e] |}).

Definition get_settings : M ServerIntegratedSettings :=
  fun s => (Ok (settings s), s).

Definition put_jobs (l : list RemoteRenderJob) : M unit :=
  fun s => (Ok tt, {| settings := set_jobs l (settings s); fs := fs s;
                      trace := trace s |}).

(** Attribute assignment and attribute read through a reference to the
    [i]-th item of the collection.  A reference to a position past the
    end of the collection points at memory Blender no longer uses: an
    assignment through it is taken to be lost, a read to fail. *)
Definition update_job (i : nat) (f : RemoteRenderJob -> RemoteRenderJob) : M unit :=
  st <- get_settings ;; put_jobs (alter f i (jobs st)).

Definition read_job (i : nat) : M RemoteRenderJob :=
  st <- get_settings ;;
  match jobs st !! i with
  | Some j => ret j
  | None => raise (Exn RuntimeError "reference to a removed item")
  end.

Definition report (level message : string) : M unit := emit (Report level message).

Definition sleep (seconds : Z) : M unit := emit (Sleep seconds).

(** *** Blender property assignment *)

(** A Blender string property holds a C string: of a Python string with
    a NUL character in it, it keeps what precedes the first one. *)
Fixpoint cut_at_nul (s : string) : string :=
  match s with
  | EmptyString => ""
  | String c rest =>
      if Ascii.eqb c (ascii_of_nat 0) then "" else String c (cut_at_nul rest)
  end.

(** The Python string behind a value that a [StringProperty] accepts;
    anything but a [str] is refused. *)
Definition str_value (v : json) : exn + string :=
  match v with
  | JStr s => inr s
  | _ => inl (Exn TypeError "expected a string type")
  end.

(** Assigning to a [StringProperty]: what the property holds afterwards. *)
Definition to_string_prop (v : json) : exn + string :=
  match str_value v with
  | inl e => inl e
  | inr s => inr (cut_at_nul s)
  end.

(** Assigning to [progress], [IntProperty(min=0, max=100)]: a value
    outside the C int range is refused, one inside is clamped to the
    declared range. *)
Definition to_progress_prop (z : Z) : exn + Z :=
  if (- 2147483648 <=? z) && (z <=? 2147483647)
  then inr (Z.max 0 (Z.min 100 z))
  else inl (Exn OverflowError "value not in 'int' range").

(** *** The network *)

(** A [requests] response; [body] is [None] when [response.json()]
    raises. *)
Record response := { status_code : Z; body : option json }.

(** What one HTTP call does: raises, or returns a response. *)
Definition http_outcome : Type := exn + response.

Definition response_json (r : response) : M json :=
  match body r with
  | Some v => ret v
  | None => raise (Exn JSONDecodeError "Expecting value")
  end.

Definition requests_get (url : string) (timeout : Z) (net : http_outcome) : M response :=
  emit (HttpGet url timeout) ;; lift net.

Definition requests_post_json (url : string) (payload : json) (timeout : Z)
  (net : http_outcome) : M response :=
  emit (HttpPostJson url payload timeout) ;; lift net.

Definition requests_post_file (url filename : string) (timeout : Z)
  (net : http_outcome) : M response :=
  emit (HttpPostFile url filename timeout) ;; lift net.

(** [x in [200, 201]] and the like *)
Definition Z_in (x : Z) (l : list Z) : bool := existsb (Z.eqb x) l.

Definition str_in (x : string) (l : list string) : bool := existsb (String.eqb x) l.

(** *** The file system *)

(** The state with its file system replaced. *)
Definition with_fs (f : filesystem) (s : state) : state :=
  {| settings := settings s; fs := f; trace := trace s |}.

(** What [open(path, 'rb')] raises on a path that exists, if anything
    (classes as on Linux, messages abridged). *)
Definition open_refused (f : filesystem) (path : string) : option exn :=
  match special f !! path with
  | Some Directory => Some (Exn IsADirectoryError "Is a directory")
  | Some UnreadableFile => Some (Exn PermissionError "Permission denied")
  | Some ProtectedFile | None => None
  end.

(** What [os.remove(path)] raises on a path that exists, if anything. *)
Definition remove_refused (f : filesystem) (path : string) : option exn :=
  match special f !! path with
  | Some Directory => Some (Exn IsADirectoryError "Is a directory")
  | Some ProtectedFile => Some (Exn PermissionError "Permission denied")
  | Some UnreadableFile | None => None
  end.

(** The file system once what stood at [path] is gone. *)
Definition fs_unlink (path : string) (f : filesystem) : filesystem :=
  {| existing := existing f ∖ {[path]}; special := delete path (special f) |}.

(** The file system once [path] has been opened for writing: a file is
    there; one that was there before keeps what is special about it. *)
Definition fs_create (path : string) (f : filesystem) : filesystem :=
  {| existing := existing f ∪ {[path]};
     special := if bool_decide (path ∈ existing f) then special f
                else delete path (special f) |}.

(** The file system once a file has been written afresh at [path] by
    Blender: one the add-on may read and delete. *)
Definition fs_write (path : string) (f : filesystem) : filesystem :=
  {| existing := existing f ∪ {[path]}; special := delete path (special f) |}.

(** [rename(src, dst)] of what stands at [src]; what stood at [dst] is
    replaced. *)
Definition fs_rename (src dst : string) (f : filesystem) : filesystem :=
  {| existing := existing f ∖ {[src]} ∪ {[dst]};
     special := match special f !! src with
                | Some o => <[dst := o]> (delete src (special f))
                | None => delete dst (delete src (special f))
                end |}.

(** The [k]-th backup of a file that Blender saves: [scene.blend1],
    [scene.blend2], ... *)
Definition version_path (name : string) (k : nat) : string :=
  name +:+ pretty (Z.of_nat k).

(** The loop of Blender's [do_history]: for [hisnr] down to 2, what stands
    at backup [hisnr - 1] moves to backup [hisnr]. *)
Fixpoint shift_versions (name : string) (hisnr : nat) (f : filesystem) : filesystem :=
  match hisnr with
  | S (S _ as prev) =>
      shift_versions name prev
        (if bool_decide (version_path name prev ∈ existing f)
         then fs_rename (version_path name prev) (version_path name hisnr) f
         else f)
  | _ => f
  end.

(** Blender's [do_history], run before a saved file takes its place:
    with [versions] the preference "Save Versions" (1 unless the user
    changed it), the backups move up by one and what stands at [name]
    becomes the first backup. *)
Definition do_history (name : string) (versions : nat) (f : filesystem) : filesystem :=
  match versions with
  | O => f
  | S _ =>
      let shifted := shift_versions name versions f in
      if bool_decide (name ∈ existing shifted)
      then fs_rename name (version_path name 1) shifted
      else shifted
  end.

(** A save of Blender that succeeds: the scene is written to [path@], the
    backups are made, and [path@] is renamed to [path]. *)
Definition fs_save (path : string) (versions : nat) (f : filesystem) : filesystem :=
  fs_rename (path +:+ "@") path (do_history path versions (fs_write (path +:+ "@") f)).

Definition os_path_exists (path : string) : M bool :=
  fun s => (Ok (bool_decide (path ∈ files s)), s).

Definition os_remove (path : string) : M unit :=
  fun s => if bool_decide (path ∈ files s)
           then match remove_refused (fs s) path with
                | Some e => (Raise e, s)
                | None => (Ok tt, with_fs (fs_unlink path (fs s)) s)
                end
           else (Raise (Exn FileNotFoundError "No such file or directory"), s).

(** [with open(path, 'rb') as f: body] *)
Definition with_open {A} (path : string) (body : M A) : M A :=
  fun s => if bool_decide (path ∈ files s)
           then match open_refused (fs s) path with
                | Some e => (Raise e, s)
                | None => body s
                end
           else (Raise (Exn FileNotFoundError "No such file or directory"), s).

(** *** Desktop notifications *)

(** What happens at [import plyer] and [plyer.notification.notify]. *)
Inductive plyer_env :=
| plyer_missing
| plyer_notifies
| plyer_raises (e : exn).

Definition plyer_notify (title message : string) (timeout : Z) (env : plyer_env) : M unit :=
  match env with
  | plyer_missing => raise (Exn ModuleNotFoundError "No module named 'plyer'")
  | plyer_notifies => emit (DesktopNotify title message timeout)
  | plyer_raises e => raise e
  end.

(** [try: body  except ImportError: handler] *)
Definition try_except_ImportError {A} (body : M A) (handler : M A) : M A :=
  fun s => match body s with
           | (Ok a, s') => (Ok a, s')
           | (Raise e, s') => if is_ImportError e then handler s' else (Raise e, s')
           end.

(** ** The operators *)

Inductive op_result := FINISHED | CANCELLED.

(** What one pass of the polling loop does next. *)
Inductive control := Break | Continue.

(** What one poll tick meets outside the add-on. *)
Record tick_env := { poll : http_outcome; plyer : plyer_env }.

(** How a run of the polling loop stands once the ticks given to it are
    used up. *)
Inductive loop_end := Terminated | Polling.

(** What [execute] of the submit operator meets outside the add-on: the
    temporary directory, the clock, Blender's preference "Save Versions",
    what [save_as_mainfile] raises if it fails (for whatever reason: no
    permission, no space, a directory in the way, a backup that cannot be
    made; the files are then taken to be as they were), and the answers of
    the server.  The clock strings come from [time.strftime] and hold
    digits and colons. *)
Record submit_env := {
  temp_dir : string;
  now : Z;
  clock_hm : string;
  save_versions : nat;
  save_fails : option exn;
  upload_net : http_outcome;
  submit_net : http_outcome
}.

Module INTEGRATED_OT_submit_render.

Definition get_scene_name (bpy : Bpy) : string :=
  if negb (String.eqb (data_filepath bpy) "")
  then Py.basename (data_filepath bpy)
  else "Untitled.blend".

Definition save_scene_to_temp (env : submit_env) : M string :=
  let temp_filename := "remote_render_" +:+ pretty (now env) +:+ ".blend" in
  let temp_path := Py.path_join (temp_dir env) temp_filename in
  emit (SaveMainfile temp_path) ;;
  match save_fails env with
  | Some e => raise e
  | None =>
      fun s => (Ok temp_path, with_fs (fs_save temp_path (save_versions env) (fs s)) s)
  end.

Definition upload_file (server_url file_path : string) (net : http_outcome) : M json :=
  try_finally
    (try_except
       (response <- with_open file_path
                      (requests_post_file (server_url +:+ "/api/files/upload")
                         (Py.basename file_path) 60 net) ;;
        if Z_in (status_code response) [200; 201]
        then response_json response
        else
          report "ERROR" ("Upload failed: " +:+ pretty (status_code response)) ;;
          ret JNull)
       (fun e => report "ERROR" ("Upload error: " +:+ exn_msg e) ;; ret JNull))
    (present <- os_path_exists file_path ;;
     if present then os_remove file_path else ret tt).

(** The two request bodies of [submit_render_job]. *)
Definition preset_job_data (bpy : Bpy) (st : ServerIntegratedSettings)
  (fileName : json) : json :=
  JObj [ ("fileName", fileName);
         ("quality", JStr (quality_id (render_quality st)));
         ("startFrame", JInt (start_frame st));
         ("endFrame", JInt (end_frame st));
         ("resolutionX", JInt (resolution_x bpy));
         ("resolutionY", JInt (resolution_y bpy));
         ("outputFormat", JStr "PNG");
         ("description",
           JStr ("Blender render job from " +:+ get_scene_name bpy +:+ " ("
                 +:+ quality_id (render_quality st) +:+ " quality)")) ].

Definition custom_job_data (bpy : Bpy) (st : ServerIntegratedSettings)
  (fileName : json) : json :=
  JObj [ ("fileName", fileName);
         ("renderSettings",
           JObj [ ("startFrame", JInt (start_frame st));
                  ("endFrame", JInt (end_frame st));
                  ("resolutionX", JInt (resolution_x bpy));
                  ("resolutionY", JInt (resolution_y bpy));
                  ("samples",
                    if String.eqb (render_engine bpy) "CYCLES"
                    then JInt (cycles_samples bpy) else JNull);
                  ("outputFormat", JStr "PNG");
                  ("renderEngine", JStr (render_engine bpy));
                  ("deviceType", JStr "AUTO") ]);
         ("description", JStr ("Blender render job from " +:+ get_scene_name bpy)) ].

Definition submit_render_job (bpy : Bpy) (upload_result : json) (net : http_outcome)
  : M json :=
  st <- get_settings ;;
  request <-
    (if str_in (quality_id (render_quality st)) ["FAST"; "HIGH"]
     then
       fileName <- lift (Py.get upload_result "fileName" (JStr "unknown.blend")) ;;
       ret (preset_job_data bpy st fileName, server_url st +:+ "/api/presets/render")
     else
       fileName <- lift (Py.get upload_result "fileName" (JStr "unknown.blend")) ;;
       ret (custom_job_data bpy st fileName, server_url st +:+ "/api/jobs")) ;;
  let job_data := fst request in
  let endpoint := snd request in
  try_except
    (response <- requests_post_json endpoint job_data 30 net ;;
     if Z_in (status_code response) [200; 201]
     then response_json response
     else
       report "ERROR" ("Job submission failed: " +:+ pretty (status_code response)) ;;
       ret JNull)
    (fun e => report "ERROR" ("Job submission error: " +:+ exn_msg e) ;; ret JNull).

Definition show_blender_notification (level message : string) : M unit :=
  emit (TimerRegister (show_notification level message)).

Definition show_completion_notification (scene : string) (env : plyer_env) : M unit :=
  try_except_ImportError
    (plyer_notify "Render Complete! 🎉"
       ("Scene '" +:+ scene +:+ "' has finished rendering") 10 env)
    (show_blender_notification "INFO" ("🎉 Render Complete: " +:+ scene)).

Definition show_failure_notification (scene error : string) (env : plyer_env) : M unit :=
  try_except_ImportError
    (plyer_notify "Render Failed ❌"
       ("Scene '" +:+ scene +:+ "' failed: " +:+ Py.prefix 50 error +:+ "...") 10 env)
    (show_blender_notification "ERROR"
       ("❌ Render Failed: " +:+ scene +:+ " - " +:+ Py.prefix 50 error)).

(** Running a registered timer function on the main thread; [failure] is
    what the Blender call inside it raises, if anything.  Both functions
    wrap their body in a bare [except:]. *)
Definition run_callback (cb : callback) (failure : option exn) : M unit :=
  match cb with
  | update_ui =>
      try_except
        (match failure with Some e => raise e | None => ret tt end)
        (fun _ => ret tt)
  | show_notification level message =>
      try_except
        (match failure with
         | Some e => raise e
         | None => report level message
         end)
        (fun _ => emit (Print ("[" +:+ level +:+ "] " +:+ message)))
  end.

(** [for j in settings.jobs: if j.job_id == job_id: job = j; break]:
    the position of the first record with that id. *)
Fixpoint find_job (l : list RemoteRenderJob) (id : string) : option nat :=
  match l with
  | [] => None
  | j :: rest =>
      if String.eqb (job_id j) id then Some O
      else option_map S (find_job rest id)
  end.

(** [new_status = job_data.get('status', 'UNKNOWN')], for a value the
    assignment [job.status = new_status] accepts: the Python string, which
    is what the comparisons further down read.  The property itself holds
    [cut_at_nul new_status]. *)
Definition poll_status (job_data : json) : exn + string :=
  match Py.get job_data "status" (JStr "UNKNOWN") with
  | inl e => inl e
  | inr new_status => str_value new_status
  end.

(** [int(job_data.get('progress', 0))], as the integer property
    [job.progress] stores it. *)
Definition poll_progress (job_data : json) : exn + Z :=
  match Py.get job_data "progress" (JInt 0) with
  | inl e => inl e
  | inr v =>
      match Py.int v with
      | inl e => inl e
      | inr z => to_progress_prop z
      end
  end.

(** [if 'errorMessage' in job_data and job_data['errorMessage']:] and, if
    so, the value as the string property [job.error_message] accepts it. *)
Definition poll_error (job_data : json) : exn + option string :=
  if Py.has_key job_data "errorMessage"
  then match Py.getitem job_data "errorMessage" with
       | inl e => inl e
       | inr errorMessage =>
           if Py.truthy errorMessage
           then match to_string_prop errorMessage with
                | inl e => inl e
                | inr message => inr (Some message)
                end
           else inr None
       end
  else inr None.

(** The body of [if response.status_code == 200:]; [true] stands for
    [break]. *)
Definition apply_poll (i : nat) (response : response) (env : plyer_env) : M bool :=
  job_data <- response_json response ;;
  new_status <- lift (poll_status job_data) ;;
  update_job i (set_status (cut_at_nul new_status)) ;;
  new_progress <- lift (poll_progress job_data) ;;
  update_job i (set_progress new_progress) ;;
  new_error <- lift (poll_error job_data) ;;
  match new_error with
  | Some message => update_job i (set_error_message message)
  | None => ret tt
  end ;;
  emit (TimerRegister update_ui) ;;
  if str_in new_status ["COMPLETED"; "FAILED"]
  then
    update_job i (set_is_complete true) ;;
    update_job i (set_has_notification true) ;;
    st <- get_settings ;;
    job <- read_job i ;;
    (if String.eqb new_status "COMPLETED" && show_notifications st
     then show_completion_notification (scene_name job) env
     else if String.eqb new_status "FAILED"
          then show_failure_notification (scene_name job) (error_message job) env
          else ret tt) ;;
    emit (TimerRegister update_ui) ;;
    ret true
  else ret false.

(** What another thread does while this one waits: what it returns or
    raises stays with that thread, what it does to the state is there
    when this one goes on. *)
Definition elsewhere {A} (m : M A) : M unit :=
  fun s => (Ok tt, snd (m s)).

(** One pass through the body of [while True:] in [monitor_job], with
    [other] what the main thread (the operators behind the panel's
    buttons) does while the request is in flight.  [job] is a reference
    to the item found at position [i]: Blender does not tie it to the
    record, so the assignments through it reach whatever record stands at
    that position when they are made. *)
Definition monitor_tick_during (id : string) (env : tick_env) (other : M unit)
  : M control :=
  try_except
    (st <- get_settings ;;
     match find_job (jobs st) id with
     | None => ret Break
     | Some i =>
         response <- (emit (HttpGet (server_url st +:+ "/api/jobs/" +:+ id) 10) ;;
                      elsewhere other ;;
                      lift (poll env)) ;;
         stop <- (if status_code response =? 200
                  then apply_poll i response (plyer env)
                  else ret false) ;;
         if (stop : bool) then ret Break else sleep 5 ;; ret Continue
     end)
    (fun _ => sleep 10 ;; ret Continue).

(** The same pass when nothing else runs during the request. *)
Definition monitor_tick (id : string) (env : tick_env) : M control :=
  monitor_tick_during id env (ret tt).

(** [monitor_job], run against the answers the outside world gives to
    its successive ticks, nothing else running during its requests. *)
Fixpoint monitor_job (id : string) (envs : list tick_env) : M loop_end :=
  match envs with
  | [] => ret Polling
  | env :: rest =>
      c <- monitor_tick id env ;;
      match c with
      | Break => ret Terminated
      | Continue => monitor_job id rest
      end
  end.

(** [monitor_job] with, for each tick, what the main thread does during
    its request. *)
Fixpoint monitor_job_during (id : string) (ticks : list (tick_env * M unit))
  : M loop_end :=
  match ticks with
  | [] => ret Polling
  | (env, other) :: rest =>
      c <- monitor_tick_during id env other ;;
      match c with
      | Break => ret Terminated
      | Continue => monitor_job_during id rest
      end
  end.

Definition jobs_add : M nat :=
  st <- get_settings ;;
  put_jobs (jobs st ++ [RemoteRenderJob_default]) ;;
  ret (length (jobs st)).

Definition execute (bpy : Bpy) (env : submit_env) : M op_result :=
  try_except
    (report "INFO" "Preparing scene for upload..." ;;
     temp_blend_file <- save_scene_to_temp env ;;
     report "INFO" "Uploading scene to server..." ;;
     st <- get_settings ;;
     upload_result <- upload_file (server_url st) temp_blend_file (upload_net env) ;;
     if negb (Py.truthy upload_result) then ret CANCELLED else
     report "INFO" "Submitting render job..." ;;
     job_result <- submit_render_job bpy upload_result (submit_net env) ;;
     if negb (Py.truthy job_result) then ret CANCELLED else
     new_job <- jobs_add ;;
     id <- lift (Py.get job_result "id" (JStr "unknown")) ;;
     id_str <- lift (to_string_prop id) ;;
     update_job new_job (set_job_id id_str) ;;
     update_job new_job (set_scene_name (get_scene_name bpy)) ;;
     update_job new_job (set_submitted_time (clock_hm env)) ;;
     update_job new_job (set_status "SUBMITTED") ;;
     job <- read_job new_job ;;
     emit (ThreadStart (job_id job)) ;;
     report "INFO" ("Render submitted successfully! Job ID: " +:+ job_id job) ;;
     ret FINISHED)
    (fun e => report "ERROR" ("Error submitting job: " +:+ exn_msg e) ;; ret CANCELLED).

End INTEGRATED_OT_submit_render.

(** Where writing the archive fails, if it does: at [open(filepath, 'wb')],
    before anything is created, or at [f.write], after the file has been
    created or emptied. *)
Inductive write_failure :=
| at_open (e : exn)
| at_write (e : exn).

(** What [execute] of the download operator meets outside the add-on. *)
Record download_env := {
  download_net : http_outcome;
  home : string;
  downloads_exists : bool;
  write_fails : option write_failure;
  os_name : string;
  sysname : string
}.

Module INTEGRATED_OT_download_job.

(** the double-quote character *)
Definition dquote : string := String (ascii_of_nat 34) EmptyString.

Definition get_download_directory (bpy : Bpy) (env : download_env) : string :=
  if negb (String.eqb (data_filepath bpy) "")
  then Py.dirname (data_filepath bpy)
  else
    let downloads := Py.path_join (home env) "Downloads" in
    if downloads_exists env then downloads else home env.

(** [for job in settings.jobs: if job.job_id == self.job_id:
    job.has_notification = False; break] *)
Definition clear_notification (id : string) : M unit :=
  st <- get_settings ;;
  match INTEGRATED_OT_submit_render.find_job (jobs st) id with
  | Some i => update_job i (set_has_notification false)
  | None => ret tt
  end.

(** [open(path, 'wb')] that succeeds *)
Definition open_wb (path : string) : M unit :=
  fun s => (Ok tt, with_fs (fs_create path (fs s)) s).

(** [with open(filepath, 'wb') as f: f.write(response.content)] *)
Definition write_file (path : string) (env : download_env) : M unit :=
  match write_fails env with
  | Some (at_open e) => raise e
  | Some (at_write e) => open_wb path ;; raise e
  | None => open_wb path
  end.

Definition execute (bpy : Bpy) (id : string) (env : download_env) : M op_result :=
  try_except
    (st <- get_settings ;;
     response <- requests_get (server_url st +:+ "/api/files/download/" +:+ id) 60
                   (download_net env) ;;
     if status_code response =? 200
     then
       let download_dir := get_download_directory bpy env in
       let filename := "render_job_" +:+ id +:+ ".zip" in
       let filepath := Py.path_join download_dir filename in
       write_file filepath env ;;
       clear_notification id ;;
       report "INFO" ("Results downloaded to: " +:+ filepath) ;;
       (if String.eqb (os_name env) "nt"
        then emit (StartFile download_dir)
        else if String.eqb (os_name env) "posix"
             then emit (System (if String.eqb (sysname env) "Darwin"
                                then "open " +:+ dquote +:+ download_dir +:+ dquote
                                else "xdg-open " +:+ dquote +:+ download_dir +:+ dquote))
             else ret tt)
     else report "ERROR" ("Download failed: " +:+ pretty (status_code response)))
    (fun e => report "ERROR" ("Download error: " +:+ exn_msg e)) ;;
  ret FINISHED.

End INTEGRATED_OT_download_job.

Module INTEGRATED_OT_clear_job.

(** [settings.jobs.remove(self.job_index)]: an index outside the
    collection removes nothing. *)
Definition execute (job_index : Z) : M op_result :=
  st <- get_settings ;;
  (if 0 <=? job_index
   then put_jobs (delete (Z.to_nat job_index) (jobs st))
   else ret tt) ;;
  ret FINISHED.

End INTEGRATED_OT_clear_job.

Module INTEGRATED_OT_clear_all_jobs.

(** [settings.jobs[i]] *)
Definition jobs_getitem (i : nat) : M RemoteRenderJob :=
  st <- get_settings ;;
  match jobs st !! i with
  | Some j => ret j
  | None => raise (Exn IndexError "bpy_prop_collection[index]: index out of range")
  end.

Definition jobs_remove (i : nat) : M unit :=
  st <- get_settings ;; put_jobs (delete i (jobs st)).

(** [for i in range(n - 1, -1, -1): ...] *)
Fixpoint clear_from (n : nat) : M unit :=
  match n with
  | O => ret tt
  | S i =>
      job <- jobs_getitem i ;;
      (if is_complete job then jobs_remove i else ret tt) ;;
      clear_from i
  end.

Definition execute : M op_result :=
  st <- get_settings ;;
  clear_from (length (jobs st)) ;;
  ret FINISHED.

End INTEGRATED_OT_clear_all_jobs.

Module INTEGRATED_PT_remote_render.

(** The three counters of [draw_jobs_section]. *)
Definition completed_count (st : ServerIntegratedSettings) : nat :=
  length (List.filter is_complete (jobs st)).

Definition pending_count (st : ServerIntegratedSettings) : nat :=
  (length (jobs st) - completed_count st)%nat.

Definition new_count (st : ServerIntegratedSettings) : nat :=
  length (List.filter has_notification (jobs st)).

(** The label of the alert row, drawn only [if new_count > 0]. *)
Definition badge (st : ServerIntegratedSettings) : option string :=
  if (0 <? new_count st)%nat
  then Some ("🔴 " +:+ pretty (Z.of_nat (new_count st)) +:+ " new")
  else None.

End INTEGRATED_PT_remote_render.

Import INTEGRATED_OT_submit_render.

(** ** Vocabulary of the statements *)

(** The JSON POST requests of a log, in order: target and body. *)
Fixpoint posts (t : list event) : list (string * json) :=
  match t with
  | [] => []
  | HttpPostJson url payload _ :: rest => (url, payload) :: posts rest
  | _ :: rest => posts rest
  end.

(** The state with its job collection replaced. *)
Definition with_jobs (l : list RemoteRenderJob) (s : state) : state :=
  {| settings := set_jobs l (settings s); fs := fs s; trace := trace s |}.

(** The records [Clear All Completed] is to keep. *)
Definition not_complete (j : RemoteRenderJob) : bool := negb (is_complete j).

(** The state with further events logged. *)
Definition log (evs : list event) (s : state) : state :=
  {| settings := settings s; fs := fs s; trace := trace s ++ evs |}.

(** A settings value and a state to run examples on. *)
Definition settings0 : ServerIntegratedSettings := {|
  server_url := "http://localhost:8080";
  start_frame := 1;
  end_frame := 10;
  jobs := [];
  show_notifications := true;
  render_quality := FAST;
  server_status := "Unknown";
  last_check := ""
|}.

Definition bpy0 : Bpy := {|
  data_filepath := "/home/artist/shot.blend";
  resolution_x := 1920;
  resolution_y := 1080;
  render_engine := "CYCLES";
  cycles_samples := 128
|}.

Definition state0 : state :=
  {| settings := settings0;
     fs := {| existing := {["/tmp/remote_render_1.blend"]}; special := ∅ |};
     trace := [] |}.

(** A running job and a state whose store holds just that job. *)
Definition job1 : RemoteRenderJob := {|
  job_id := "job-1";
  scene_name := "shot.blend";
  submitted_time := "12:00";
  status := "RUNNING";
  progress := 40;
  is_complete := false;
  has_notification := true;
  error_message := ""
|}.

Definition state1 : state := with_jobs [job1] state0.

(** The address polled for a job. *)
Definition poll_url (s : state) (id : string) : string :=
  server_url (settings s) +:+ "/api/jobs/" +:+ id.

(** What a poll with status [new_status], progress [new_progress] and
    error message [new_error] writes into a record before any flag. *)
Definition write_poll (new_status : string) (new_progress : Z)
  (new_error : option string) (j : RemoteRenderJob) : RemoteRenderJob :=
  match new_error with
  | Some message =>
      set_error_message message
        (set_progress new_progress (set_status (cut_at_nul new_status) j))
  | None => set_progress new_progress (set_status (cut_at_nul new_status) j)
  end.

(** The two flags raised on a terminal status. *)
Definition mark_complete (j : RemoteRenderJob) : RemoteRenderJob :=
  set_has_notification true (set_is_complete true j).

(** The notification call made on a terminal status, as [monitor_job]
    gates it. *)
Definition terminal_notification (show : bool) (new_status : string)
  (j : RemoteRenderJob) (env : plyer_env) : M unit :=
  if String.eqb new_status "COMPLETED" && show
  then show_completion_notification (scene_name j) env
  else if String.eqb new_status "FAILED"
       then show_failure_notification (scene_name j) (error_message j) env
       else ret tt.


(** The invariant the data model asks of a record: the completion flag
    is set exactly on the two terminal statuses. *)
Definition job_invariant (j : RemoteRenderJob) : Prop :=
  is_complete j = true <-> (status j = "COMPLETED" \/ status j = "FAILED").

(** Answers of the server used in the examples. *)
Definition completed_answer : tick_env :=
  {| poll := inr {| status_code := 200;
                    body := Some (JObj [("status", JStr "COMPLETED");
                                        ("progress", JInt 100)]) |};
     plyer := plyer_notifies |}.

Definition malformed_progress_answer : tick_env :=
  {| poll := inr {| status_code := 200;
                    body := Some (JObj [("status", JStr "COMPLETED");
                                        ("progress", JStr "abc")]) |};
     plyer := plyer_notifies |}.

(** What [execute] meets when everything goes well. *)
Definition submit_env0 : submit_env := {|
  temp_dir := "/tmp";
  now := 1;
  clock_hm := "12:00";
  save_versions := 1;
  save_fails := None;
  upload_net := inr {| status_code := 200;
                       body := Some (JObj [("fileName", JStr "remote_render_1.blend")]) |};
  submit_net := inr {| status_code := 201;
                       body := Some (JObj [("id", JStr "job-2")]) |}
|}.

(** ** Frames *)

(** A computation keeps a relation between the state it starts in and the
    state it leaves, however it ends. *)
Definition keeps {A} (R : state -> state -> Prop) (m : M A) : Prop :=
  forall s, R s (snd (m s)).

(** What a poller may do to a record: the identifying fields stay and a
    raised flag stays raised. *)
Definition same_identity (j j' : RemoteRenderJob) : Prop :=
  job_id j' = job_id j
  /\ scene_name j' = scene_name j
  /\ submitted_time j' = submitted_time j
  /\ (is_complete j = true -> is_complete j' = true)
  /\ (has_notification j = true -> has_notification j' = true).

(** What a poller bound to the record at index [i] may do to the state:
    no file and no setting but the job collection changes, the collection
    keeps its length, every record keeps its identity, and only the record
    at [i] changes at all. *)
Definition poll_frame (i : nat) (s s' : state) : Prop :=
  fs s' = fs s
  /\ set_jobs [] (settings s') = set_jobs [] (settings s)
  /\ length (jobs (settings s')) = length (jobs (settings s))
  /\ forall k j, jobs (settings s) !! k = Some j ->
                 exists j', jobs (settings s') !! k = Some j'
                            /\ same_identity j j'
                            /\ (k <> i -> j' = j).

(** What a poller may do to the job collection when it holds a reference
    to position [i]: the collection keeps its length, every record keeps
    its identity, and only the record at [i] changes at all. *)
Definition jobs_frame (i : nat) (s s' : state) : Prop :=
  length (jobs (settings s')) = length (jobs (settings s))
  /\ forall k j, jobs (settings s) !! k = Some j ->
                 exists j', jobs (settings s') !! k = Some j'
                            /\ same_identity j j'
                            /\ (k <> i -> j' = j).

(** What the main thread does during a request leaves the job
    collection as it is; leaves the settings and the files as they are. *)
Definition keeps_jobs (other : M unit) : Prop :=
  forall s, jobs (settings (snd (other s))) = jobs (settings s).

Definition keeps_store (other : M unit) : Prop :=
  forall s, settings (snd (other s)) = settings s /\ fs (snd (other s)) = fs s.

(** A second job, and a store holding both. *)
Definition job2 : RemoteRenderJob := {|
  job_id := "job-2";
  scene_name := "title.blend";
  submitted_time := "12:05";
  status := "RUNNING";
  progress := 10;
  is_complete := false;
  has_notification := true;
  error_message := ""
|}.

Definition state2 : state := with_jobs [job1; job2] state0.

(** The declared range of [progress]. *)
Definition progress_in_range (j : RemoteRenderJob) : Prop := 0 <= progress j <= 100.

(** The GET requests of a log, in order. *)
Fixpoint gets (t : list event) : list string :=
  match t with
  | [] => []
  | HttpGet url _ :: rest => url :: gets rest
  | _ :: rest => gets rest
  end.

(** A state relation: records in range stay in range. *)
Definition keeps_range (s s' : state) : Prop :=
  Forall progress_in_range (jobs (settings s)) ->
  Forall progress_in_range (jobs (settings s')).

(** What a failing tick logs: the request and the pause that follows,
    10 seconds after an exception, 5 after a refused request. *)
Definition failed_tick_events (url : string) (env : tick_env) : list event :=
  [HttpGet url 10; Sleep (match poll env with inl _ => 10 | inr _ => 5 end)].

(** The request of a tick raises, or is answered with a status other
    than 200. *)
Definition request_fails (env : tick_env) : Prop :=
  match poll env with
  | inl _ => True
  | inr r => status_code r <> 200
  end.

(** Further answers of the server used in examples. *)
Definition cancelled_answer : tick_env :=
  {| poll := inr {| status_code := 200;
                    body := Some (JObj [("status", JStr "CANCELLED");
                                        ("progress", JInt 40)]) |};
     plyer := plyer_notifies |}.




(** ** The connection test *)

Definition set_server_status (v : string) (s : ServerIntegratedSettings)
  : ServerIntegratedSettings :=
  {| server_url := server_url s; start_frame := start_frame s; end_frame := end_frame s;
     jobs := jobs s; show_notifications := show_notifications s;
     render_quality := render_quality s; server_status := v;
     last_check := last_check s |}.

Definition set_last_check (v : string) (s : ServerIntegratedSettings)
  : ServerIntegratedSettings :=
  {| server_url := server_url s; start_frame := start_frame s; end_frame := end_frame s;
     jobs := jobs s; show_notifications := show_notifications s;
     render_quality := render_quality s; server_status := server_status s;
     last_check := v |}.

(** Assignment to a property of the settings. *)
Definition update_settings (f : ServerIntegratedSettings -> ServerIntegratedSettings)
  : M unit :=
  fun s => (Ok tt, {| settings := f (settings s); fs := fs s; trace := trace s |}).

(** What [execute] of the connection test meets outside the add-on: the
    answer to the health request and [time.strftime("%H:%M:%S")]. *)
Record connection_env := { health : http_outcome; clock_hms : string }.

Module INTEGRATED_OT_test_connection.

(** [format_value] stands for Python's formatting of a value inside an
    f-string, which only shapes the text of the success report. *)
Definition execute (format_value : json -> string) (env : connection_env) : M op_result :=
  try_except
    (st <- get_settings ;;
     response <- requests_get (server_url st +:+ "/health") 5 (health env) ;;
     if status_code response =? 200
     then
       data <- response_json response ;;
       update_settings (set_server_status "Connected ✓") ;;
       update_settings (set_last_check (clock_hms env)) ;;
       reported <- lift (Py.get data "status" (JStr "unknown")) ;;
       report "INFO" ("Server connection successful! Status: " +:+ format_value reported)
     else
       update_settings (set_server_status ("Error " +:+ pretty (status_code response))) ;;
       report "ERROR" ("Server returned status: " +:+ pretty (status_code response)))
    (fun e =>
       if is_a (exn_cls e) ConnectionError
       then
         update_settings (set_server_status "Connection Failed") ;;
         report "ERROR" "Could not connect to server. Is it running?"
       else if is_a (exn_cls e) Timeout
       then
         update_settings (set_server_status "Timeout") ;;
         report "ERROR" "Connection timeout"
       else
         update_settings (set_server_status "Error") ;;
         report "ERROR" ("Connection failed: " +:+ exn_msg e)) ;;
  ret FINISHED.

End INTEGRATED_OT_test_connection.

(** ** The panel *)

(** What the draw functions put into a layout. *)
Inductive widget :=
| ui_label (text : string) (icon : option string)
| ui_prop (name : string) (text : option string) (slider : bool)
| ui_operator (idname : string) (text icon : option string) (props : list (string * json))
| ui_separator
| ui_row (alert : bool) (children : list widget)
| ui_column (alert : bool) (children : list widget)
| ui_box (alert : bool) (children : list widget).

Module Layout.

(** [needle in hay] for two strings *)
Fixpoint starts_with (p s : string) : bool :=
  match p, s with
  | EmptyString, _ => true
  | String a p', String b s' => Ascii.eqb a b && starts_with p' s'
  | String _ _, EmptyString => false
  end.

Fixpoint str_contains (needle hay : string) : bool :=
  starts_with needle hay
  || match hay with
     | EmptyString => false
     | String _ rest => str_contains needle rest
     end.

Definition draw_server_section (st : ServerIntegratedSettings) : widget :=
  ui_box false
    ([ ui_label "Server Connection" (Some "WORLD");
       ui_prop "server_url" None false;
       ui_row false
         (ui_operator "integrated.test_connection" None (Some "PLUGIN") []
          :: if negb (String.eqb (server_status st) "")
             then [ if str_contains "✓" (server_status st)
                    then ui_column false [ui_label (server_status st) (Some "CHECKMARK")]
                    else ui_column true [ui_label (server_status st) (Some "ERROR")] ]
             else []) ]
     ++ if negb (String.eqb (server_status st) "") && negb (String.eqb (last_check st) "")
        then [ui_label ("Last check: " +:+ last_check st) None]
        else []).

Definition draw_render_settings (bpy : Bpy) (st : ServerIntegratedSettings) : widget :=
  ui_box false
    ([ ui_label "Render Settings" (Some "SETTINGS");
       ui_row false [ui_prop "render_quality" None false] ]
     ++ (if String.eqb (quality_id (render_quality st)) "FAST"
         then [ui_box false [ ui_label "Fast Preset:" (Some "INFO");
                              ui_label "• 64 samples, 4 light bounces" None;
                              ui_label "• Optimized for speed and previews" None ]]
         else if String.eqb (quality_id (render_quality st)) "HIGH"
              then [ui_box false [ ui_label "High Quality Preset:" (Some "INFO");
                                   ui_label "• 1024 samples, 12 light bounces" None;
                                   ui_label "• Maximum quality for final renders" None ]]
              else [])
     ++ [ ui_separator;
          ui_row false [ui_prop "start_frame" None false; ui_prop "end_frame" None false];
          ui_row false [ui_label ("Resolution: " +:+ pretty (resolution_x bpy) +:+ "×"
                                  +:+ pretty (resolution_y bpy)) None];
          ui_row false [ui_label ("Engine: " +:+ render_engine bpy) None];
          ui_prop "show_notifications" None false ]).

Definition draw_job_item (job : RemoteRenderJob) (index : nat) : widget :=
  ui_box (has_notification job)
    ([ ui_row false
         [ (if is_complete job
            then if String.eqb (status job) "COMPLETED"
                 then ui_label "" (Some "CHECKMARK")
                 else ui_label "" (Some "CANCEL")
            else ui_label "" (Some "TIME"));
           ui_label (scene_name job +:+ " (" +:+ submitted_time job +:+ ")") None ];
       ui_row false [ui_label ("Status: " +:+ status job) None] ]
     ++ (if negb (is_complete job) && (0 <? progress job)
         then [ui_row false [ui_prop "progress" (Some "Progress") true]]
         else [])
     ++ (if negb (String.eqb (error_message job) "")
         then [ui_row true
                 [ui_label ("Error: " +:+ Py.prefix 50 (error_message job) +:+ "...") None]]
         else [])
     ++ [ ui_row false
            ((if is_complete job && String.eqb (status job) "COMPLETED"
              then [ui_operator "integrated.download_job" (Some "Download") (Some "IMPORT")
                      [("job_id", JStr (job_id job))]]
              else [])
             ++ [ui_operator "integrated.clear_job" (Some "Remove") (Some "X")
                   [("job_index", JInt (Z.of_nat index))]]) ]).

(** [for i, job in enumerate(settings.jobs): self.draw_job_item(...)],
    counting from [i]. *)
Fixpoint draw_job_items (i : nat) (l : list RemoteRenderJob) : list widget :=
  match l with
  | [] => []
  | job :: rest => draw_job_item job i :: draw_job_items (S i) rest
  end.

Definition draw_jobs_section (st : ServerIntegratedSettings) : widget :=
  let completed_count := INTEGRATED_PT_remote_render.completed_count st in
  let pending_count := INTEGRATED_PT_remote_render.pending_count st in
  let new_count := INTEGRATED_PT_remote_render.new_count st in
  ui_box false
    ([ ui_row false
         [ ui_label "Render Jobs" (Some "RENDER_RESULT");
           ui_operator "integrated.refresh_ui" (Some "") (Some "FILE_REFRESH") [] ] ]
     ++ (if (0 <? new_count)%nat
         then [ui_row true
                 [ui_label ("🔴 " +:+ pretty (Z.of_nat new_count) +:+ " new") None]]
         else [])
     ++ (if (0 <? length (jobs st))%nat
         then [ui_row false
                 [ui_label ("Pending: " +:+ pretty (Z.of_nat pending_count)
                            +:+ " | Completed: " +:+ pretty (Z.of_nat completed_count))
                    None]]
         else [])
     ++ (if (length (jobs st) =? 0)%nat
         then [ui_label "No render jobs yet" (Some "INFO")]
         else draw_job_items 0 (jobs st))
     ++ (if (0 <? completed_count)%nat
         then [ui_operator "integrated.clear_all_jobs" None (Some "TRASH") []]
         else [])).

Definition draw (bpy : Bpy) (st : ServerIntegratedSettings) : list widget :=
  [ draw_server_section st;
    ui_separator;
    draw_render_settings bpy st;
    ui_separator;
    ui_operator "integrated.submit_render" (Some "Render on Server")
      (Some "RENDER_ANIMATION") [];
    ui_separator;
    draw_jobs_section st ].

End Layout.

(** The operator buttons of a layout, in drawing order: operator and the
    properties assigned to it. *)
Fixpoint buttons (w : widget) : list (string * list (string * json)) :=
  match w with
  | ui_operator idname _ _ props => [(idname, props)]
  | ui_row _ children | ui_column _ children | ui_box _ children =>
      flat_map buttons children
  | _ => []
  end.

(** The icons of the labels of a layout, in drawing order. *)
Fixpoint icons (w : widget) : list string :=
  match w with
  | ui_label _ (Some icon) => [icon]
  | ui_row _ children | ui_column _ children | ui_box _ children =>
      flat_map icons children
  | _ => []
  end.

(** The job a [Download] button would fetch. *)
Definition downloadable (j : RemoteRenderJob) : bool :=
  is_complete j && String.eqb (status j) "COMPLETED".

(** The buttons of a layout that call a given operator. *)
Definition buttons_of (idname : string) (w : widget)
  : list (string * list (string * json)) :=
  List.filter (fun b => String.eqb (fst b) idname) (buttons w).

(** The [Remove] button of the record drawn at position [i], and the
    [Download] button of a record. *)
Definition remove_button (i : nat) : string * list (string * json) :=
  ("integrated.clear_job", [("job_index", JInt (Z.of_nat i))]).

Definition download_button (j : RemoteRenderJob) : string * list (string * json) :=
  ("integrated.download_job", [("job_id", JStr (job_id j))]).

(** Where the download operator writes the archive of a job. *)
Definition archive_path (bpy : Bpy) (id : string) (env : download_env) : string :=
  Py.path_join (INTEGRATED_OT_download_job.get_download_directory bpy env)
    ("render_job_" +:+ id +:+ ".zip").

(** The store after the notification flag of the first record with id
    [id] has been cleared. *)
Definition flag_cleared (id : string) (l : list RemoteRenderJob) : list RemoteRenderJob :=
  match find_job l id with
  | Some i => alter (set_has_notification false) i l
  | None => l
  end.

(** A failed download leaves the archive behind: the answer was a 200
    and [f.write] raised after [open] had created or emptied the file. *)
Definition archive_left (env : download_env) : bool :=
  match download_net env, write_fails env with
  | inr r, Some (at_write _) => status_code r =? 200
  | _, _ => false
  end.

(** What [execute] of the download operator meets when all goes well. *)
Definition download_env0 : download_env := {|
  download_net := inr {| status_code := 200; body := None |};
  home := "/home/artist";
  downloads_exists := true;
  write_fails := None;
  os_name := "posix";
  sysname := "Linux"
|}.

(** The health request was answered with status 200 and a JSON object. *)
Definition server_is_healthy (env : connection_env) : bool :=
  match health env with
  | inr r => (status_code r =? 200)
             && match body r with Some (JObj _) => true | _ => false end
  | inl _ => false
  end.

(** No character of [s] is [c]. *)
Fixpoint lacks (c : ascii) (s : string) : bool :=
  match s with
  | EmptyString => true
  | String a rest => negb (Ascii.eqb c a) && lacks c rest
  end.

(** The ids for which a monitor thread was started, in order. *)
Fixpoint threads (t : list event) : list string :=
  match t with
  | [] => []
  | ThreadStart id :: rest => id :: threads rest
  | _ :: rest => threads rest
  end.

(** The path [save_scene_to_temp] saves to. *)
Definition temp_path (env : submit_env) : string :=
  Py.path_join (temp_dir env) ("remote_render_" +:+ pretty (now env) +:+ ".blend").

(** [job_result.get('id', 'unknown')], as the string property [job_id]
    accepts it. *)
Definition submitted_id (job_result : json) : exn + string :=
  match Py.get job_result "id" (JStr "unknown") with
  | inl e => inl e
  | inr id => to_string_prop id
  end.

(** The record a submission creates for job [id]. *)
Definition new_record (bpy : Bpy) (env : submit_env) (id : string) : RemoteRenderJob :=
  set_status "SUBMITTED"
    (set_submitted_time (clock_hm env)
       (set_scene_name (get_scene_name bpy) (set_job_id id RemoteRenderJob_default))).

(** The last part of [execute]: from [settings.jobs.add()] on. *)
Definition register_job (bpy : Bpy) (env : submit_env) (job_result : json) : M op_result :=
  new_job <- jobs_add ;;
  id <- lift (Py.get job_result "id" (JStr "unknown")) ;;
  id_str <- lift (to_string_prop id) ;;
  update_job new_job (set_job_id id_str) ;;
  update_job new_job (set_scene_name (get_scene_name bpy)) ;;
  update_job new_job (set_submitted_time (clock_hm env)) ;;
  update_job new_job (set_status "SUBMITTED") ;;
  job <- read_job new_job ;;
  emit (ThreadStart (job_id job)) ;;
  report "INFO" ("Render submitted successfully! Job ID: " +:+ job_id job) ;;
  ret FINISHED.

(** The part of [execute] that follows the upload. *)
Definition after_upload (bpy : Bpy) (env : submit_env) (upload_result : json)
  : M op_result :=
  if negb (Py.truthy upload_result) then ret CANCELLED else
  report "INFO" "Submitting render job..." ;;
  job_result <- submit_render_job bpy upload_result (submit_net env) ;;
  if negb (Py.truthy job_result) then ret CANCELLED else
  register_job bpy env job_result.

(** The upload, or the job creation, was answered with 200 or 201 and a
    body that parses to [v]. *)
Definition accepted (net : http_outcome) (v : json) : Prop :=
  exists r, net = inr r /\ Z_in (status_code r) [200; 201] = true /\ body r = Some v.

(** A state relation: no request has been logged in between. *)
Definition no_traffic (s s' : state) : Prop :=
  gets (trace s') = gets (trace s) /\ posts (trace s') = posts (trace s).

(** What an accepted request hands back: the parsed body of a 200 or
    201 answer, [None] otherwise. *)
Definition answer (net : http_outcome) : json :=
  match net with
  | inr r =>
      if Z_in (status_code r) [200; 201]
      then match body r with Some v => v | None => JNull end
      else JNull
  | inl _ => JNull
  end.

(** [path] exists and [os.remove] refuses it. *)
Definition remove_blocked (path : string) (s : state) : bool :=
  bool_decide (path ∈ files s)
  && match remove_refused (fs s) path with Some _ => true | None => false end.

(** [path] exists and [open(path, 'rb')] accepts it. *)
Definition can_open (path : string) (s : state) : bool :=
  bool_decide (path ∈ files s)
  && match open_refused (fs s) path with Some _ => false | None => true end.

(** Two paths agree on what stands there, before and after. *)
Definition same_at (p : string) (f f' : filesystem) : Prop :=
  (p ∈ existing f' <-> p ∈ existing f) /\ special f' !! p = special f !! p.

(** [state0] with a directory in the temporary directory. *)
Definition state_dir : state :=
  with_fs {| existing := {["/tmp/remote_render_1.blend"; "/tmp/renders"]};
             special := {["/tmp/renders" := Directory]} |} state0.

(** * Properties *)

(** Unfolds the monad's combinators and the primitives built from them. *)
Ltac run_py :=
  repeat progress
    (unfold response_json, requests_get, requests_post_json, requests_post_file,
       report, sleep, update_job, read_job, put_jobs, get_settings,
       os_path_exists, os_remove, with_open, INTEGRATED_OT_download_job.open_wb,
       plyer_notify,
       try_except, try_finally, try_except_ImportError,
       lift, emit, bind, ret, raise in *;
     simpl in *).

(** ** Reading the log *)

Lemma posts_app (t1 t2 : list event) : posts (t1 ++ t2) = posts t1 ++ posts t2.
Proof.
  induction t1 as [|e t1 IH]; [reflexivity|].
  destruct e; simpl; rewrite ?IH; reflexivity.
Qed.

(** [x in ['FAST', 'HIGH']] on the enum's identifiers *)
Lemma quality_is_preset (q : Quality) :
  str_in (quality_id q) ["FAST"; "HIGH"] = true <-> q = FAST \/ q = HIGH.
Proof.
  destruct q; simpl; split; intros H; try discriminate; auto;
    destruct H; discriminate.
Qed.

(** ** Submission *)

(** C1: [submit_render_job] sends exactly one JSON POST.  It goes to
    [/api/presets/render] with the eight-field preset body (file name,
    quality, frames, resolution, output format PNG, description) exactly
    when [render_quality] is FAST or HIGH, and to [/api/jobs] with the
    custom body (file name, the eight render settings, description)
    exactly when it is not, whatever the other settings, the scene, the
    upload result and the server's answer are. *)
Theorem submit_render_job_selects_by_quality :
  forall (bpy : Bpy) (s : state) (items : list (string * json)) (net : http_outcome),
    let st := settings s in
    let fileName := match Py.assoc "fileName" items with
                    | Some v => v
                    | None => JStr "unknown.blend"
                    end in
    let scene := get_scene_name bpy in
    let preset :=
      JObj [ ("fileName", fileName);
             ("quality", JStr (quality_id (render_quality st)));
             ("startFrame", JInt (start_frame st));
             ("endFrame", JInt (end_frame st));
             ("resolutionX", JInt (resolution_x bpy));
             ("resolutionY", JInt (resolution_y bpy));
             ("outputFormat", JStr "PNG");
             ("description",
               JStr ("Blender render job from " +:+ scene +:+ " ("
                     +:+ quality_id (render_quality st) +:+ " quality)")) ] in
    let custom :=
      JObj [ ("fileName", fileName);
             ("renderSettings",
               JObj [ ("startFrame", JInt (start_frame st));
                      ("endFrame", JInt (end_frame st));
                      ("resolutionX", JInt (resolution_x bpy));
                      ("resolutionY", JInt (resolution_y bpy));
                      ("samples",
                        if String.eqb (render_engine bpy) "CYCLES"
                        then JInt (cycles_samples bpy) else JNull);
                      ("outputFormat", JStr "PNG");
                      ("renderEngine", JStr (render_engine bpy));
                      ("deviceType", JStr "AUTO") ]);
             ("description", JStr ("Blender render job from " +:+ scene)) ] in
    exists endpoint payload,
      posts (trace (snd (submit_render_job bpy (JObj items) net s)))
      = posts (trace s) ++ [(endpoint, payload)]
      /\ ((render_quality st = FAST \/ render_quality st = HIGH) <->
          (endpoint = server_url st +:+ "/api/presets/render" /\ payload = preset))
      /\ (~ (render_quality st = FAST \/ render_quality st = HIGH) <->
          (endpoint = server_url st +:+ "/api/jobs" /\ payload = custom)).
Proof.
  intros bpy s items net st fileName scene preset custom.
  assert (Hscene : get_scene_name bpy = scene) by reflexivity.
  assert (Hposts : forall endpoint payload,
             posts (trace (snd (try_except
               (response <- requests_post_json endpoint payload 30 net ;;
                if Z_in (status_code response) [200; 201]
                then response_json response
                else
                  report "ERROR" ("Job submission failed: " +:+ pretty (status_code response)) ;;
                  ret JNull)
               (fun e => report "ERROR" ("Job submission error: " +:+ exn_msg e) ;; ret JNull)
               s)))
             = posts (trace s) ++ [(endpoint, payload)]).
  { intros endpoint payload.
    destruct net as [e|r]; run_py;
      repeat (case_match; run_py; simplify_eq); cbn;
      rewrite ?posts_app; cbn; rewrite ?app_nil_r; reflexivity. }
  assert (Hrun : posts (trace (snd (submit_render_job bpy (JObj items) net s)))
                 = posts (trace s)
                   ++ [if str_in (quality_id (render_quality st)) ["FAST"; "HIGH"]
                       then (server_url st +:+ "/api/presets/render",
                             preset_job_data bpy st fileName)
                       else (server_url st +:+ "/api/jobs", custom_job_data bpy st fileName)]).
  { unfold submit_render_job. unfold bind at 1. unfold get_settings.
    fold st. destruct (str_in (quality_id (render_quality st)) ["FAST"; "HIGH"]);
      unfold bind at 1; simpl lift; unfold bind at 1, ret at 1;
      unfold bind at 1, ret at 1; cbv beta iota; simpl fst; simpl snd;
      apply Hposts. }
  assert (Hpreset : preset_job_data bpy st fileName = preset)
    by (unfold preset_job_data, preset; rewrite Hscene; reflexivity).
  assert (Hcustom : custom_job_data bpy st fileName = custom)
    by (unfold custom_job_data, custom; rewrite Hscene; reflexivity).
  rewrite Hpreset, Hcustom in Hrun.
  destruct (render_quality st) eqn:Hq; simpl in Hrun.
  - exists (server_url st +:+ "/api/jobs"), custom.
    split; [exact Hrun|]. split.
    + split; [intros [H|H]; discriminate|].
      intros [_ H]. unfold custom, preset in H. discriminate.
    + split; [auto|]. intros _ [H|H]; discriminate.
  - exists (server_url st +:+ "/api/presets/render"), preset.
    split; [exact Hrun|]. split.
    + split; auto.
    + split; [intros H; exfalso; apply H; auto|].
      intros [_ H]. unfold custom, preset in H. discriminate.
  - exists (server_url st +:+ "/api/presets/render"), preset.
    split; [exact Hrun|]. split.
    + split; auto.
    + split; [intros H; exfalso; apply H; auto|].
      intros [_ H]. unfold custom, preset in H. discriminate.
Qed.

(** ** The job store *)

Lemma with_jobs_same (s : state) : with_jobs (jobs (settings s)) s = s.
Proof. destruct s as [[] ? ?]; reflexivity. Qed.

Lemma with_jobs_twice (l1 l2 : list RemoteRenderJob) (s : state) :
  with_jobs l2 (with_jobs l1 s) = with_jobs l2 s.
Proof. reflexivity. Qed.

Lemma filter_not_complete_twice (l : list RemoteRenderJob) :
  List.filter not_complete (List.filter not_complete l) = List.filter not_complete l.
Proof.
  induction l as [|j l IH]; [reflexivity|].
  simpl. destruct (not_complete j) eqn:Hj; simpl; rewrite ?Hj, IH; reflexivity.
Qed.

(** The downward loop from index [n - 1]: the records below [n] that are
    not complete stay, in order; what lies at [n] and above is untouched. *)
Lemma clear_from_spec (n : nat) :
  forall s : state,
    (n <= length (jobs (settings s)))%nat ->
    INTEGRATED_OT_clear_all_jobs.clear_from n s
    = (Ok tt, with_jobs (List.filter not_complete (take n (jobs (settings s)))
                         ++ drop n (jobs (settings s))) s).
Proof.
  induction n as [|i IH]; intros s Hn.
  - simpl. unfold ret. rewrite drop_0, with_jobs_same. reflexivity.
  - destruct (lookup_lt_is_Some_2 (jobs (settings s)) i) as [j Hj]; [lia|].
    cbn [INTEGRATED_OT_clear_all_jobs.clear_from].
    unfold INTEGRATED_OT_clear_all_jobs.jobs_getitem,
      INTEGRATED_OT_clear_all_jobs.jobs_remove.
    unfold bind at 1. unfold bind at 1. unfold get_settings at 1.
    rewrite Hj. unfold ret at 1.
    rewrite (take_S_r _ _ _ Hj), List.filter_app. simpl List.filter.
    unfold not_complete at 2.
    destruct (is_complete j) eqn:Hc; simpl negb; cbv iota.
    + unfold bind at 1. unfold bind at 1. unfold get_settings at 1, put_jobs at 1.
      fold (with_jobs (delete i (jobs (settings s))) s).
      rewrite IH.
      * simpl. rewrite delete_take_drop.
        rewrite take_app_length' by (rewrite length_take_le; lia).
        rewrite drop_app_length' by (rewrite length_take_le; lia).
        rewrite app_nil_r. reflexivity.
      * simpl. rewrite length_delete by eauto. lia.
    + unfold bind at 1, ret at 1.
      rewrite IH by lia.
      rewrite (drop_S _ _ _ Hj), <- app_assoc. reflexivity.
Qed.

(** C9: [Clear All Completed] never fails and leaves exactly the records
    whose completion flag is false, in their order; run again on its own
    result it changes nothing. *)
Theorem clear_all_jobs_idempotent :
  forall s : state,
    let kept := List.filter not_complete (jobs (settings s)) in
    INTEGRATED_OT_clear_all_jobs.execute s = (Ok FINISHED, with_jobs kept s)
    /\ INTEGRATED_OT_clear_all_jobs.execute (with_jobs kept s)
       = (Ok FINISHED, with_jobs kept s).
Proof.
  assert (Hrun : forall s : state,
             INTEGRATED_OT_clear_all_jobs.execute s
             = (Ok FINISHED,
                with_jobs (List.filter not_complete (jobs (settings s))) s)).
  { intros s. unfold INTEGRATED_OT_clear_all_jobs.execute.
    unfold bind at 1. unfold get_settings at 1.
    unfold bind at 1. rewrite clear_from_spec by lia.
    rewrite take_ge, drop_ge, app_nil_r by lia. reflexivity. }
  intros s kept. split; [apply Hrun|].
  rewrite Hrun. simpl. fold kept. unfold kept.
  rewrite filter_not_complete_twice. reflexivity.
Qed.

(** ** Upload *)

(** What [upload_file] returns and leaves behind, on every path through
    it: the settings are untouched; the file is gone unless [os.remove]
    refuses it, and then the error of [os.remove] leaves the function.
    It starts no thread and posts no JSON. *)
Lemma upload_file_run_quiet (url path : string) (net : http_outcome) (s : state) :
  exists evs,
    (threads evs = [] /\ posts evs = [])
    /\ upload_file url path net s
       = if bool_decide (path ∈ files s)
         then match remove_refused (fs s) path with
              | Some e => (Raise e, log evs s)
              | None =>
                  (Ok (match open_refused (fs s) path with
                       | Some _ => JNull
                       | None => answer net
                       end),
                   log evs (with_fs (fs_unlink path (fs s)) s))
              end
         else (Ok JNull, log evs s).
Proof.
  unfold upload_file, answer, log, with_fs.
  destruct (bool_decide (path ∈ files s)) eqn:Hin;
    [destruct (remove_refused (fs s) path) as [e1|] eqn:Hrm;
     (destruct (open_refused (fs s) path) as [e2|] eqn:Hop;
      [|destruct net as [e|r];
        [|destruct (Z_in (status_code r) [200; 201]) eqn:Hst;
          [destruct (body r) as [v|] eqn:Hb|]]])|];
    repeat (progress (run_py; unfold files in *; rewrite ?Hin, ?Hrm, ?Hop, ?Hst, ?Hb));
    rewrite <- ?app_assoc; eexists; (split; [|reflexivity]); split; reflexivity.
Qed.

Lemma upload_file_run (url path : string) (net : http_outcome) (s : state) :
  exists evs,
    upload_file url path net s
    = if bool_decide (path ∈ files s)
      then match remove_refused (fs s) path with
           | Some e => (Raise e, log evs s)
           | None =>
               (Ok (match open_refused (fs s) path with
                    | Some _ => JNull
                    | None => answer net
                    end),
                log evs (with_fs (fs_unlink path (fs s)) s))
           end
      else (Ok JNull, log evs s).
Proof.
  destruct (upload_file_run_quiet url path net s) as (evs & _ & H). eauto.
Qed.

(** What [upload_file] leaves of the file system. *)
Lemma upload_file_fs (url path : string) (net : http_outcome) (s : state) :
  fs (snd (upload_file url path net s))
  = if remove_blocked path s then fs s
    else if bool_decide (path ∈ files s) then fs_unlink path (fs s) else fs s.
Proof.
  destruct (upload_file_run url path net s) as [evs ->]. unfold remove_blocked.
  destruct (bool_decide (path ∈ files s)); [|reflexivity].
  destruct (remove_refused (fs s) path); reflexivity.
Qed.

Lemma upload_file_settings (url path : string) (net : http_outcome) (s : state) :
  settings (snd (upload_file url path net s)) = settings s.
Proof.
  destruct (upload_file_run url path net s) as [evs ->].
  destruct (bool_decide (path ∈ files s)); [|reflexivity].
  destruct (remove_refused (fs s) path); reflexivity.
Qed.

(** Whether [upload_file] returns or raises. *)
Lemma upload_file_outcome (url path : string) (net : http_outcome) (s : state) :
  fst (upload_file url path net s)
  = if bool_decide (path ∈ files s)
    then match remove_refused (fs s) path with
         | Some e => Raise e
         | None => Ok (match open_refused (fs s) path with
                       | Some _ => JNull
                       | None => answer net
                       end)
         end
    else Ok JNull.
Proof.
  destruct (upload_file_run url path net s) as [evs ->].
  destruct (bool_decide (path ∈ files s)); [|reflexivity].
  destruct (remove_refused (fs s) path); reflexivity.
Qed.

(** C5, as the code has it: the deletion runs on every exit path, but it
    is not guarded.  When [os.remove] accepts the path (or nothing exists
    there), [upload_file] returns normally, whatever the server did and
    whether or not the file could be opened, and nothing exists at the
    path afterwards.  When something exists there that [os.remove]
    refuses, [upload_file] raises the error of [os.remove] and the path
    still exists.  No other path is touched. *)
Theorem upload_file_removes_temp_file :
  forall (url path : string) (net : http_outcome) (s : state),
    let r := fst (upload_file url path net s) in
    let s' := snd (upload_file url path net s) in
    ((exists v, r = Ok v) <-> remove_blocked path s = false)
    /\ ((exists e, r = Raise e /\ remove_refused (fs s) path = Some e)
        <-> remove_blocked path s = true)
    /\ (path ∈ files s' <-> remove_blocked path s = true)
    /\ (forall p, p <> path -> (p ∈ files s' <-> p ∈ files s)).
Proof.
  intros url path net s r s'.
  unfold r, s', files. rewrite upload_file_outcome, upload_file_fs.
  unfold remove_blocked, files.
  destruct (bool_decide (path ∈ existing (fs s))) eqn:Hin; simpl.
  - apply bool_decide_eq_true in Hin.
    destruct (remove_refused (fs s) path) as [e|] eqn:Hrm; simpl.
    + split; [split; [intros [v H]; discriminate|discriminate]|].
      split; [split; [reflexivity|eauto]|].
      split; [tauto|tauto].
    + split; [split; [reflexivity|eauto]|].
      split; [split; [intros (e & H & _); discriminate|discriminate]|].
      split.
      * rewrite elem_of_difference, elem_of_singleton. split; [tauto|discriminate].
      * intros p Hp. rewrite elem_of_difference, elem_of_singleton. tauto.
  - apply bool_decide_eq_false in Hin.
    split; [split; [reflexivity|eauto]|].
    split; [split; [intros (e & H & _); discriminate|discriminate]|].
    split; [split; [contradiction|discriminate]|tauto].
Qed.

(** C5 fails as stated: handed the path of a directory, [upload_file]
    does not return but raises, and the directory is still there. *)
Lemma upload_file_leaves_directory :
  fst (upload_file "http://localhost:8080" "/tmp/renders"
         (inr {| status_code := 200; body := Some (JObj []) |}) state_dir)
  = Raise (Exn IsADirectoryError "Is a directory")
  /\ fst (os_path_exists "/tmp/renders"
            (snd (upload_file "http://localhost:8080" "/tmp/renders"
                    (inr {| status_code := 200; body := Some (JObj []) |}) state_dir)))
     = Ok true.
Proof. split; vm_compute; reflexivity. Qed.

(** The temporary file of [state0], whatever the server answers. *)
Lemma upload_file_removes_temp_file_witness :
  (exists v,
      fst (upload_file "http://localhost:8080" "/tmp/remote_render_1.blend"
             (inl (Exn ConnectionError "refused")) state0) = Ok v)
  /\ "/tmp/remote_render_1.blend"
     ∉ files (snd (upload_file "http://localhost:8080" "/tmp/remote_render_1.blend"
                     (inl (Exn ConnectionError "refused")) state0)).
Proof.
  destruct (upload_file_removes_temp_file "http://localhost:8080"
              "/tmp/remote_render_1.blend" (inl (Exn ConnectionError "refused")) state0)
    as (H1 & _ & H3 & _).
  split.
  - apply H1. vm_compute. reflexivity.
  - intros Hin. apply H3 in Hin. vm_compute in Hin. discriminate.
Defined.

(** C8, as the code has it: [upload_file] hands back the parsed body
    when the file opens and can be deleted, the request returns, the
    status is 200 or 201 and the body parses; it returns [None] exactly
    when the file can be deleted (or is not there) and it is missing,
    cannot be opened, the request raises, the status is another one, or
    the body does not parse or is [null]; and it raises exactly when the
    file exists and [os.remove] refuses it. *)
Theorem upload_file_result :
  forall (url path : string) (net : http_outcome) (s : state),
    (forall r v,
        can_open path s = true -> remove_blocked path s = false ->
        net = inr r ->
        status_code r = 200 \/ status_code r = 201 ->
        body r = Some v ->
        fst (upload_file url path net s) = Ok v)
    /\ (fst (upload_file url path net s) = Ok JNull <->
        remove_blocked path s = false
        /\ (can_open path s = false
            \/ (exists e, net = inl e)
            \/ (exists r, net = inr r
                          /\ ((status_code r <> 200 /\ status_code r <> 201)
                              \/ body r = None \/ body r = Some JNull))))
    /\ ((exists e, fst (upload_file url path net s) = Raise e)
        <-> remove_blocked path s = true).
Proof.
  intros url path net s.
  rewrite upload_file_outcome. unfold can_open, remove_blocked, answer.
  destruct (bool_decide (path ∈ files s)) eqn:Hin; simpl;
    [|split; [discriminate|]; split;
      [split; auto|split; [intros [e H]; discriminate|discriminate]]].
  destruct (remove_refused (fs s) path) as [e1|] eqn:Hrm; simpl.
  { split; [discriminate|]. split; [split; [discriminate|intros [H _]; discriminate]|].
    split; eauto. }
  destruct (open_refused (fs s) path) as [e2|] eqn:Hop; simpl.
  { split; [discriminate|]. split; [split; auto|].
    split; [intros [e H]; discriminate|discriminate]. }
  split; [|split; [|split; [intros [e H]; discriminate|discriminate]]].
  - intros r v _ _ -> Hst Hb. rewrite Hb.
    destruct Hst as [-> | ->]; reflexivity.
  - destruct net as [e|r]; [split; eauto|].
    unfold Z_in. simpl.
    destruct (status_code r =? 200) eqn:H200; simpl.
    + apply Z.eqb_eq in H200.
      destruct (body r) as [v|] eqn:Hb.
      * split.
        -- intros [= ->]. split; [reflexivity|]. right. right. exists r. auto.
        -- intros [_ [H|[[e H]|[r' [[= <-] [H|[H|H]]]]]]];
             try done; try lia; congruence.
      * split; [|reflexivity]. intros _. split; [reflexivity|].
        right. right. exists r. auto.
    + apply Z.eqb_neq in H200.
      destruct (status_code r =? 201) eqn:H201; simpl.
      * apply Z.eqb_eq in H201.
        destruct (body r) as [v|] eqn:Hb.
        -- split.
           ++ intros [= ->]. split; [reflexivity|]. right. right. exists r. auto.
           ++ intros [_ [H|[[e H]|[r' [[= <-] [H|[H|H]]]]]]];
                try done; try lia; congruence.
        -- split; [|reflexivity]. intros _. split; [reflexivity|].
           right. right. exists r. auto.
      * apply Z.eqb_neq in H201.
        split; [|reflexivity]. intros _. split; [reflexivity|].
        right. right. exists r. auto.
Qed.

(** C8 fails as stated: 204 is a 2xx status, the body parses, and
    [upload_file] still returns [None]. *)
Lemma upload_file_204_returns_None :
  200 <= 204 < 300
  /\ fst (upload_file "http://localhost:8080" "/tmp/remote_render_1.blend"
            (inr {| status_code := 204;
                    body := Some (JObj [("fileName", JStr "scene.blend")]) |})
            state0)
     = Ok JNull.
Proof. split; [lia|]. vm_compute. reflexivity. Qed.

(** ** Inversion of successful runs *)

Lemma bind_Ok_inv {A B} (m : M A) (k : A -> M B) (s s' : state) (b : B) :
  bind m k s = (Ok b, s') ->
  exists a s1, m s = (Ok a, s1) /\ k a s1 = (Ok b, s').
Proof.
  unfold bind. destruct (m s) as [[a|e] s1]; [eauto|discriminate].
Qed.

Lemma emit_inv (e : event) (s s' : state) (u : unit) :
  emit e s = (Ok u, s') -> s' = log [e] s.
Proof. unfold emit. intros [= H]. subst s'. reflexivity. Qed.

Lemma lift_inv {A} (r : exn + A) (s s' : state) (a : A) :
  lift r s = (Ok a, s') -> r = inr a /\ s' = s.
Proof. destruct r; simpl; unfold raise, ret; intros [= ]; subst; auto. Qed.

Lemma update_job_run (i : nat) (f : RemoteRenderJob -> RemoteRenderJob) (s : state) :
  update_job i f s = (Ok tt, with_jobs (alter f i (jobs (settings s))) s).
Proof. reflexivity. Qed.

Lemma alter_last {A} (f : A -> A) (l : list A) (x : A) :
  alter f (length l) (l ++ [x]) = l ++ [f x].
Proof. induction l as [|y l IH]; simpl; [reflexivity|]. f_equal. exact IH. Qed.

Lemma lookup_last {A} (l : list A) (x : A) : (l ++ [x]) !! length l = Some x.
Proof. induction l as [|y l IH]; simpl; auto. Qed.

(** Whatever it is given and however it ends, [submit_render_job] leaves
    the settings and the files alone. *)
Lemma submit_render_job_frame (bpy : Bpy) (upload_result : json) (net : http_outcome)
  (s : state) :
  settings (snd (submit_render_job bpy upload_result net s)) = settings s
  /\ fs (snd (submit_render_job bpy upload_result net s)) = fs s.
Proof.
  unfold submit_render_job.
  destruct upload_result, (render_quality (settings s)) eqn:Hq, net as [e|r];
    repeat (progress (run_py; rewrite ?Hq)); auto;
    repeat (case_match; run_py; simplify_eq); auto.
Qed.

Lemma save_scene_to_temp_frame (env : submit_env) (s s' : state) (p : string) :
  save_scene_to_temp env s = (Ok p, s') -> settings s' = settings s.
Proof.
  unfold save_scene_to_temp. destruct (save_fails env); run_py; intros [= ]; subst;
    reflexivity.
Qed.

Lemma jobs_add_run (s : state) :
  jobs_add s
  = (Ok (length (jobs (settings s))),
     with_jobs (jobs (settings s) ++ [RemoteRenderJob_default]) s).
Proof. reflexivity. Qed.

(** The record a successful [execute] leaves at the end of the collection. *)
Lemma execute_FINISHED_inv (bpy : Bpy) (env : submit_env) (s s' : state) :
  INTEGRATED_OT_submit_render.execute bpy env s = (Ok FINISHED, s') ->
  exists id : string,
    jobs (settings s')
    = jobs (settings s)
      ++ [set_status "SUBMITTED"
            (set_submitted_time (clock_hm env)
               (set_scene_name (get_scene_name bpy)
                  (set_job_id id RemoteRenderJob_default)))].
Proof.
  unfold INTEGRATED_OT_submit_render.execute, try_except.
  match goal with |- context [match ?b s with _ => _ end] => destruct (b s) as [[r|e] s1] eqn:Hbody end;
    [|run_py; discriminate].
  intros [= -> ->].
  apply bind_Ok_inv in Hbody as (u1 & sa & H1 & Hbody).
  apply emit_inv in H1.
  apply bind_Ok_inv in Hbody as (temp & sb & H2 & Hbody).
  apply save_scene_to_temp_frame in H2.
  apply bind_Ok_inv in Hbody as (u3 & sc & H3 & Hbody).
  apply emit_inv in H3.
  apply bind_Ok_inv in Hbody as (st & sd & H4 & Hbody).
  injection H4 as <- <-.
  apply bind_Ok_inv in Hbody as (up & se & H5 & Hbody).
  assert (Hse : settings se = settings s).
  { pose proof (upload_file_settings (server_url (settings sc)) temp (upload_net env) sc)
      as Hset.
    rewrite H5 in Hset. simpl in Hset. rewrite Hset, H3. simpl.
    rewrite H2, H1. reflexivity. }
  clear H5.
  destruct (negb (Py.truthy up)); [discriminate|].
  apply bind_Ok_inv in Hbody as (u6 & sf & H6 & Hbody).
  apply emit_inv in H6.
  apply bind_Ok_inv in Hbody as (job_result & sg & H7 & Hbody).
  assert (Hsg : settings sg = settings s).
  { pose proof (submit_render_job_frame bpy up (submit_net env) sf) as [Hf _].
    rewrite H7 in Hf. simpl in Hf. rewrite Hf, H6. simpl. exact Hse. }
  clear H7.
  destruct (negb (Py.truthy job_result)); [discriminate|].
  apply bind_Ok_inv in Hbody as (new_job & sh & H8 & Hbody).
  rewrite jobs_add_run in H8. injection H8 as <- <-.
  apply bind_Ok_inv in Hbody as (id & si & H9 & Hbody).
  apply lift_inv in H9 as [_ ->].
  apply bind_Ok_inv in Hbody as (id_str & sj & H10 & Hbody).
  apply lift_inv in H10 as [_ ->].
  exists id_str.
  apply bind_Ok_inv in Hbody as (u11 & sk & H11 & Hbody).
  rewrite update_job_run in H11. injection H11 as _ <-.
  apply bind_Ok_inv in Hbody as (u12 & sl & H12 & Hbody).
  rewrite update_job_run in H12. injection H12 as _ <-.
  apply bind_Ok_inv in Hbody as (u13 & sm & H13 & Hbody).
  rewrite update_job_run in H13. injection H13 as _ <-.
  apply bind_Ok_inv in Hbody as (u14 & sn & H14 & Hbody).
  rewrite update_job_run in H14. injection H14 as _ <-.
  apply bind_Ok_inv in Hbody as (job & so & H15 & Hbody).
  rewrite !alter_last in H15.
  unfold read_job, bind, get_settings in H15.
  cbn [settings jobs with_jobs set_jobs] in H15.
  rewrite lookup_last in H15.
  injection H15 as <- <-.
  apply bind_Ok_inv in Hbody as (u16 & sp & H16 & Hbody).
  apply emit_inv in H16.
  apply bind_Ok_inv in Hbody as (u17 & sq & H17 & Hbody).
  apply emit_inv in H17.
  injection Hbody as <-. subst sq sp.
  cbn [settings jobs with_jobs set_jobs log].
  rewrite Hsg. reflexivity.
Qed.

(** C10: a submission that ends in [FINISHED] has appended one record; that
    record is not complete, yet its [has_notification] flag is already
    set (the declared default, untouched by [execute]), so the panel counts
    it as new and draws the badge. *)
Theorem submitted_job_counts_as_new :
  forall (bpy : Bpy) (env : submit_env) (s s' : state),
    INTEGRATED_OT_submit_render.execute bpy env s = (Ok FINISHED, s') ->
    exists new_job,
      jobs (settings s') = jobs (settings s) ++ [new_job]
      /\ status new_job = "SUBMITTED"
      /\ is_complete new_job = false
      /\ has_notification new_job = true
      /\ INTEGRATED_PT_remote_render.new_count (settings s')
         = S (INTEGRATED_PT_remote_render.new_count (settings s))
      /\ exists label, INTEGRATED_PT_remote_render.badge (settings s') = Some label.
Proof.
  intros bpy env s s' H.
  apply execute_FINISHED_inv in H as [id H].
  eexists. split; [exact H|].
  repeat split.
  - unfold INTEGRATED_PT_remote_render.new_count.
    rewrite H, List.filter_app, length_app. simpl. lia.
  - unfold INTEGRATED_PT_remote_render.badge, INTEGRATED_PT_remote_render.new_count.
    rewrite H, List.filter_app, length_app. simpl.
    destruct (0 <? _)%nat eqn:Hpos; [eauto|].
    apply Nat.ltb_ge in Hpos. lia.
Qed.

(** ** The polling loop *)

Lemma find_job_None (l : list RemoteRenderJob) (id : string) :
  find_job l id = None <-> Forall (fun j => job_id j <> id) l.
Proof.
  induction l as [|j l IH]; simpl.
  - split; auto.
  - destruct (String.eqb (job_id j) id) eqn:Heq.
    + apply String.eqb_eq in Heq. split; [discriminate|].
      intros H. inversion H. contradiction.
    + apply String.eqb_neq in Heq.
      destruct (find_job l id) eqn:Hf; simpl.
      * split; [discriminate|]. intros H. inversion H as [|? ? _ Hl]; subst.
        apply IH in Hl. discriminate.
      * split; [|reflexivity]. intros _. constructor; [exact Heq|]. apply IH. reflexivity.
Qed.


(** C6: when no record of the store carries the poller's job id, the tick
    ends the loop at once: nothing is raised, nothing is requested, logged
    or notified, and the state is exactly what it was. *)
Theorem monitor_job_stops_when_record_removed :
  forall (id : string) (env : tick_env) (envs : list tick_env) (s : state),
    Forall (fun j => job_id j <> id) (jobs (settings s)) ->
    monitor_tick id env s = (Ok Break, s)
    /\ monitor_job id (env :: envs) s = (Ok Terminated, s).
Proof.
  intros id env envs s Hgone. apply find_job_None in Hgone.
  assert (Htick : monitor_tick id env s = (Ok Break, s)).
  { unfold monitor_tick, monitor_tick_during, try_except, bind, get_settings. rewrite Hgone. reflexivity. }
  split; [exact Htick|].
  simpl. unfold bind. rewrite Htick. reflexivity.
Qed.

(** The store of [state1] holds no record with id [job-0]. *)
Lemma monitor_job_stops_when_record_removed_witness :
  monitor_tick "job-0" {| poll := inl (Exn ConnectionError "refused");
                          plyer := plyer_notifies |} state1
  = (Ok Break, state1)
  /\ monitor_job "job-0" [ {| poll := inl (Exn ConnectionError "refused");
                              plyer := plyer_notifies |} ] state1
     = (Ok Terminated, state1).
Proof.
  apply (monitor_job_stops_when_record_removed "job-0" _ [] state1).
  simpl. constructor; [discriminate|constructor].
Defined.

(** Removing a record through the [Remove] button leaves no record with
    its id, when ids are unique: the next tick of its poller stops. *)
Lemma clear_job_stops_poller (i : nat) (j : RemoteRenderJob) (env : tick_env) (s : state) :
  NoDup (job_id <$> jobs (settings s)) ->
  jobs (settings s) !! i = Some j ->
  exists s',
    INTEGRATED_OT_clear_job.execute (Z.of_nat i) s = (Ok FINISHED, s')
    /\ monitor_tick (job_id j) env s' = (Ok Break, s').
Proof.
  intros Hnd Hj.
  exists (with_jobs (delete i (jobs (settings s))) s).
  split.
  - unfold INTEGRATED_OT_clear_job.execute. run_py.
    destruct (0 <=? Z.of_nat i) eqn:Hi; [|apply Z.leb_gt in Hi; lia].
    rewrite Nat2Z.id. reflexivity.
  - unfold monitor_tick, monitor_tick_during, try_except, bind, get_settings.
    replace (find_job (jobs (settings (with_jobs (delete i (jobs (settings s))) s)))
               (job_id j)) with (@None nat); [reflexivity|].
    symmetry. apply find_job_None. simpl.
    rewrite delete_take_drop.
    rewrite <- (take_drop_middle _ _ _ Hj) in Hnd.
    rewrite fmap_app, fmap_cons in Hnd.
    apply NoDup_app in Hnd as (Hnd1 & Hnd2 & Hnd3).
    apply NoDup_cons in Hnd3 as [Hnd3 _].
    apply Forall_app. split; apply Forall_forall; intros k Hk Heq.
    + apply (Hnd2 (job_id k)); [apply list_elem_of_fmap_2; exact Hk|].
      rewrite Heq. left.
    + apply Hnd3. rewrite <- Heq. apply list_elem_of_fmap_2. exact Hk.
Qed.

Lemma log_log (evs1 evs2 : list event) (s : state) :
  log evs2 (log evs1 s) = log (evs1 ++ evs2) s.
Proof. unfold log. simpl. rewrite app_assoc. reflexivity. Qed.

(** The tick up to the answer of the server, for a record that is
    there; [s1] is the state the request comes back to. *)
Lemma monitor_tick_during_unfold (id : string) (env : tick_env) (other : M unit)
  (s : state) (i : nat) :
  find_job (jobs (settings s)) id = Some i ->
  monitor_tick_during id env other s
  = let s1 := snd (other (log [HttpGet (poll_url s id) 10] s)) in
    match poll env with
    | inl _ => (Ok Continue, log [Sleep 10] s1)
    | inr r =>
        if status_code r =? 200
        then match apply_poll i r (plyer env) s1 with
             | (Ok true, s') => (Ok Break, s')
             | (Ok false, s') => (Ok Continue, log [Sleep 5] s')
             | (Raise _, s') => (Ok Continue, log [Sleep 10] s')
             end
        else (Ok Continue, log [Sleep 5] s1)
    end.
Proof.
  intros Hfind.
  unfold monitor_tick_during, try_except, bind at 1, get_settings. rewrite Hfind.
  unfold bind at 1, bind at 1, bind at 1, emit at 1, elsewhere.
  fold (log [HttpGet (poll_url s id) 10] s). cbv zeta.
  destruct (poll env) as [e|r]; simpl lift.
  - reflexivity.
  - unfold ret at 1. unfold bind at 1.
    destruct (status_code r =? 200).
    + destruct (apply_poll i r (plyer env) _) as [[[|]|e] s']; reflexivity.
    + reflexivity.
Qed.

Lemma monitor_tick_unfold (id : string) (env : tick_env) (s : state) (i : nat) :
  find_job (jobs (settings s)) id = Some i ->
  monitor_tick id env s
  = match poll env with
    | inl _ => (Ok Continue, log [HttpGet (poll_url s id) 10; Sleep 10] s)
    | inr r =>
        if status_code r =? 200
        then match apply_poll i r (plyer env) (log [HttpGet (poll_url s id) 10] s) with
             | (Ok true, s') => (Ok Break, s')
             | (Ok false, s') => (Ok Continue, log [Sleep 5] s')
             | (Raise _, s') => (Ok Continue, log [Sleep 10] s')
             end
        else (Ok Continue, log [HttpGet (poll_url s id) 10; Sleep 5] s)
    end.
Proof.
  intros Hfind. unfold monitor_tick.
  rewrite (monitor_tick_during_unfold id env (ret tt) s i Hfind).
  unfold ret at 1. cbn [snd]. cbv zeta. rewrite !log_log. reflexivity.
Qed.

(** A tick that finds no record with its id stops at once, whatever
    else is going on. *)
Lemma monitor_tick_during_gone (id : string) (env : tick_env) (other : M unit)
  (s : state) :
  find_job (jobs (settings s)) id = None ->
  monitor_tick_during id env other s = (Ok Break, s).
Proof.
  intros Hfind. unfold monitor_tick_during, try_except, bind, get_settings.
  rewrite Hfind. reflexivity.
Qed.

(** C3, as the code has it: a tick whose request raises, whose answer is
    not a 200, or whose 200 answer has no parsable body, a body that is no
    dict or a status that is no string, leaves every record as it was and
    raises nothing; the pause before the next tick is 10 seconds when an
    exception was caught and the usual 5 seconds after a non-200 answer. *)
Theorem failed_poll_tick_keeps_record :
  forall (id : string) (env : tick_env) (s : state) (i : nat),
    find_job (jobs (settings s)) id = Some i ->
    (forall e, poll env = inl e ->
       monitor_tick id env s
       = (Ok Continue, log [HttpGet (poll_url s id) 10; Sleep 10] s))
    /\ (forall r, poll env = inr r -> status_code r <> 200 ->
          monitor_tick id env s
          = (Ok Continue, log [HttpGet (poll_url s id) 10; Sleep 5] s))
    /\ (forall r, poll env = inr r -> status_code r = 200 ->
          body r = None \/ (exists v e, body r = Some v /\ poll_status v = inl e) ->
          monitor_tick id env s
          = (Ok Continue, log [HttpGet (poll_url s id) 10; Sleep 10] s)).
Proof.
  intros id env s i Hfind.
  rewrite (monitor_tick_unfold id env s i Hfind).
  repeat split.
  - intros e ->. reflexivity.
  - intros r -> Hst. apply Z.eqb_neq in Hst. rewrite Hst. reflexivity.
  - intros r -> Hst Hbad. apply Z.eqb_eq in Hst. rewrite Hst.
    unfold apply_poll, bind at 1, response_json.
    destruct Hbad as [Hb | (v & e & Hb & Hv)]; rewrite Hb.
    + unfold raise. rewrite log_log. reflexivity.
    + unfold ret at 1. unfold bind at 1. rewrite Hv. simpl lift. unfold raise.
      rewrite log_log. reflexivity.
Qed.

(** A dropped connection and an answer whose status is a number. *)
Lemma failed_poll_tick_keeps_record_witness :
  monitor_tick "job-1" {| poll := inl (Exn ConnectionError "refused");
                          plyer := plyer_notifies |} state1
  = (Ok Continue, log [HttpGet (poll_url state1 "job-1") 10; Sleep 10] state1)
  /\ monitor_tick "job-1"
       {| poll := inr {| status_code := 200;
                         body := Some (JObj [("status", JInt 3)]) |};
          plyer := plyer_notifies |} state1
     = (Ok Continue, log [HttpGet (poll_url state1 "job-1") 10; Sleep 10] state1).
Proof.
  split.
  - apply (proj1 (failed_poll_tick_keeps_record "job-1" _ state1 0%nat eq_refl)
             (Exn ConnectionError "refused")).
    reflexivity.
  - apply (proj2 (proj2 (failed_poll_tick_keeps_record "job-1" _ state1 0%nat eq_refl))
             {| status_code := 200; body := Some (JObj [("status", JInt 3)]) |}).
    + reflexivity.
    + reflexivity.
    + right. eexists _, _. split; reflexivity.
Defined.

(** C3 fails as stated: after an HTTP 500 the loop sleeps the normal 5
    seconds, not 10. *)
Lemma poll_500_sleeps_5 :
  monitor_tick "job-1"
    {| poll := inr {| status_code := 500; body := None |}; plyer := plyer_notifies |}
    state1
  = (Ok Continue,
     log [HttpGet "http://localhost:8080/api/jobs/job-1" 10; Sleep 5] state1).
Proof. reflexivity. Qed.

Arguments show_completion_notification : simpl never.
Arguments show_failure_notification : simpl never.

(** The body of the 200 branch, for an answer every field of which is
    accepted. *)
Lemma apply_poll_run (i : nat) (r : response) (env : plyer_env) (s : state)
  (job : RemoteRenderJob) (job_data : json) (new_status : string) (new_progress : Z)
  (new_error : option string) :
  jobs (settings s) !! i = Some job ->
  body r = Some job_data ->
  poll_status job_data = inr new_status ->
  poll_progress job_data = inr new_progress ->
  poll_error job_data = inr new_error ->
  let written := write_poll new_status new_progress new_error job in
  apply_poll i r env s
  = if str_in new_status ["COMPLETED"; "FAILED"]
    then
      match terminal_notification (show_notifications (settings s)) new_status
              (mark_complete written) env
              (log [TimerRegister update_ui]
                 (with_jobs (<[i := mark_complete written]> (jobs (settings s))) s))
      with
      | (Ok _, s2) => (Ok true, log [TimerRegister update_ui] s2)
      | (Raise e, s2) => (Raise e, s2)
      end
    else (Ok false,
          log [TimerRegister update_ui]
            (with_jobs (<[i := written]> (jobs (settings s))) s)).
Proof.
  intros Hjob Hbody Hstatus Hprogress Herror written.
  assert (Hi : (i < length (jobs (settings s)))%nat) by (eapply lookup_lt_Some; eauto).
  assert (Hw : alter (match new_error with
                      | Some message => set_error_message message
                      | None => fun j => j
                      end) i
                 (alter (set_progress new_progress) i
                    (alter (set_status (cut_at_nul new_status)) i (jobs (settings s))))
               = <[i := written]> (jobs (settings s))).
  { apply list_eq. intros k. destruct (decide (k = i)) as [->|Hne].
    - rewrite !list_lookup_alter_eq, Hjob, list_lookup_insert_eq by exact Hi.
      unfold written, write_poll. destruct new_error; reflexivity.
    - rewrite !list_lookup_alter_ne, list_lookup_insert_ne by auto. reflexivity. }
  assert (Hm : alter (set_has_notification true) i
                 (alter (set_is_complete true) i (<[i := written]> (jobs (settings s))))
               = <[i := mark_complete written]> (jobs (settings s))).
  { apply list_eq. intros k. destruct (decide (k = i)) as [->|Hne].
    - rewrite !list_lookup_alter_eq, !list_lookup_insert_eq by exact Hi. reflexivity.
    - rewrite !list_lookup_alter_ne, !list_lookup_insert_ne by auto. reflexivity. }
  unfold apply_poll, response_json. rewrite Hbody.
  unfold bind at 1, ret at 1. rewrite Hstatus. simpl lift.
  unfold bind at 1, ret at 1. unfold bind at 1. rewrite update_job_run.
  unfold bind at 1. cbn [lift]. rewrite Hprogress. cbn [lift]. unfold ret at 1.
  unfold bind at 1. rewrite update_job_run.
  unfold bind at 1. rewrite Herror. cbn [lift]. unfold ret at 1.
  unfold bind at 1.
  assert (Hstep : forall s0 : state,
             match new_error with
             | Some message => update_job i (set_error_message message)
             | None => ret tt
             end s0
             = (Ok tt, with_jobs (alter (match new_error with
                                         | Some message => set_error_message message
                                         | None => fun j => j
                                         end) i (jobs (settings s0))) s0)).
  { intros s0. destruct new_error; [reflexivity|].
    unfold ret. rewrite list_alter_id by reflexivity.
    rewrite with_jobs_same. reflexivity. }
  rewrite Hstep. cbn [settings jobs with_jobs set_jobs]. rewrite Hw.
  unfold bind at 1, emit at 1.
  destruct (str_in new_status ["COMPLETED"; "FAILED"]); [|reflexivity].
  unfold bind at 1. rewrite update_job_run.
  unfold bind at 1. rewrite update_job_run.
  cbn [settings jobs with_jobs set_jobs files trace]. rewrite Hm.
  unfold bind at 1, get_settings at 1.
  unfold bind at 1, read_job at 1, bind at 1, get_settings at 1.
  cbn [settings jobs with_jobs set_jobs files trace].
  rewrite list_lookup_insert_eq by exact Hi. unfold ret at 1.
  unfold bind at 1.
  cbn [settings jobs with_jobs set_jobs files trace show_notifications].
  fold (terminal_notification (show_notifications (settings s)) new_status
          (mark_complete written) env).
  match goal with
  | |- context [terminal_notification _ _ _ _ ?st] =>
      change st with (log [TimerRegister update_ui]
                        (with_jobs (<[i := mark_complete written]> (jobs (settings s))) s))
  end.
  destruct (terminal_notification _ _ _ _ _) as [[u|e] s2]; reflexivity.
Qed.

(** ** Notifications *)

Lemma show_completion_notification_run (scene : string) (env : plyer_env) (s : state) :
  show_completion_notification scene env s
  = match env with
    | plyer_notifies =>
        (Ok tt, log [DesktopNotify "Render Complete! 🎉"
                       ("Scene '" +:+ scene +:+ "' has finished rendering") 10] s)
    | plyer_missing =>
        (Ok tt, log [TimerRegister
                       (show_notification "INFO" ("🎉 Render Complete: " +:+ scene))] s)
    | plyer_raises e =>
        if is_ImportError e
        then (Ok tt, log [TimerRegister
                            (show_notification "INFO" ("🎉 Render Complete: " +:+ scene))] s)
        else (Raise e, s)
    end.
Proof.
  unfold show_completion_notification, try_except_ImportError, plyer_notify,
    show_blender_notification.
  destruct env as [| |e]; reflexivity.
Qed.

Lemma show_failure_notification_run (scene error : string) (env : plyer_env) (s : state) :
  show_failure_notification scene error env s
  = match env with
    | plyer_notifies =>
        (Ok tt, log [DesktopNotify "Render Failed ❌"
                       ("Scene '" +:+ scene +:+ "' failed: " +:+ Py.prefix 50 error
                        +:+ "...") 10] s)
    | plyer_missing =>
        (Ok tt, log [TimerRegister
                       (show_notification "ERROR"
                          ("❌ Render Failed: " +:+ scene +:+ " - "
                           +:+ Py.prefix 50 error))] s)
    | plyer_raises e =>
        if is_ImportError e
        then (Ok tt, log [TimerRegister
                            (show_notification "ERROR"
                               ("❌ Render Failed: " +:+ scene +:+ " - "
                                +:+ Py.prefix 50 error))] s)
        else (Raise e, s)
    end.
Proof.
  unfold show_failure_notification, try_except_ImportError, plyer_notify,
    show_blender_notification.
  destruct env as [| |e]; reflexivity.
Qed.

(** C7, as the code has it: the two notification operations swallow an
    [ImportError] (the library is not there) and register the in-host
    message instead, and that message's own failure is swallowed when the
    timer runs it; any other exception of the delivery call reaches the
    caller, with nothing logged. *)
Theorem notification_swallows_only_ImportError :
  forall (scene error : string) (env : plyer_env) (s : state),
    (fst (show_completion_notification scene env s) = Ok tt
     <-> ~ exists e, env = plyer_raises e /\ is_ImportError e = false)
    /\ (fst (show_failure_notification scene error env s) = Ok tt
        <-> ~ exists e, env = plyer_raises e /\ is_ImportError e = false)
    /\ (forall e, env = plyer_raises e -> is_ImportError e = false ->
          show_completion_notification scene env s = (Raise e, s)
          /\ show_failure_notification scene error env s = (Raise e, s))
    /\ (forall e, env = plyer_missing \/ (env = plyer_raises e /\ is_ImportError e = true) ->
          show_completion_notification scene env s
          = (Ok tt, log [TimerRegister
                           (show_notification "INFO" ("🎉 Render Complete: " +:+ scene))] s)
          /\ show_failure_notification scene error env s
             = (Ok tt, log [TimerRegister
                              (show_notification "ERROR"
                                 ("❌ Render Failed: " +:+ scene +:+ " - "
                                  +:+ Py.prefix 50 error))] s))
    /\ (forall level message failure,
          fst (run_callback (show_notification level message) failure s) = Ok tt).
Proof.
  intros scene error env s.
  rewrite show_completion_notification_run, show_failure_notification_run.
  repeat split.
  - destruct env as [| |e]; simpl; intros H (e' & He & Hi); try discriminate.
    injection He as <-. rewrite Hi in H. discriminate.
  - destruct env as [| |e]; simpl; intros H; try reflexivity.
    destruct (is_ImportError e) eqn:Hi; [reflexivity|]. exfalso. apply H. eauto.
  - destruct env as [| |e]; simpl; intros H (e' & He & Hi); try discriminate.
    injection He as <-. rewrite Hi in H. discriminate.
  - destruct env as [| |e]; simpl; intros H; try reflexivity.
    destruct (is_ImportError e) eqn:Hi; [reflexivity|]. exfalso. apply H. eauto.
  - subst env. rewrite H0. reflexivity.
  - subst env. rewrite H0. reflexivity.
  - destruct H as [-> | [-> Hi]]; [|rewrite Hi]; reflexivity.
  - destruct H as [-> | [-> Hi]]; [|rewrite Hi]; reflexivity.
  - destruct failure; reflexivity.
Qed.

(** C7 fails as stated: [plyer] is installed but has no backend for the
    platform; the exception leaves [show_completion_notification]. *)
Lemma show_completion_notification_raises :
  show_completion_notification "shot.blend"
    (plyer_raises (Exn NotImplementedError "No usable implementation found!"))
    state1
  = (Raise (Exn NotImplementedError "No usable implementation found!"), state1).
Proof. reflexivity. Qed.

(** The notification calls only ever add to the log. *)
Lemma terminal_notification_frame (show : bool) (new_status : string)
  (j : RemoteRenderJob) (env : plyer_env) (s : state) :
  settings (snd (terminal_notification show new_status j env s)) = settings s.
Proof.
  unfold terminal_notification.
  destruct (String.eqb new_status "COMPLETED" && show).
  - rewrite show_completion_notification_run.
    destruct env as [| |e]; try reflexivity. destruct (is_ImportError e); reflexivity.
  - destruct (String.eqb new_status "FAILED"); [|reflexivity].
    rewrite show_failure_notification_run.
    destruct env as [| |e]; try reflexivity. destruct (is_ImportError e); reflexivity.
Qed.

(** ** Terminal status *)




(** When the notification call raises something other than an
    [ImportError], the flags are set but the loop's [except] clause
    catches the exception before [break]: the poller sleeps and goes on. *)
Example completed_poll_notification_raises :
  monitor_tick "job-1"
    {| poll := poll completed_answer;
       plyer := plyer_raises (Exn NotImplementedError "No usable implementation found!") |}
    state1
  = (Ok Continue,
     log [HttpGet "http://localhost:8080/api/jobs/job-1" 10;
          TimerRegister update_ui; Sleep 10]
       (with_jobs [mark_complete (write_poll "COMPLETED" 100 None job1)] state1)).
Proof. reflexivity. Qed.

(** ** The completion invariant *)

(** Where the invariant does hold: record creation, the three UI
    mutations, and every tick that runs through on a record not yet
    complete. *)
Lemma invariant_after_submit (bpy : Bpy) (env : submit_env) (s s' : state) :
  INTEGRATED_OT_submit_render.execute bpy env s = (Ok FINISHED, s') ->
  Forall job_invariant (jobs (settings s)) ->
  Forall job_invariant (jobs (settings s')).
Proof.
  intros H Hinv. apply execute_FINISHED_inv in H as [id ->].
  apply Forall_app. split; [exact Hinv|].
  constructor; [|constructor]. unfold job_invariant. simpl.
  split; [discriminate|]. intros [H|H]; discriminate.
Qed.

Lemma invariant_after_clear_all (s : state) :
  Forall job_invariant (jobs (settings s)) ->
  Forall job_invariant
    (jobs (settings (snd (INTEGRATED_OT_clear_all_jobs.execute s)))).
Proof.
  intros Hinv.
  assert (Hrun : INTEGRATED_OT_clear_all_jobs.execute s
                 = (Ok FINISHED,
                    with_jobs (List.filter not_complete (jobs (settings s))) s)).
  { unfold INTEGRATED_OT_clear_all_jobs.execute.
    unfold bind at 1. unfold get_settings at 1.
    unfold bind at 1. rewrite clear_from_spec by lia.
    rewrite take_ge, drop_ge, app_nil_r by lia. reflexivity. }
  rewrite Hrun. simpl.
  rewrite Forall_forall in *. intros j Hj. apply Hinv.
  apply list_elem_of_In in Hj. apply filter_In in Hj as [Hj _].
  apply list_elem_of_In. exact Hj.
Qed.

Lemma invariant_after_clear_job (job_index : Z) (s : state) :
  Forall job_invariant (jobs (settings s)) ->
  Forall job_invariant
    (jobs (settings (snd (INTEGRATED_OT_clear_job.execute job_index s)))).
Proof.
  intros Hinv. unfold INTEGRATED_OT_clear_job.execute. run_py.
  destruct (0 <=? job_index); simpl; [|exact Hinv].
  rewrite delete_take_drop. apply Forall_app. split.
  - apply Forall_take. exact Hinv.
  - apply Forall_drop. exact Hinv.
Qed.

Lemma invariant_after_clear_notification (id : string) (s : state) :
  Forall job_invariant (jobs (settings s)) ->
  Forall job_invariant
    (jobs (settings (snd (INTEGRATED_OT_download_job.clear_notification id s)))).
Proof.
  intros Hinv. unfold INTEGRATED_OT_download_job.clear_notification. run_py.
  destruct (find_job (jobs (settings s)) id) as [i|]; simpl; [|exact Hinv].
  apply Forall_alter; [exact Hinv|]. intros j _ Hj. exact Hj.
Qed.

Lemma invariant_after_clean_tick (id : string) (env : tick_env) (s : state) (i : nat)
  (job : RemoteRenderJob) (r : response) (job_data : json) (new_status : string)
  (new_progress : Z) (new_error : option string) :
  find_job (jobs (settings s)) id = Some i ->
  jobs (settings s) !! i = Some job ->
  is_complete job = false ->
  poll env = inr r -> status_code r = 200 -> body r = Some job_data ->
  poll_status job_data = inr new_status ->
  cut_at_nul new_status = new_status ->
  poll_progress job_data = inr new_progress ->
  poll_error job_data = inr new_error ->
  Forall job_invariant (jobs (settings s)) ->
  Forall job_invariant (jobs (settings (snd (monitor_tick id env s)))).
Proof.
  intros Hfind Hjob Hopen Hpoll Hcode Hbody Hstatus Hcut Hprogress Herror Hinv.
  rewrite (monitor_tick_unfold id env s i Hfind), Hpoll.
  apply Z.eqb_eq in Hcode. rewrite Hcode.
  rewrite (apply_poll_run i r (plyer env) (log [HttpGet (poll_url s id) 10] s)
             job job_data new_status new_progress
             new_error Hjob Hbody Hstatus Hprogress Herror).
  cbn zeta. unfold write_poll. rewrite Hcut.
  destruct (str_in new_status ["COMPLETED"; "FAILED"]) eqn:Hterm.
  - match goal with
    | |- context [terminal_notification ?a ?b ?c ?d ?st] =>
        pose proof (terminal_notification_frame a b c d st) as Hframe;
        destruct (terminal_notification a b c d st) as [[u|e] s2]
    end; simpl in Hframe |- *; rewrite Hframe;
      (apply Forall_insert; [exact Hinv|]);
      unfold job_invariant, mark_complete;
      (destruct new_error; simpl; (split; [intros _|reflexivity]));
      unfold str_in in Hterm; simpl in Hterm;
      (destruct (String.eqb new_status "COMPLETED") eqn:H1;
       [apply String.eqb_eq in H1; auto|]);
      (destruct (String.eqb new_status "FAILED") eqn:H2;
       [apply String.eqb_eq in H2; auto|discriminate]).
  - simpl. apply Forall_insert; [exact Hinv|].
    unfold str_in in Hterm. simpl in Hterm.
    apply orb_false_iff in Hterm as [H1 H2].
    apply orb_false_iff in H2 as [H2 _].
    apply String.eqb_neq in H1, H2.
    unfold job_invariant.
    destruct new_error; simpl; rewrite Hopen;
      (split; [discriminate|intros [H|H]; contradiction]).
Qed.

(** C2 fails on the code: the answer carries a terminal status and a
    progress that [int()] refuses.  The status is written before the
    progress is converted, the exception ends the tick, and the record is
    left with status COMPLETED and [is_complete] still false. *)
Theorem malformed_progress_breaks_invariant :
  Forall job_invariant (jobs (settings state1))
  /\ monitor_tick "job-1" malformed_progress_answer state1
     = (Ok Continue,
        log [HttpGet "http://localhost:8080/api/jobs/job-1" 10; Sleep 10]
          (with_jobs [set_status "COMPLETED" job1] state1))
  /\ status (set_status "COMPLETED" job1) = "COMPLETED"
  /\ is_complete (set_status "COMPLETED" job1) = false
  /\ ~ Forall job_invariant
        (jobs (settings (snd (monitor_tick "job-1" malformed_progress_answer state1)))).
Proof.
  split.
  { constructor; [|constructor]. unfold job_invariant. simpl.
    split; [discriminate|]. intros [H|H]; discriminate. }
  split; [reflexivity|].
  split; [reflexivity|].
  split; [reflexivity|].
  intros H. inversion H as [|j l Hj _]; subst.
  unfold job_invariant in Hj. simpl in Hj.
  destruct Hj as [_ Hj]. specialize (Hj (or_introl eq_refl)). discriminate.
Qed.

(** ** Examples *)

(** The scenario of the specification: FAST, frames 1 to 10, 1920 by 1080. *)
Example submit_FAST_scenario :
  posts (trace (snd (submit_render_job bpy0
                       (JObj [("fileName", JStr "remote_render_1.blend")])
                       (submit_net submit_env0) state0)))
  = [ ("http://localhost:8080/api/presets/render",
       JObj [ ("fileName", JStr "remote_render_1.blend");
              ("quality", JStr "FAST");
              ("startFrame", JInt 1);
              ("endFrame", JInt 10);
              ("resolutionX", JInt 1920);
              ("resolutionY", JInt 1080);
              ("outputFormat", JStr "PNG");
              ("description",
                JStr "Blender render job from shot.blend (FAST quality)") ]) ].
Proof. reflexivity. Qed.

(** A submission that goes through. *)
Lemma submitted_job_counts_as_new_witness :
  exists new_job,
    jobs (settings (snd (INTEGRATED_OT_submit_render.execute bpy0 submit_env0 state1)))
    = jobs (settings state1) ++ [new_job]
    /\ status new_job = "SUBMITTED"
    /\ is_complete new_job = false
    /\ has_notification new_job = true
    /\ INTEGRATED_PT_remote_render.new_count
         (settings (snd (INTEGRATED_OT_submit_render.execute bpy0 submit_env0 state1)))
       = S (INTEGRATED_PT_remote_render.new_count (settings state1))
    /\ exists label,
         INTEGRATED_PT_remote_render.badge
           (settings (snd (INTEGRATED_OT_submit_render.execute bpy0 submit_env0 state1)))
         = Some label.
Proof.
  apply (submitted_job_counts_as_new bpy0 submit_env0 state1).
  vm_compute. reflexivity.
Defined.

(** A 201 answer whose body parses. *)
Lemma upload_file_result_witness :
  fst (upload_file "http://localhost:8080" "/tmp/remote_render_1.blend"
         (inr {| status_code := 201;
                 body := Some (JObj [("fileName", JStr "remote_render_1.blend")]) |})
         state0)
  = Ok (JObj [("fileName", JStr "remote_render_1.blend")]).
Proof.
  apply (proj1 (upload_file_result "http://localhost:8080" "/tmp/remote_render_1.blend"
                  (inr {| status_code := 201;
                          body := Some (JObj [("fileName",
                                               JStr "remote_render_1.blend")]) |})
                  state0)
           {| status_code := 201;
              body := Some (JObj [("fileName", JStr "remote_render_1.blend")]) |}).
  - vm_compute. reflexivity.
  - vm_compute. reflexivity.
  - reflexivity.
  - right. reflexivity.
  - reflexivity.
Defined.

(** * Further properties of the add-on *)

(** ** Rules for frames *)

Section Keeps.

Context (R : state -> state -> Prop) (R_refl : forall s, R s s)
  (R_trans : forall s1 s2 s3, R s1 s2 -> R s2 s3 -> R s1 s3).

Lemma keeps_ret {A} (a : A) : keeps R (ret a).
Proof. intros s. apply R_refl. Qed.

Lemma keeps_raise {A} (e : exn) : keeps R (@raise A e).
Proof. intros s. apply R_refl. Qed.

Lemma keeps_lift {A} (r : exn + A) : keeps R (lift r).
Proof. destruct r; [apply keeps_raise|apply keeps_ret]. Qed.

Lemma keeps_get_settings : keeps R get_settings.
Proof. intros s. apply R_refl. Qed.

Lemma keeps_bind_val {A B} (m : M A) (k : A -> M B) :
  keeps R m ->
  (forall s a s1, m s = (Ok a, s1) -> R s1 (snd (k a s1))) ->
  keeps R (bind m k).
Proof.
  intros Hm Hk s. unfold bind. specialize (Hm s).
  destruct (m s) as [[a|e] s1] eqn:Hrun; simpl in Hm.
  - eapply R_trans; [exact Hm|]. eapply Hk. exact Hrun.
  - exact Hm.
Qed.

Lemma keeps_bind {A B} (m : M A) (k : A -> M B) :
  keeps R m -> (forall a, keeps R (k a)) -> keeps R (bind m k).
Proof. intros Hm Hk. apply keeps_bind_val; [exact Hm|]. intros s a s1 _. apply Hk. Qed.

Lemma keeps_try_except {A} (body : M A) (handler : exn -> M A) :
  keeps R body -> (forall e, keeps R (handler e)) -> keeps R (try_except body handler).
Proof.
  intros Hb Hh s. unfold try_except. specialize (Hb s).
  destruct (body s) as [[a|e] s1]; simpl in Hb; [exact Hb|].
  eapply R_trans; [exact Hb|]. apply Hh.
Qed.

Lemma keeps_try_except_ImportError {A} (body handler : M A) :
  keeps R body -> keeps R handler -> keeps R (try_except_ImportError body handler).
Proof.
  intros Hb Hh s. unfold try_except_ImportError. specialize (Hb s).
  destruct (body s) as [[a|e] s1]; simpl in Hb; [exact Hb|].
  destruct (is_ImportError e); [|exact Hb].
  eapply R_trans; [exact Hb|]. apply Hh.
Qed.

Lemma keeps_try_finally {A} (body : M A) (cleanup : M unit) :
  keeps R body -> keeps R cleanup -> keeps R (try_finally body cleanup).
Proof.
  intros Hb Hc s. unfold try_finally. specialize (Hb s).
  destruct (body s) as [r s1]. simpl in Hb. specialize (Hc s1).
  destruct (cleanup s1) as [[u|e] s2]; simpl in *; eapply R_trans; eauto.
Qed.

End Keeps.

(** One structural step of a frame proof, for a relation with reflexivity
    proof [Hr] and transitivity proof [Ht]. *)
Ltac keeps_step Hr Ht :=
  lazymatch goal with
  | |- keeps _ (bind _ _) => apply (keeps_bind _ Ht); [|intros ?]
  | |- keeps _ (try_except _ _) => apply (keeps_try_except _ Ht); [|intros ?]
  | |- keeps _ (try_except_ImportError _ _) => apply (keeps_try_except_ImportError _ Ht)
  | |- keeps _ (try_finally _ _) => apply (keeps_try_finally _ Ht)
  | |- keeps _ (ret _) => apply (keeps_ret _ Hr)
  | |- keeps _ (raise _) => apply (keeps_raise _ Hr)
  | |- keeps _ (lift _) => apply (keeps_lift _ Hr)
  | |- keeps _ get_settings => apply (keeps_get_settings _ Hr)
  | |- keeps _ (if ?b then _ else _) => destruct b
  | |- keeps _ (match ?x with _ => _ end) => destruct x
  end.

(** ** What a poller leaves alone *)

Lemma same_identity_refl (j : RemoteRenderJob) : same_identity j j.
Proof. unfold same_identity. auto. Qed.

Lemma same_identity_trans (j1 j2 j3 : RemoteRenderJob) :
  same_identity j1 j2 -> same_identity j2 j3 -> same_identity j1 j3.
Proof.
  unfold same_identity. intros (a1 & a2 & a3 & a4 & a5) (b1 & b2 & b3 & b4 & b5).
  repeat split; try congruence; auto.
Qed.

Lemma poll_frame_refl (i : nat) (s : state) : poll_frame i s s.
Proof.
  repeat split. intros k j Hj. exists j. split; [exact Hj|].
  split; [apply same_identity_refl|reflexivity].
Qed.

Lemma poll_frame_trans (i : nat) (s1 s2 s3 : state) :
  poll_frame i s1 s2 -> poll_frame i s2 s3 -> poll_frame i s1 s3.
Proof.
  intros (Hf1 & Hs1 & Hl1 & Hj1) (Hf2 & Hs2 & Hl2 & Hj2).
  split; [congruence|]. split; [congruence|]. split; [congruence|].
  intros k j Hj. destruct (Hj1 k j Hj) as (j2 & Hk2 & Hid2 & Heq2).
  destruct (Hj2 k j2 Hk2) as (j3 & Hk3 & Hid3 & Heq3).
  exists j3. split; [exact Hk3|].
  split; [eapply same_identity_trans; eauto|].
  intros Hne. rewrite (Heq3 Hne). apply Heq2. exact Hne.
Qed.

Lemma poll_frame_log (i : nat) (evs : list event) (s : state) : poll_frame i s (log evs s).
Proof. exact (poll_frame_refl i s). Qed.

Lemma keeps_frame_emit (i : nat) (e : event) : keeps (poll_frame i) (emit e).
Proof. intros s. apply (poll_frame_log i [e] s). Qed.

Lemma keeps_frame_update_job (i : nat) (f : RemoteRenderJob -> RemoteRenderJob) :
  (forall j, same_identity j (f j)) -> keeps (poll_frame i) (update_job i f).
Proof.
  intros Hf s. rewrite update_job_run. unfold poll_frame.
  cbn [snd settings jobs with_jobs set_jobs files].
  split; [reflexivity|]. split; [reflexivity|].
  split; [apply length_alter|].
  intros k j Hj. destruct (decide (k = i)) as [->|Hne].
  - exists (f j). rewrite list_lookup_alter_eq, Hj. split; [reflexivity|].
    split; [apply Hf|]. intros Hne. contradiction.
  - exists j. rewrite list_lookup_alter_ne by auto.
    split; [exact Hj|]. split; [apply same_identity_refl|reflexivity].
Qed.

Lemma keeps_frame_notifications (i : nat) (scene error : string) (env : plyer_env) :
  keeps (poll_frame i) (show_completion_notification scene env)
  /\ keeps (poll_frame i) (show_failure_notification scene error env).
Proof.
  split; intros s;
    [rewrite show_completion_notification_run|rewrite show_failure_notification_run];
    destruct env as [| |e]; try destruct (is_ImportError e); simpl;
    first [apply poll_frame_log | apply poll_frame_refl].
Qed.

Lemma keeps_frame_apply_poll (i : nat) (r : response) (env : plyer_env) :
  keeps (poll_frame i) (apply_poll i r env).
Proof.
  unfold apply_poll, response_json, read_job.
  repeat first
    [ apply keeps_frame_emit
    | apply keeps_frame_update_job; intros j; unfold same_identity; simpl; tauto
    | apply (proj1 (keeps_frame_notifications i _ "" env))
    | apply (proj2 (keeps_frame_notifications i _ _ env))
    | keeps_step (poll_frame_refl i) (poll_frame_trans i) ].
Qed.

(** After the request has come back, the tick stays within the frame of
    the position it holds. *)
Lemma keeps_frame_tick_during (id : string) (env : tick_env) (other : M unit)
  (s : state) (i : nat) :
  find_job (jobs (settings s)) id = Some i ->
  poll_frame i (snd (other (log [HttpGet (poll_url s id) 10] s)))
    (snd (monitor_tick_during id env other s)).
Proof.
  intros Hfind. rewrite (monitor_tick_during_unfold id env other s i Hfind). cbv zeta.
  set (s1 := snd (other (log [HttpGet (poll_url s id) 10] s))).
  destruct (poll env) as [e|r]; [apply poll_frame_log|].
  destruct (status_code r =? 200); [|apply poll_frame_log].
  pose proof (keeps_frame_apply_poll i r (plyer env) s1) as Hk.
  destruct (apply_poll i r (plyer env) s1) as [[[|]|e] s2]; simpl in *.
  - exact Hk.
  - eapply poll_frame_trans; [exact Hk|apply poll_frame_log].
  - eapply poll_frame_trans; [exact Hk|apply poll_frame_log].
Qed.

Lemma keeps_frame_tick_found (id : string) (env : tick_env) (s : state) (i : nat) :
  find_job (jobs (settings s)) id = Some i ->
  poll_frame i s (snd (monitor_tick id env s)).
Proof.
  intros Hfind. eapply poll_frame_trans; [apply poll_frame_log|].
  apply (keeps_frame_tick_during id env (ret tt) s i Hfind).
Qed.

(** The tick and the loop never raise: the [except] clause of the loop
    catches everything and only sleeps. *)
Lemma monitor_tick_during_returns (id : string) (env : tick_env) (other : M unit)
  (s : state) :
  exists c, fst (monitor_tick_during id env other s) = Ok c.
Proof.
  unfold monitor_tick_during, try_except.
  match goal with
  | |- context [match ?b s with _ => _ end] => destruct (b s) as [[c|e] s1]
  end; eauto.
Qed.

Lemma monitor_tick_returns (id : string) (env : tick_env) (s : state) :
  exists c, fst (monitor_tick id env s) = Ok c.
Proof. apply monitor_tick_during_returns. Qed.

(** The race the frame leaves room for: the user removes job 1 while
    its poller waits for the server.  The answer for job 1 is then written
    through the stale reference into job 2, which has moved into the
    position, and job 2 is announced as complete. *)
Example remove_during_request :
  monitor_tick_during "job-1" completed_answer
    (elsewhere (INTEGRATED_OT_clear_job.execute 0)) state2
  = (Ok Break,
     log [HttpGet "http://localhost:8080/api/jobs/job-1" 10;
          TimerRegister update_ui;
          DesktopNotify "Render Complete! 🎉"
            "Scene 'title.blend' has finished rendering" 10;
          TimerRegister update_ui]
       (with_jobs [mark_complete (write_poll "COMPLETED" 100 None job2)] state2)).
Proof. reflexivity. Qed.

Lemma find_job_ext (l l' : list RemoteRenderJob) (id : string) :
  job_id <$> l = job_id <$> l' -> find_job l id = find_job l' id.
Proof.
  revert l'. induction l as [|j l IH]; intros [|j' l'] H; try discriminate; auto.
  simpl in *. injection H as Hj Hl. rewrite Hj, (IH l' Hl). reflexivity.
Qed.

Lemma jobs_frame_refl (i : nat) (s : state) : jobs_frame i s s.
Proof.
  split; [reflexivity|]. intros k j Hj. exists j. split; [exact Hj|].
  split; [apply same_identity_refl|reflexivity].
Qed.

Lemma jobs_frame_trans (i : nat) (s1 s2 s3 : state) :
  jobs_frame i s1 s2 -> jobs_frame i s2 s3 -> jobs_frame i s1 s3.
Proof.
  intros (Hl1 & Hj1) (Hl2 & Hj2).
  split; [congruence|].
  intros k j Hj. destruct (Hj1 k j Hj) as (j2 & Hk2 & Hid2 & Heq2).
  destruct (Hj2 k j2 Hk2) as (j3 & Hk3 & Hid3 & Heq3).
  exists j3. split; [exact Hk3|].
  split; [eapply same_identity_trans; eauto|].
  intros Hne. rewrite (Heq3 Hne). apply Heq2. exact Hne.
Qed.

Lemma jobs_frame_find_job (i : nat) (s s' : state) (id : string) :
  jobs_frame i s s' ->
  find_job (jobs (settings s')) id = find_job (jobs (settings s)) id.
Proof.
  intros (Hl & Hj). apply find_job_ext. apply list_eq. intros k.
  rewrite !list_lookup_fmap.
  destruct (jobs (settings s) !! k) as [j|] eqn:Hk.
  - destruct (Hj k j Hk) as (j' & -> & (Hid & _) & _). simpl. rewrite Hid. reflexivity.
  - apply lookup_ge_None in Hk. rewrite <- Hl in Hk. apply lookup_ge_None in Hk.
    rewrite Hk. reflexivity.
Qed.

(** A tick during whose request the collection is left alone. *)
Lemma jobs_frame_tick_during (id : string) (env : tick_env) (other : M unit)
  (s : state) (i : nat) :
  find_job (jobs (settings s)) id = Some i ->
  keeps_jobs other ->
  jobs_frame i s (snd (monitor_tick_during id env other s)).
Proof.
  intros Hfind Hother.
  destruct (keeps_frame_tick_during id env other s i Hfind) as (_ & _ & Hl & Hj).
  specialize (Hother (log [HttpGet (poll_url s id) 10] s)).
  cbn [settings log] in Hother. rewrite Hother in Hl, Hj.
  split; assumption.
Qed.

Lemma store_tick_during (id : string) (env : tick_env) (other : M unit) (s : state) :
  keeps_store other ->
  fs (snd (monitor_tick_during id env other s)) = fs s
  /\ set_jobs [] (settings (snd (monitor_tick_during id env other s)))
     = set_jobs [] (settings s).
Proof.
  intros Hother.
  destruct (find_job (jobs (settings s)) id) as [i|] eqn:Hfind.
  - destruct (keeps_frame_tick_during id env other s i Hfind) as (Hf & Hs & _).
    destruct (Hother (log [HttpGet (poll_url s id) 10] s)) as [Hs1 Hf1].
    cbn [settings fs log] in Hs1, Hf1. rewrite Hf, Hs, Hs1, Hf1. auto.
  - rewrite (monitor_tick_during_gone id env other s Hfind). auto.
Qed.

(** The same for a whole run of the loop, however many ticks it takes. *)
Lemma monitor_job_during_frame (id : string) (ticks : list (tick_env * M unit)) :
  forall (s : state) (i : nat),
    find_job (jobs (settings s)) id = Some i ->
    Forall (fun t => keeps_jobs (snd t)) ticks ->
    (exists e, fst (monitor_job_during id ticks s) = Ok e)
    /\ jobs_frame i s (snd (monitor_job_during id ticks s)).
Proof.
  induction ticks as [|[env other] rest IH]; intros s i Hfind Hticks.
  - split; [eexists; reflexivity|apply jobs_frame_refl].
  - inversion Hticks as [|? ? Hother Hrest]; subst. cbn [snd] in Hother.
    cbn [monitor_job_during]. unfold bind.
    pose proof (jobs_frame_tick_during id env other s i Hfind Hother) as Hframe.
    destruct (monitor_tick_during_returns id env other s) as [c Hc].
    destruct (monitor_tick_during id env other s) as [r s1]. simpl in Hc, Hframe. subst r.
    destruct c.
    + split; [eexists; reflexivity|exact Hframe].
    + assert (Hfind1 : find_job (jobs (settings s1)) id = Some i)
        by (rewrite (jobs_frame_find_job i s s1 id Hframe); exact Hfind).
      destruct (IH s1 i Hfind1 Hrest) as [Hok Hrest'].
      split; [exact Hok|]. eapply jobs_frame_trans; eauto.
Qed.

Lemma monitor_job_during_store (id : string) (ticks : list (tick_env * M unit)) :
  forall s : state,
    Forall (fun t => keeps_store (snd t)) ticks ->
    fs (snd (monitor_job_during id ticks s)) = fs s
    /\ set_jobs [] (settings (snd (monitor_job_during id ticks s)))
       = set_jobs [] (settings s).
Proof.
  induction ticks as [|[env other] rest IH]; intros s Hticks; [auto|].
  inversion Hticks as [|? ? Hother Hrest]; subst. cbn [snd] in Hother.
  cbn [monitor_job_during]. unfold bind.
  pose proof (store_tick_during id env other s Hother) as [Hf Hs].
  destruct (monitor_tick_during_returns id env other s) as [c Hc].
  destruct (monitor_tick_during id env other s) as [r s1]. simpl in Hc, Hf, Hs. subst r.
  destruct c; [auto|].
  destruct (IH s1 Hrest) as [Hf1 Hs1]. rewrite Hf1, Hs1. auto.
Qed.

(** A whole run of the loop during whose requests the main thread
    leaves the job collection as it is: the run raises nothing, never
    adds or removes a record, keeps the identity of every record and
    changes no record but the first one that carries its job id; and when
    the main thread leaves the settings and the files alone as well, the
    run has touched no file and no setting other than the job
    collection. *)
Theorem monitor_job_during_touches_only_its_record :
  forall (id : string) (ticks : list (tick_env * M unit)) (s : state),
    Forall (fun t => keeps_jobs (snd t)) ticks ->
    let s' := snd (monitor_job_during id ticks s) in
    (exists e, fst (monitor_job_during id ticks s) = Ok e)
    /\ length (jobs (settings s')) = length (jobs (settings s))
    /\ (forall k j, jobs (settings s) !! k = Some j ->
                    exists j', jobs (settings s') !! k = Some j'
                               /\ same_identity j j'
                               /\ (find_job (jobs (settings s)) id <> Some k -> j' = j))
    /\ (Forall (fun t => keeps_store (snd t)) ticks ->
        fs s' = fs s /\ set_jobs [] (settings s') = set_jobs [] (settings s)).
Proof.
  intros id ticks s Hticks s'.
  assert (Hstore : Forall (fun t => keeps_store (snd t)) ticks ->
                   fs s' = fs s /\ set_jobs [] (settings s') = set_jobs [] (settings s))
    by (apply monitor_job_during_store).
  destruct (find_job (jobs (settings s)) id) as [i|] eqn:Hfind.
  - destruct (monitor_job_during_frame id ticks s i Hfind Hticks) as [Hok (Hl & Hj)].
    split; [exact Hok|]. split; [exact Hl|]. split; [|exact Hstore].
    intros k j Hk. destruct (Hj k j Hk) as (j' & Hk' & Hid & Heq).
    exists j'. split; [exact Hk'|]. split; [exact Hid|].
    intros Hne. apply Heq. congruence.
  - assert (Hrun : monitor_job_during id ticks s
                   = (Ok (match ticks with
                          | [] => Polling
                          | _ => Terminated
                          end), s)).
    { destruct ticks as [|[env other] rest]; [reflexivity|].
      cbn [monitor_job_during]. unfold bind.
      rewrite (monitor_tick_during_gone id env other s Hfind). reflexivity. }
    unfold s' in *. rewrite Hrun in *. cbn [fst snd] in *.
    split; [eexists; reflexivity|]. split; [reflexivity|]. split; [|exact Hstore].
    intros k j Hk. exists j.
    split; [exact Hk|]. split; [apply same_identity_refl|reflexivity].
Qed.

(** The poller of job 1 in a store of two jobs, the status line being
    changed during its second request: job 2 is as it was. *)
Example poller_of_job_1_leaves_job_2 :
  jobs (settings (snd (monitor_job_during "job-1"
         [ (cancelled_answer, ret tt);
           (completed_answer, update_settings (set_server_status "Timeout")) ]
         state2))) !! 1%nat
  = Some job2.
Proof. reflexivity. Qed.

(** X1: one tick of a poller that finds its job, from whatever state it
    starts and whatever the server, the notification library and the
    main thread (during the request) do.  The tick raises nothing.  With
    [s1] the state the request comes back to, it touches no file and no
    setting other than the job collection, keeps the length of the
    collection, keeps the id, scene name and submission time of every
    record, never lowers a completion or notification flag, and changes
    no record but the one at the position where it had found its job
    before the request.  When the main thread has left the collection
    alone during the request, that is the first record carrying the
    poller's job id, and no other record changes over the whole tick;
    when it has not, the record written to may be another one
    ([remove_during_request]). *)
Theorem monitor_tick_writes_at_its_position :
  forall (id : string) (env : tick_env) (other : M unit) (s : state) (i : nat),
    find_job (jobs (settings s)) id = Some i ->
    let s1 := snd (other (log [HttpGet (poll_url s id) 10] s)) in
    let s' := snd (monitor_tick_during id env other s) in
    (exists c, fst (monitor_tick_during id env other s) = Ok c)
    /\ fs s' = fs s1
    /\ set_jobs [] (settings s') = set_jobs [] (settings s1)
    /\ length (jobs (settings s')) = length (jobs (settings s1))
    /\ (forall k j, jobs (settings s1) !! k = Some j ->
                    exists j', jobs (settings s') !! k = Some j'
                               /\ same_identity j j'
                               /\ (k <> i -> j' = j))
    /\ (jobs (settings s1) = jobs (settings s) ->
        forall k j, jobs (settings s) !! k = Some j ->
                    exists j', jobs (settings s') !! k = Some j'
                               /\ same_identity j j'
                               /\ (find_job (jobs (settings s)) id <> Some k -> j' = j)).
Proof.
  intros id env other s i Hfind s1 s'.
  split; [apply monitor_tick_during_returns|].
  destruct (keeps_frame_tick_during id env other s i Hfind) as (Hf & Hs & Hl & Hj).
  fold s1 s' in Hf, Hs, Hl, Hj.
  split; [exact Hf|]. split; [exact Hs|]. split; [exact Hl|]. split; [exact Hj|].
  intros Hsame k j Hk. rewrite <- Hsame in Hk.
  destruct (Hj k j Hk) as (j' & Hk' & Hid & Heq).
  exists j'. split; [exact Hk'|]. split; [exact Hid|].
  intros Hne. apply Heq. congruence.
Qed.

(** The tick of [remove_during_request]: it raises nothing, and the
    record it changes is the one at position 0 of the store as the
    removal left it. *)
Lemma monitor_tick_writes_at_its_position_witness :
  (exists c,
      fst (monitor_tick_during "job-1" completed_answer
             (elsewhere (INTEGRATED_OT_clear_job.execute 0)) state2) = Ok c)
  /\ length (jobs (settings (snd (monitor_tick_during "job-1" completed_answer
                                    (elsewhere (INTEGRATED_OT_clear_job.execute 0))
                                    state2))))
     = 1%nat.
Proof.
  destruct (monitor_tick_writes_at_its_position "job-1" completed_answer
              (elsewhere (INTEGRATED_OT_clear_job.execute 0)) state2 0%nat eq_refl)
    as (H1 & _ & _ & H4 & _).
  split; [exact H1|exact H4].
Defined.

(** ** The range of the progress *)

Lemma poll_progress_range (job_data : json) (p : Z) :
  poll_progress job_data = inr p -> 0 <= p <= 100.
Proof.
  unfold poll_progress, to_progress_prop.
  destruct (Py.get job_data "progress" (JInt 0)) as [e|v]; [discriminate|].
  destruct (Py.int v) as [e|z]; [discriminate|].
  destruct (_ && _); [|discriminate]. intros [= <-]. lia.
Qed.

Lemma keeps_range_refl (s : state) : keeps_range s s.
Proof. intros H. exact H. Qed.

Lemma keeps_range_trans (s1 s2 s3 : state) :
  keeps_range s1 s2 -> keeps_range s2 s3 -> keeps_range s1 s3.
Proof. unfold keeps_range. auto. Qed.

Lemma keeps_range_emit (e : event) : keeps keeps_range (emit e).
Proof. intros s H. exact H. Qed.

Lemma keeps_range_update_job (i : nat) (f : RemoteRenderJob -> RemoteRenderJob) :
  (forall j, progress_in_range j -> progress_in_range (f j)) ->
  keeps keeps_range (update_job i f).
Proof.
  intros Hf s H. rewrite update_job_run.
  cbn [snd settings jobs with_jobs set_jobs].
  apply Forall_alter; [exact H|]. intros j _. apply Hf.
Qed.

Lemma keeps_range_notifications (scene error : string) (env : plyer_env) :
  keeps keeps_range (show_completion_notification scene env)
  /\ keeps keeps_range (show_failure_notification scene error env).
Proof.
  split; intros s;
    [rewrite show_completion_notification_run|rewrite show_failure_notification_run];
    destruct env as [| |e]; try destruct (is_ImportError e); intros H; exact H.
Qed.

Lemma keeps_range_apply_poll (i : nat) (r : response) (env : plyer_env) :
  keeps keeps_range (apply_poll i r env).
Proof.
  unfold apply_poll, response_json, read_job.
  apply (keeps_bind _ keeps_range_trans);
    [destruct (body r); keeps_step keeps_range_refl keeps_range_trans|intros job_data].
  apply (keeps_bind _ keeps_range_trans);
    [keeps_step keeps_range_refl keeps_range_trans|intros new_status].
  apply (keeps_bind _ keeps_range_trans);
    [apply keeps_range_update_job; intros j Hj; exact Hj|intros _].
  apply (keeps_bind_val _ keeps_range_trans);
    [keeps_step keeps_range_refl keeps_range_trans|intros s new_progress s1 Hrun].
  apply lift_inv in Hrun as [Hp _]. apply poll_progress_range in Hp.
  revert s1.
  match goal with
  | |- forall s1, keeps_range s1 (snd (?k s1)) => change (keeps keeps_range k)
  end.
  repeat first
    [ apply keeps_range_emit
    | apply keeps_range_update_job; intros j Hj; unfold progress_in_range in *;
      simpl; first [exact Hj | exact Hp]
    | apply (proj1 (keeps_range_notifications _ "" env))
    | apply (proj2 (keeps_range_notifications _ _ env))
    | keeps_step keeps_range_refl keeps_range_trans ].
Qed.

(** X2: whatever number the server sends as progress, after any run of a
    poller every record's progress lies between 0 and 100, provided it did
    before (as it does for a new record). *)
Theorem monitor_job_keeps_progress_in_range :
  forall (id : string) (envs : list tick_env) (s : state),
    Forall progress_in_range (jobs (settings s)) ->
    Forall progress_in_range (jobs (settings (snd (monitor_job id envs s)))).
Proof.
  intros id envs. induction envs as [|env rest IH]; intros s Hs; [exact Hs|].
  simpl. unfold bind.
  assert (Htick : keeps_range s (snd (monitor_tick id env s))).
  { destruct (find_job (jobs (settings s)) id) as [i|] eqn:Hfind.
    - rewrite (monitor_tick_unfold id env s i Hfind).
      destruct (poll env) as [e|r]; [intros H; exact H|].
      destruct (status_code r =? 200); [|intros H; exact H].
      pose proof (keeps_range_apply_poll i r (plyer env)
                    (log [HttpGet (poll_url s id) 10] s)) as Hk.
      destruct (apply_poll i r (plyer env) (log [HttpGet (poll_url s id) 10] s))
        as [[[|]|e] s1]; exact Hk.
    - unfold monitor_tick, monitor_tick_during, try_except, bind, get_settings. rewrite Hfind.
      intros H; exact H. }
  destruct (monitor_tick id env s) as [[[|]|e] s1]; simpl in *; auto.
Qed.

(** The record [settings.jobs.add()] creates and a poll that reports
    progress 250. *)
Lemma monitor_job_keeps_progress_in_range_witness :
  Forall progress_in_range
    (jobs (settings (snd (monitor_job "job-1"
       [ {| poll := inr {| status_code := 200;
                           body := Some (JObj [("status", JStr "RUNNING");
                                               ("progress", JInt 250)]) |};
            plyer := plyer_notifies |} ]
       state1)))).
Proof.
  apply (monitor_job_keeps_progress_in_range "job-1" _ state1).
  simpl. constructor; [unfold progress_in_range; simpl; lia|constructor].
Defined.

(** ** Ticks that go on *)

Lemma log_nil (s : state) : log [] s = s.
Proof. destruct s. unfold log. simpl. rewrite app_nil_r. reflexivity. Qed.

(** X3: the loop has no give-up condition: as long as every request
    raises or is refused with a non-200 status, the poller of a record
    that is still there keeps polling, one request per tick, and leaves
    the store as it was. *)
Theorem monitor_job_retries_forever :
  forall (id : string) (envs : list tick_env) (s : state) (i : nat),
    find_job (jobs (settings s)) id = Some i ->
    Forall request_fails envs ->
    monitor_job id envs s
    = (Ok Polling, log (flat_map (failed_tick_events (poll_url s id)) envs) s).
Proof.
  intros id envs. induction envs as [|env rest IH]; intros s i Hfind Hfail.
  - simpl. rewrite log_nil. reflexivity.
  - inversion Hfail as [|? ? Henv Hrest]; subst.
    simpl. unfold bind. rewrite (monitor_tick_unfold id env s i Hfind).
    unfold request_fails in Henv. unfold failed_tick_events at 1.
    destruct (poll env) as [e|r].
    + rewrite (IH (log [HttpGet (poll_url s id) 10; Sleep 10] s) i Hfind Hrest).
      rewrite log_log. reflexivity.
    + apply Z.eqb_neq in Henv. rewrite Henv.
      rewrite (IH (log [HttpGet (poll_url s id) 10; Sleep 5] s) i Hfind Hrest).
      rewrite log_log. reflexivity.
Qed.

(** Three ticks against a server that is down, then answers 503. *)
Lemma monitor_job_retries_forever_witness :
  monitor_job "job-1"
    [ {| poll := inl (Exn ConnectionError "refused"); plyer := plyer_notifies |};
      {| poll := inl (Exn Timeout "timed out"); plyer := plyer_notifies |};
      {| poll := inr {| status_code := 503; body := None |}; plyer := plyer_notifies |} ]
    state1
  = (Ok Polling,
     log [ HttpGet "http://localhost:8080/api/jobs/job-1" 10; Sleep 10;
           HttpGet "http://localhost:8080/api/jobs/job-1" 10; Sleep 10;
           HttpGet "http://localhost:8080/api/jobs/job-1" 10; Sleep 5 ] state1).
Proof.
  refine (monitor_job_retries_forever "job-1"
            [ {| poll := inl (Exn ConnectionError "refused"); plyer := plyer_notifies |};
              {| poll := inl (Exn Timeout "timed out"); plyer := plyer_notifies |};
              {| poll := inr {| status_code := 503; body := None |};
                 plyer := plyer_notifies |} ]
            state1 0%nat eq_refl _).
  constructor; [exact I|]. constructor; [exact I|].
  constructor; [unfold request_fails; simpl; lia|constructor].
Defined.





(** ** The job list of the panel *)

Lemma buttons_draw_job_item (job : RemoteRenderJob) (i : nat) :
  buttons (Layout.draw_job_item job i)
  = (if downloadable job then [download_button job] else []) ++ [remove_button i].
Proof.
  unfold Layout.draw_job_item, downloadable, download_button, remove_button.
  destruct (is_complete job), (String.eqb (status job) "COMPLETED"),
    (0 <? progress job), (String.eqb (error_message job) ""); reflexivity.
Qed.

Lemma buttons_draw_job_items (l : list RemoteRenderJob) :
  forall i,
    List.filter (fun b => String.eqb (fst b) "integrated.clear_job")
      (flat_map buttons (Layout.draw_job_items i l))
    = List.map remove_button (seq i (length l))
    /\ List.filter (fun b => String.eqb (fst b) "integrated.download_job")
         (flat_map buttons (Layout.draw_job_items i l))
       = List.map download_button (List.filter downloadable l)
    /\ List.filter (fun b => String.eqb (fst b) "integrated.clear_all_jobs")
         (flat_map buttons (Layout.draw_job_items i l))
       = [].
Proof.
  induction l as [|job l IH]; intros i; [repeat split|].
  destruct (IH (S i)) as (IH1 & IH2 & IH3).
  cbn [Layout.draw_job_items flat_map length seq List.map].
  rewrite buttons_draw_job_item, !List.filter_app, IH1, IH2, IH3.
  cbn [List.filter]. destruct (downloadable job); repeat split; reflexivity.
Qed.

Lemma buttons_draw_jobs_section (st : ServerIntegratedSettings) :
  buttons (Layout.draw_jobs_section st)
  = [("integrated.refresh_ui", [])]
    ++ flat_map buttons (Layout.draw_job_items 0 (jobs st))
    ++ (if (0 <? INTEGRATED_PT_remote_render.completed_count st)%nat
        then [("integrated.clear_all_jobs", [])] else []).
Proof.
  unfold Layout.draw_jobs_section. cbn [buttons].
  rewrite !flat_map_app. cbn [flat_map buttons app].
  destruct (0 <? INTEGRATED_PT_remote_render.new_count st)%nat;
    destruct (0 <? INTEGRATED_PT_remote_render.completed_count st)%nat;
    destruct (jobs st) as [|job l]; cbn [flat_map buttons app length Nat.ltb Nat.leb Nat.eqb];
    rewrite ?app_nil_r; reflexivity.
Qed.

(** X6: the job list draws one [Remove] button per record, in order, the
    button of the record at position [i] carrying index [i]; and the
    operator run with the index of that button removes exactly that
    record, keeping the others in order. *)
Theorem remove_button_removes_its_record :
  forall (s : state),
    buttons_of "integrated.clear_job" (Layout.draw_jobs_section (settings s))
    = List.map remove_button (seq 0 (length (jobs (settings s))))
    /\ forall i : nat,
        INTEGRATED_OT_clear_job.execute (Z.of_nat i) s
        = (Ok FINISHED, with_jobs (delete i (jobs (settings s))) s).
Proof.
  intros s. split.
  - unfold buttons_of. rewrite buttons_draw_jobs_section, !List.filter_app.
    destruct (buttons_draw_job_items (jobs (settings s)) 0%nat) as (H1 & _ & _).
    rewrite H1. cbn [List.filter fst String.eqb].
    destruct (0 <? _)%nat; simpl; rewrite app_nil_r; reflexivity.
  - intros i. unfold INTEGRATED_OT_clear_job.execute. run_py.
    destruct (0 <=? Z.of_nat i) eqn:Hi; [|apply Z.leb_gt in Hi; lia].
    rewrite Nat2Z.id. reflexivity.
Qed.

(** X7: the job list offers a [Download] button exactly for the records
    that are complete with status COMPLETED, in order, each button carrying
    the id of its record; a failed, running or half-updated record gets
    none. *)
Theorem download_buttons_are_completed_jobs :
  forall (st : ServerIntegratedSettings),
    buttons_of "integrated.download_job" (Layout.draw_jobs_section st)
    = List.map download_button (List.filter downloadable (jobs st)).
Proof.
  intros st. unfold buttons_of. rewrite buttons_draw_jobs_section, !List.filter_app.
  destruct (buttons_draw_job_items (jobs st) 0%nat) as (_ & H2 & _).
  rewrite H2. cbn [List.filter fst String.eqb].
  destruct (0 <? _)%nat; simpl; rewrite app_nil_r; reflexivity.
Qed.

Lemma filter_complete_kept (l : list RemoteRenderJob) :
  List.filter is_complete (List.filter not_complete l) = [].
Proof.
  induction l as [|j l IH]; [reflexivity|].
  simpl. unfold not_complete at 1.
  destruct (is_complete j) eqn:Hj; simpl; rewrite ?Hj; exact IH.
Qed.

Lemma length_filter_split (l : list RemoteRenderJob) :
  (length (List.filter is_complete l) + length (List.filter not_complete l)
   = length l)%nat.
Proof.
  induction l as [|j l IH]; [reflexivity|].
  simpl. unfold not_complete at 1.
  destruct (is_complete j); simpl; lia.
Qed.

(** X8: the two counters of the summary add up to the number of records,
    the [Clear All Completed] button is drawn exactly when some record is
    complete, and after the operator has run the button is gone, the
    completed count is 0 and the pending count is what it was. *)
Theorem clear_all_button_and_counts :
  forall (s : state),
    let st := settings s in
    let st' := settings (snd (INTEGRATED_OT_clear_all_jobs.execute s)) in
    (INTEGRATED_PT_remote_render.pending_count st
     + INTEGRATED_PT_remote_render.completed_count st = length (jobs st))%nat
    /\ buttons_of "integrated.clear_all_jobs" (Layout.draw_jobs_section st)
       = (if existsb is_complete (jobs st) then [("integrated.clear_all_jobs", [])] else [])
    /\ buttons_of "integrated.clear_all_jobs" (Layout.draw_jobs_section st') = []
    /\ INTEGRATED_PT_remote_render.completed_count st' = 0%nat
    /\ INTEGRATED_PT_remote_render.pending_count st'
       = INTEGRATED_PT_remote_render.pending_count st.
Proof.
  intros s st st'.
  assert (Hrun : INTEGRATED_OT_clear_all_jobs.execute s
                 = (Ok FINISHED,
                    with_jobs (List.filter not_complete (jobs (settings s))) s)).
  { unfold INTEGRATED_OT_clear_all_jobs.execute.
    unfold bind at 1. unfold get_settings at 1.
    unfold bind at 1. rewrite clear_from_spec by lia.
    rewrite take_ge, drop_ge, app_nil_r by lia. reflexivity. }
  assert (Hbutton : forall t,
             buttons_of "integrated.clear_all_jobs" (Layout.draw_jobs_section t)
             = if (0 <? INTEGRATED_PT_remote_render.completed_count t)%nat
               then [("integrated.clear_all_jobs", [])] else []).
  { intros t. unfold buttons_of. rewrite buttons_draw_jobs_section, !List.filter_app.
    destruct (buttons_draw_job_items (jobs t) 0%nat) as (_ & _ & H3).
    rewrite H3. cbn [List.filter fst String.eqb app].
    destruct (0 <? _)%nat; reflexivity. }
  assert (Hcount : forall l, (0 <? length (List.filter is_complete l))%nat
                             = existsb is_complete l).
  { induction l as [|j l IH]; [reflexivity|].
    simpl. destruct (is_complete j); simpl; [reflexivity|exact IH]. }
  pose proof (length_filter_split (jobs st)) as Hsplit.
  unfold st'. rewrite Hrun. cbn [snd settings with_jobs].
  unfold INTEGRATED_PT_remote_render.pending_count,
    INTEGRATED_PT_remote_render.completed_count in *.
  cbn [jobs set_jobs].
  split; [fold st; lia|].
  split; [rewrite Hbutton; unfold INTEGRATED_PT_remote_render.completed_count;
          rewrite Hcount; reflexivity|].
  split; [rewrite Hbutton; unfold INTEGRATED_PT_remote_render.completed_count;
          cbn [jobs set_jobs]; rewrite filter_complete_kept; reflexivity|].
  rewrite filter_complete_kept. split; [reflexivity|].
  fold st. simpl. lia.
Qed.

(** ** Download *)

(** The download operator on a 200 answer that could be written. *)
Lemma download_run_ok (bpy : Bpy) (id : string) (env : download_env) (s : state)
  (r : response) :
  download_net env = inr r -> status_code r = 200 -> write_fails env = None ->
  exists evs,
    INTEGRATED_OT_download_job.execute bpy id env s
    = (Ok FINISHED,
       {| settings := set_jobs (flag_cleared id (jobs (settings s))) (settings s);
          fs := fs_create (archive_path bpy id env) (fs s);
          trace := trace s ++ evs |}).
Proof.
  intros Hnet Hcode Hwrite. apply Z.eqb_eq in Hcode.
  unfold INTEGRATED_OT_download_job.execute, INTEGRATED_OT_download_job.write_file,
    INTEGRATED_OT_download_job.open_wb,
    INTEGRATED_OT_download_job.clear_notification, flag_cleared, archive_path.
  unfold try_except, requests_get, bind at 1. unfold bind at 1. unfold get_settings at 1.
  unfold bind at 1, bind at 1, emit at 1. rewrite Hnet. simpl lift. unfold ret at 1.
  rewrite Hcode, Hwrite.
  unfold bind at 1. unfold bind at 1. unfold bind at 1, get_settings at 1.
  unfold with_fs. cbn [settings fs trace].
  destruct (find_job (jobs (settings s)) id) as [i|].
  - rewrite update_job_run. cbn [settings fs trace with_jobs jobs set_jobs].
    unfold bind at 1, report at 1, emit at 1.
    destruct (String.eqb (os_name env) "nt"); [|destruct (String.eqb (os_name env) "posix")];
      unfold emit, ret, with_jobs; cbn [settings fs trace jobs set_jobs];
      rewrite <- ?app_assoc; eexists; reflexivity.
  - unfold ret at 1. unfold bind at 1, report at 1, emit at 1.
    assert (Hsame : set_jobs (jobs (settings s)) (settings s) = settings s)
      by (destruct (settings s); reflexivity).
    rewrite Hsame.
    destruct (String.eqb (os_name env) "nt"); [|destruct (String.eqb (os_name env) "posix")];
      unfold emit, ret, with_jobs; cbn [settings fs trace jobs set_jobs];
      rewrite <- ?app_assoc; eexists; reflexivity.
Qed.

(** X9: on a 200 answer that can be written, the download operator
    returns FINISHED, adds the archive [render_job_<id>.zip] in the
    download directory and no other file, clears the notification flag of
    the first record carrying the id and changes nothing else in the store
    (nothing at all when no record carries the id). *)
Theorem download_writes_archive_and_clears_flag :
  forall (bpy : Bpy) (id : string) (env : download_env) (s : state) (r : response),
    download_net env = inr r -> status_code r = 200 -> write_fails env = None ->
    let s' := snd (INTEGRATED_OT_download_job.execute bpy id env s) in
    fst (INTEGRATED_OT_download_job.execute bpy id env s) = Ok FINISHED
    /\ files s' = files s ∪ {[archive_path bpy id env]}
    /\ set_jobs [] (settings s') = set_jobs [] (settings s)
    /\ length (jobs (settings s')) = length (jobs (settings s))
    /\ forall k j, jobs (settings s) !! k = Some j ->
                   jobs (settings s') !! k
                   = Some (if bool_decide (find_job (jobs (settings s)) id = Some k)
                           then set_has_notification false j else j).
Proof.
  intros bpy id env s r Hnet Hcode Hwrite s'.
  destruct (download_run_ok bpy id env s r Hnet Hcode Hwrite) as [evs Hrun].
  unfold s', files. rewrite Hrun. cbn [fst snd settings fs existing fs_create jobs set_jobs].
  split; [reflexivity|]. split; [reflexivity|]. split; [reflexivity|].
  unfold flag_cleared.
  destruct (find_job (jobs (settings s)) id) as [i|] eqn:Hfind.
  - split; [apply length_alter|]. intros k j Hk.
    destruct (decide (i = k)) as [->|Hne].
    + rewrite list_lookup_alter_eq, Hk, bool_decide_eq_true_2 by reflexivity. reflexivity.
    + rewrite list_lookup_alter_ne, Hk by exact Hne.
      rewrite bool_decide_eq_false_2 by congruence. reflexivity.
  - split; [reflexivity|]. intros k j Hk. rewrite Hk. reflexivity.
Qed.

(** The archive of job 1, flagged in [state1]. *)
Lemma download_writes_archive_and_clears_flag_witness :
  fst (INTEGRATED_OT_download_job.execute bpy0 "job-1" download_env0 state1) = Ok FINISHED
  /\ files (snd (INTEGRATED_OT_download_job.execute bpy0 "job-1" download_env0 state1))
     = files state1 ∪ {[archive_path bpy0 "job-1" download_env0]}.
Proof.
  pose proof (download_writes_archive_and_clears_flag bpy0 "job-1" download_env0 state1
                {| status_code := 200; body := None |} eq_refl eq_refl eq_refl)
    as (H1 & H2 & _).
  split; [exact H1|exact H2].
Defined.

(** X10: when the download request raises, is answered with a status
    other than 200, or the archive cannot be written, the operator still
    returns FINISHED and the store (the notification flags included) is
    as it was.  The files are as they were too, except when the failure
    came at [f.write]: [open] had then already created, or emptied, the
    archive, and it stays. *)
Theorem failed_download_keeps_store :
  forall (bpy : Bpy) (id : string) (env : download_env) (s : state),
    (exists e, download_net env = inl e)
    \/ (exists r, download_net env = inr r /\ status_code r <> 200)
    \/ (exists w, write_fails env = Some w) ->
    let s' := snd (INTEGRATED_OT_download_job.execute bpy id env s) in
    fst (INTEGRATED_OT_download_job.execute bpy id env s) = Ok FINISHED
    /\ settings s' = settings s
    /\ fs s' = (if archive_left env then fs_create (archive_path bpy id env) (fs s)
                else fs s)
    /\ files s' = (if archive_left env then files s ∪ {[archive_path bpy id env]}
                   else files s).
Proof.
  intros bpy id env s Hfail.
  unfold INTEGRATED_OT_download_job.execute, INTEGRATED_OT_download_job.write_file,
    archive_left, archive_path, files.
  destruct (download_net env) as [e|r] eqn:Hnet; run_py; [repeat split|].
  destruct (status_code r =? 200) eqn:Hcode; run_py;
    [|destruct (write_fails env) as [[|]|]; repeat split].
  destruct Hfail as [[e He]|[[r' [Hr' Hne]]|[w Hw]]]; [discriminate| |].
  - injection Hr' as <-. apply Z.eqb_eq in Hcode. contradiction.
  - rewrite Hw. destruct w; run_py; repeat split.
Qed.

(** A disk that fills up while the archive is written. *)
Lemma failed_download_keeps_store_witness :
  settings (snd (INTEGRATED_OT_download_job.execute bpy0 "job-1"
                   {| download_net := inr {| status_code := 200; body := None |};
                      home := "/home/artist"; downloads_exists := true;
                      write_fails := Some (at_write (Exn OSError "No space left on device"));
                      os_name := "posix"; sysname := "Linux" |}
                   state1))
  = settings state1
  /\ files (snd (INTEGRATED_OT_download_job.execute bpy0 "job-1"
                   {| download_net := inr {| status_code := 200; body := None |};
                      home := "/home/artist"; downloads_exists := true;
                      write_fails := Some (at_write (Exn OSError "No space left on device"));
                      os_name := "posix"; sysname := "Linux" |}
                   state1))
     = files state1 ∪ {["/home/artist/render_job_job-1.zip"]}.
Proof.
  pose proof (failed_download_keeps_store bpy0 "job-1"
                {| download_net := inr {| status_code := 200; body := None |};
                   home := "/home/artist"; downloads_exists := true;
                   write_fails := Some (at_write (Exn OSError "No space left on device"));
                   os_name := "posix"; sysname := "Linux" |}
                state1) as H.
  destruct H as (_ & H2 & _ & H4).
  - right. right. eexists. reflexivity.
  - split; [exact H2|exact H4].
Defined.

Lemma new_count_after_clear (l : list RemoteRenderJob) :
  forall (i : nat) (j : RemoteRenderJob),
    l !! i = Some j -> has_notification j = true ->
    S (length (List.filter has_notification (alter (set_has_notification false) i l)))
    = length (List.filter has_notification l).
Proof.
  induction l as [|x l IH]; intros [|i] j Hj Hflag; try discriminate.
  - injection Hj as ->. simpl. rewrite Hflag. reflexivity.
  - simpl in Hj. cbn [alter list_alter List.filter].
    destruct (has_notification x); simpl; rewrite <- (IH i j Hj Hflag); reflexivity.
Qed.

(** X11: a successful download of a job whose record is flagged as new
    lowers the count of the panel's badge by exactly one. *)
Theorem download_lowers_badge_count :
  forall (bpy : Bpy) (id : string) (env : download_env) (s : state) (r : response)
         (i : nat) (j : RemoteRenderJob),
    download_net env = inr r -> status_code r = 200 -> write_fails env = None ->
    find_job (jobs (settings s)) id = Some i ->
    jobs (settings s) !! i = Some j ->
    has_notification j = true ->
    S (INTEGRATED_PT_remote_render.new_count
         (settings (snd (INTEGRATED_OT_download_job.execute bpy id env s))))
    = INTEGRATED_PT_remote_render.new_count (settings s).
Proof.
  intros bpy id env s r i j Hnet Hcode Hwrite Hfind Hj Hflag.
  destruct (download_run_ok bpy id env s r Hnet Hcode Hwrite) as [evs Hrun].
  rewrite Hrun. unfold INTEGRATED_PT_remote_render.new_count, flag_cleared.
  cbn [snd settings jobs set_jobs]. rewrite Hfind.
  apply (new_count_after_clear _ i j Hj Hflag).
Qed.

(** Job 1 of [state1] is flagged. *)
Lemma download_lowers_badge_count_witness :
  S (INTEGRATED_PT_remote_render.new_count
       (settings (snd (INTEGRATED_OT_download_job.execute bpy0 "job-1" download_env0
                         state1))))
  = INTEGRATED_PT_remote_render.new_count (settings state1).
Proof.
  exact (download_lowers_badge_count bpy0 "job-1" download_env0 state1
           {| status_code := 200; body := None |} 0%nat job1
           eq_refl eq_refl eq_refl eq_refl eq_refl eq_refl).
Defined.

(** X12: with unique job ids, removing a record through its [Remove]
    button makes the next tick of that record's poller end the loop. *)
Theorem removed_record_stops_its_poller :
  forall (i : nat) (j : RemoteRenderJob) (env : tick_env) (envs : list tick_env)
         (s : state),
    NoDup (job_id <$> jobs (settings s)) ->
    jobs (settings s) !! i = Some j ->
    let s' := snd (INTEGRATED_OT_clear_job.execute (Z.of_nat i) s) in
    jobs (settings s') = delete i (jobs (settings s))
    /\ monitor_job (job_id j) (env :: envs) s' = (Ok Terminated, s').
Proof.
  intros i j env envs s Hnd Hj s'.
  destruct (clear_job_stops_poller i j env s Hnd Hj) as (s1 & Hrun & Htick).
  unfold s'. rewrite Hrun. cbn [snd].
  split.
  - unfold INTEGRATED_OT_clear_job.execute in Hrun. run_py.
    destruct (0 <=? Z.of_nat i) eqn:Hi; [|apply Z.leb_gt in Hi; lia].
    rewrite Nat2Z.id in Hrun. injection Hrun as <-. reflexivity.
  - simpl. unfold bind. rewrite Htick. reflexivity.
Qed.

(** Removing the only record of [state1]. *)
Lemma removed_record_stops_its_poller_witness :
  monitor_job "job-1" [completed_answer]
    (snd (INTEGRATED_OT_clear_job.execute 0 state1))
  = (Ok Terminated, snd (INTEGRATED_OT_clear_job.execute 0 state1)).
Proof.
  refine (proj2 (removed_record_stops_its_poller 0%nat job1 completed_answer [] state1
                   _ eq_refl)).
  simpl. apply NoDup_singleton.
Defined.

(** ** The connection test *)

(** X13: the connection test never raises and never touches the job
    store or the files.  It ends with status [Connected ✓] exactly when
    the server answered 200 with a JSON object.  An exception that is a
    [ConnectionError] of [requests] gives [Connection Failed]; that
    includes a [ConnectTimeout], which is a [Timeout] as well, because the
    clause for [ConnectionError] comes first.  Any other [Timeout] gives
    [Timeout], another status [Error <code>], and anything else, a 200
    answer whose body is no JSON or no object included, just [Error].
    The time of the last check is set whenever a 200 answer parsed, even
    when the status then ends as [Error]. *)
Theorem test_connection_outcome :
  forall (format_value : json -> string) (env : connection_env) (s : state),
    let s' := snd (INTEGRATED_OT_test_connection.execute format_value env s) in
    fst (INTEGRATED_OT_test_connection.execute format_value env s) = Ok FINISHED
    /\ jobs (settings s') = jobs (settings s)
    /\ fs s' = fs s
    /\ server_status (settings s')
       = match health env with
         | inl e =>
             if is_a (exn_cls e) ConnectionError then "Connection Failed"
             else if is_a (exn_cls e) Timeout then "Timeout"
             else "Error"
         | inr r =>
             if status_code r =? 200
             then match body r with
                  | Some (JObj _) => "Connected ✓"
                  | _ => "Error"
                  end
             else "Error " +:+ pretty (status_code r)
         end
    /\ last_check (settings s')
       = match health env with
         | inr r =>
             if status_code r =? 200
             then match body r with
                  | Some _ => clock_hms env
                  | None => last_check (settings s)
                  end
             else last_check (settings s)
         | inl _ => last_check (settings s)
         end.
Proof.
  intros format_value env s.
  unfold INTEGRATED_OT_test_connection.execute, update_settings.
  destruct (health env) as [e|r]; run_py.
  - destruct (is_a (exn_cls e) ConnectionError); [|destruct (is_a (exn_cls e) Timeout)];
      run_py; repeat split.
  - destruct (status_code r =? 200); run_py; [|repeat split].
    destruct (body r) as [[| | | | | |]|]; run_py; repeat split.
Qed.

(** A connection that times out while it is being set up, and a read
    that times out. *)
Example connect_timeout_is_connection_failed :
  server_status
    (settings (snd (INTEGRATED_OT_test_connection.execute (fun _ => "")
                      {| health := inl (Exn ConnectTimeout "timed out");
                         clock_hms := "12:00:00" |} state0)))
  = "Connection Failed"
  /\ server_status
       (settings (snd (INTEGRATED_OT_test_connection.execute (fun _ => "")
                         {| health := inl (Exn ReadTimeout "timed out");
                            clock_hms := "12:00:00" |} state0)))
     = "Timeout".
Proof. split; reflexivity. Qed.

(** The status line the connection test leaves. *)
Lemma test_connection_status (format_value : json -> string) (env : connection_env)
  (s : state) :
  server_status (settings (snd (INTEGRATED_OT_test_connection.execute format_value env s)))
  = match health env with
    | inl e =>
        if is_a (exn_cls e) ConnectionError then "Connection Failed"
        else if is_a (exn_cls e) Timeout then "Timeout"
        else "Error"
    | inr r =>
        if status_code r =? 200
        then match body r with
             | Some (JObj _) => "Connected ✓"
             | _ => "Error"
             end
        else "Error " +:+ pretty (status_code r)
    end.
Proof.
  unfold INTEGRATED_OT_test_connection.execute, update_settings.
  destruct (health env) as [e|r]; run_py.
  - destruct (is_a (exn_cls e) ConnectionError); [|destruct (is_a (exn_cls e) Timeout)];
      run_py; reflexivity.
  - destruct (status_code r =? 200); run_py; [|reflexivity].
    destruct (body r) as [[| | | | | |]|]; run_py; reflexivity.
Qed.

Lemma lacks_app (c : ascii) (s1 s2 : string) :
  lacks c (s1 +:+ s2) = lacks c s1 && lacks c s2.
Proof.
  induction s1 as [|a s1 IH]; [reflexivity|].
  simpl. rewrite IH, andb_assoc. reflexivity.
Qed.

Lemma lacks_not_contains (c : ascii) (rest hay : string) :
  lacks c hay = true -> Layout.str_contains (String c rest) hay = false.
Proof.
  induction hay as [|a hay IH]; [reflexivity|].
  simpl. intros H. apply andb_true_iff in H as [Ha Hrest].
  apply negb_true_iff in Ha. rewrite Ha, (IH Hrest). reflexivity.
Qed.

Lemma pretty_N_char_lacks (c : ascii) (n : N) :
  lacks c "0123456789" = true -> Ascii.eqb c (pretty_N_char n) = false.
Proof.
  intros H. simpl in H.
  repeat (apply andb_true_iff in H as [?%negb_true_iff H]).
  unfold pretty_N_char. repeat case_match; assumption.
Qed.

Lemma pretty_N_go_lacks (c : ascii) :
  lacks c "0123456789" = true ->
  forall (x : N) (s : string), lacks c s = true -> lacks c (pretty_N_go x s) = true.
Proof.
  intros Hc x. induction x as [x IH] using (well_founded_induction N.lt_wf_0).
  intros s Hs. destruct (decide (x = 0%N)) as [->|Hne].
  - rewrite pretty_N_go_0. exact Hs.
  - rewrite pretty_N_go_step by lia. apply IH.
    + apply N.div_lt; lia.
    + simpl. rewrite (pretty_N_char_lacks c _ Hc), Hs. reflexivity.
Qed.

Lemma pretty_Z_lacks (c : ascii) (z : Z) :
  lacks c "-0123456789" = true -> lacks c (pretty z) = true.
Proof.
  intros H. simpl in H. apply andb_true_iff in H as [Hdash Hdigits].
  assert (HN : forall n : N, lacks c (pretty n) = true).
  { intros n. unfold pretty, pretty_N. case_decide; [|apply pretty_N_go_lacks; auto].
    simpl in *. apply andb_true_iff in Hdigits as [-> _]. reflexivity. }
  destruct z as [|p|p].
  - simpl in *. apply andb_true_iff in Hdigits as [-> _]. reflexivity.
  - apply (HN (N.pos p)).
  - change (pretty (Z.neg p)) with ("-" +:+ pretty (N.pos p)).
    rewrite lacks_app, HN. simpl. rewrite Hdash. reflexivity.
Qed.

(** X14: after the connection test the server box of the panel shows the
    check mark exactly when the server answered 200 with a JSON object,
    and the error icon (on an alert column) after every other outcome. *)
Theorem check_mark_iff_server_healthy :
  forall (format_value : json -> string) (env : connection_env) (s : state),
    let st' := settings (snd (INTEGRATED_OT_test_connection.execute format_value env s)) in
    icons (Layout.draw_server_section st')
    = ["WORLD"; if server_is_healthy env then "CHECKMARK" else "ERROR"].
Proof.
  intros format_value env s st'.
  pose proof (test_connection_status format_value env s) as Hstatus.
  fold st' in Hstatus.
  assert (Hshape : forall (alert : bool) (icon : string) (tail : list widget),
             (forall w, In w tail -> icons w = []) ->
             icons (ui_box false
                      ([ ui_label "Server Connection" (Some "WORLD");
                         ui_prop "server_url" None false;
                         ui_row false
                           [ ui_operator "integrated.test_connection" None (Some "PLUGIN") [];
                             ui_column alert [ui_label (server_status st') (Some icon)] ] ]
                       ++ tail))
             = ["WORLD"; icon]).
  { intros alert icon tail Htail. cbn [icons flat_map app].
    assert (Hnil : flat_map icons tail = []).
    { induction tail as [|w tail IH]; [reflexivity|].
      simpl. rewrite (Htail w (or_introl eq_refl)), IH; [reflexivity|].
      intros w' Hw'. apply Htail. right. exact Hw'. }
    rewrite Hnil. reflexivity. }
  assert (Htail : forall w,
             In w (if negb (String.eqb (server_status st') "")
                      && negb (String.eqb (last_check st') "")
                   then [ui_label ("Last check: " +:+ last_check st') None] else []) ->
             icons w = []).
  { intros w Hw. destruct (_ && _); [|contradiction].
    destruct Hw as [<-|[]]. reflexivity. }
  unfold Layout.draw_server_section.
  assert (Hcases :
            negb (String.eqb (server_status st') "") = true
            /\ Layout.str_contains "✓" (server_status st') = server_is_healthy env).
  { unfold server_is_healthy. rewrite Hstatus.
    destruct (health env) as [e|r].
    - destruct (is_a (exn_cls e) ConnectionError); [|destruct (is_a (exn_cls e) Timeout)];
        split; reflexivity.
    - destruct (status_code r =? 200).
      + destruct (body r) as [[| | | | | |]|]; split; reflexivity.
      + split; [reflexivity|].
        change ("Error " +:+ pretty (status_code r))
          with (String "E" (String "r" (String "r" (String "o" (String "r"
                  (String " " (pretty (status_code r)))))))).
        cbn [Layout.str_contains Layout.starts_with Ascii.eqb Bool.eqb andb orb].
        apply lacks_not_contains. apply pretty_Z_lacks. reflexivity. }
  destruct Hcases as [Hne Hmark]. rewrite Hne, Hmark in *.
  destruct (server_is_healthy env); apply Hshape; exact Htail.
Qed.

(** ** The file system *)

Lemma same_at_refl (p : string) (f : filesystem) : same_at p f f.
Proof. split; reflexivity. Qed.

Lemma same_at_trans (p : string) (f1 f2 f3 : filesystem) :
  same_at p f1 f2 -> same_at p f2 f3 -> same_at p f1 f3.
Proof. intros [H1 H2] [H3 H4]. split; [tauto|congruence]. Qed.

Lemma fs_rename_same_at (src dst : string) (f : filesystem) (p : string) :
  p <> src -> p <> dst -> same_at p f (fs_rename src dst f).
Proof.
  intros Hs Hd. unfold same_at, fs_rename. cbn [existing special]. split.
  - rewrite elem_of_union, elem_of_difference, !elem_of_singleton. tauto.
  - destruct (special f !! src).
    + rewrite lookup_insert_ne, lookup_delete_ne by auto. reflexivity.
    + rewrite !lookup_delete_ne by auto. reflexivity.
Qed.



Lemma shift_versions_same_at (name : string) (hisnr : nat) :
  forall (f : filesystem) (p : string),
    (forall k, p <> version_path name k) ->
    same_at p f (shift_versions name hisnr f).
Proof.
  induction hisnr as [|n IH]; intros f p Hp; [apply same_at_refl|].
  destruct n as [|m]; [apply same_at_refl|].
  cbn [shift_versions].
  eapply same_at_trans; [|apply (IH _ p Hp)].
  destruct (bool_decide _); [|apply same_at_refl].
  apply fs_rename_same_at; apply Hp.
Qed.

Lemma do_history_same_at (name : string) (versions : nat) (f : filesystem) (p : string) :
  p <> name -> (forall k, p <> version_path name k) ->
  same_at p f (do_history name versions f).
Proof.
  intros Hn Hp. destruct versions as [|v]; [apply same_at_refl|].
  unfold do_history.
  eapply same_at_trans; [apply (shift_versions_same_at name (S v) f p Hp)|].
  destruct (bool_decide _); [|apply same_at_refl].
  apply fs_rename_same_at; [exact Hn|apply Hp].
Qed.


Lemma append_nil_r (a : string) : a +:+ "" = a.
Proof.
  induction a as [|c a IH]; [reflexivity|].
  change (String c (a +:+ "") = String c a). rewrite IH. reflexivity.
Qed.

Lemma pretty_N_go_nonempty (x : N) :
  forall s : string, s <> "" \/ x <> 0%N -> pretty_N_go x s <> "".
Proof.
  induction x as [x IH] using (well_founded_induction N.lt_wf_0).
  intros s Hs. destruct (decide (x = 0%N)) as [->|Hne].
  - rewrite pretty_N_go_0. destruct Hs as [Hs|Hs]; [exact Hs|contradiction].
  - rewrite pretty_N_go_step by lia. apply IH; [apply N.div_lt; lia|].
    left. discriminate.
Qed.

Lemma pretty_Z_nonempty (z : Z) : pretty z <> "".
Proof.
  assert (HN : forall n : N, pretty n <> "").
  { intros n. unfold pretty, pretty_N. case_decide as Hn; [discriminate|].
    apply pretty_N_go_nonempty. right. exact Hn. }
  destruct z as [|p|p]; [discriminate|apply (HN (N.pos p))|discriminate].
Qed.

(** A backup is neither the file itself nor the file Blender writes to. *)
Lemma version_path_neq (name : string) (k : nat) :
  version_path name k <> name /\ version_path name k <> name +:+ "@".
Proof.
  unfold version_path. split; intros H.
  - rewrite <- (append_nil_r name) in H at 2. apply String.app_inj in H.
    exact (pretty_Z_nonempty _ H).
  - apply String.app_inj in H.
    pose proof (pretty_Z_lacks "@" (Z.of_nat k) eq_refl) as Hl.
    rewrite H in Hl. discriminate.
Qed.

Lemma at_path_neq (name : string) : name +:+ "@" <> name.
Proof.
  intros H. rewrite <- (append_nil_r name) in H at 2. apply String.app_inj in H.
  discriminate.
Qed.

(** What a save leaves at the path it saves to: a file, and nothing
    special about it. *)
Lemma fs_save_plain (path : string) (versions : nat) (f : filesystem) :
  path ∈ existing (fs_save path versions f)
  /\ special (fs_save path versions f) !! path = None.
Proof.
  unfold fs_save. set (g := do_history path versions (fs_write (path +:+ "@") f)).
  assert (Hat : special g !! (path +:+ "@") = None).
  { destruct (do_history_same_at path versions (fs_write (path +:+ "@") f) (path +:+ "@"))
      as [_ H].
    - apply at_path_neq.
    - intros k Hk. symmetry in Hk. apply version_path_neq in Hk. exact Hk.
    - fold g in H. rewrite H. unfold fs_write. cbn [special]. apply lookup_delete_eq. }
  unfold fs_rename. cbn [existing special]. split.
  - apply elem_of_union. right. apply elem_of_singleton. reflexivity.
  - rewrite Hat. apply lookup_delete_eq.
Qed.


(** ** Submission as a whole *)

Lemma threads_app (t1 t2 : list event) : threads (t1 ++ t2) = threads t1 ++ threads t2.
Proof.
  induction t1 as [|e t1 IH]; [reflexivity|].
  destruct e; simpl; rewrite ?IH; reflexivity.
Qed.

Lemma execute_unfold (bpy : Bpy) (env : submit_env) :
  INTEGRATED_OT_submit_render.execute bpy env
  = try_except
      (report "INFO" "Preparing scene for upload..." ;;
       temp_blend_file <- save_scene_to_temp env ;;
       report "INFO" "Uploading scene to server..." ;;
       st <- get_settings ;;
       upload_result <- upload_file (server_url st) temp_blend_file (upload_net env) ;;
       after_upload bpy env upload_result)
      (fun e => report "ERROR" ("Error submitting job: " +:+ exn_msg e) ;; ret CANCELLED).
Proof. reflexivity. Qed.

(** What the last part of [execute] does, exactly. *)
Lemma register_job_run (bpy : Bpy) (env : submit_env) (job_result : json) (s : state) :
  register_job bpy env job_result s
  = match submitted_id job_result with
    | inr id =>
        (Ok FINISHED,
         log [ThreadStart id;
              Report "INFO" ("Render submitted successfully! Job ID: " +:+ id)]
           (with_jobs (jobs (settings s) ++ [new_record bpy env id]) s))
    | inl e => (Raise e, with_jobs (jobs (settings s) ++ [RemoteRenderJob_default]) s)
    end.
Proof.
  unfold register_job, submitted_id.
  unfold bind at 1. rewrite jobs_add_run.
  unfold bind at 1.
  destruct (Py.get job_result "id" (JStr "unknown")) as [e|id]; [reflexivity|].
  simpl lift at 1. unfold ret at 1. unfold bind at 1.
  destruct (to_string_prop id) as [e|id_str]; [reflexivity|].
  simpl lift at 1. unfold ret at 1.
  unfold bind at 1. rewrite update_job_run.
  unfold bind at 1. rewrite update_job_run.
  unfold bind at 1. rewrite update_job_run.
  unfold bind at 1. rewrite update_job_run.
  cbn [settings jobs with_jobs set_jobs]. rewrite !alter_last.
  unfold bind at 1, read_job, bind at 1, get_settings.
  cbn [settings jobs with_jobs set_jobs]. rewrite lookup_last. unfold ret at 1.
  unfold new_record, bind, report, emit, ret, log, with_jobs. simpl.
  rewrite <- app_assoc. reflexivity.
Qed.

Lemma upload_file_threads (url path : string) (net : http_outcome) (s : state) :
  threads (trace (snd (upload_file url path net s))) = threads (trace s)
  /\ posts (trace (snd (upload_file url path net s))) = posts (trace s).
Proof.
  destruct (upload_file_run_quiet url path net s) as (evs & [Ht Hp] & ->).
  destruct (bool_decide (path ∈ files s)); [destruct (remove_refused (fs s) path)|];
    simpl; rewrite threads_app, posts_app, Ht, Hp, !app_nil_r; auto.
Qed.

(** The upload of a file that is there and not special: it never raises
    and the file is gone. *)
Lemma upload_file_plain (url path : string) (net : http_outcome) (s : state) :
  path ∈ files s -> special (fs s) !! path = None ->
  exists evs,
    (threads evs = [] /\ posts evs = [])
    /\ upload_file url path net s
       = (Ok (answer net), log evs (with_fs (fs_unlink path (fs s)) s)).
Proof.
  intros Hin Hplain.
  destruct (upload_file_run_quiet url path net s) as (evs & Hq & Hrun).
  exists evs. split; [exact Hq|]. rewrite Hrun.
  rewrite bool_decide_eq_true_2 by exact Hin.
  unfold remove_refused, open_refused. rewrite Hplain. reflexivity.
Qed.

Lemma submit_render_job_threads (bpy : Bpy) (upload_result : json) (net : http_outcome)
  (s : state) :
  threads (trace (snd (submit_render_job bpy upload_result net s))) = threads (trace s).
Proof.
  unfold submit_render_job.
  destruct upload_result, (render_quality (settings s)) eqn:Hq, net as [e|r];
    repeat (progress (run_py; rewrite ?Hq)); auto;
    repeat (case_match; run_py; simplify_eq);
    rewrite ?threads_app; simpl; rewrite ?app_nil_r; auto.
Qed.

Lemma save_scene_to_temp_run (env : submit_env) (s : state) :
  save_scene_to_temp env s
  = match save_fails env with
    | Some e => (Raise e, log [SaveMainfile (temp_path env)] s)
    | None => (Ok (temp_path env),
               with_fs (fs_save (temp_path env) (save_versions env) (fs s))
                 (log [SaveMainfile (temp_path env)] s))
    end.
Proof.
  unfold save_scene_to_temp, temp_path. destruct (save_fails env); reflexivity.
Qed.

(** The part after the upload, summarised: it touches no file and no
    setting but the job collection; it appends the new record and starts
    its thread when it returns FINISHED, and starts none otherwise. *)
Lemma after_upload_cases (bpy : Bpy) (env : submit_env) (upload_result : json) (s : state) :
  let r := fst (after_upload bpy env upload_result s) in
  let s' := snd (after_upload bpy env upload_result s) in
  fs s' = fs s
  /\ set_jobs [] (settings s') = set_jobs [] (settings s)
  /\ match r with
     | Ok FINISHED =>
         exists id, jobs (settings s') = jobs (settings s) ++ [new_record bpy env id]
                    /\ threads (trace s') = threads (trace s) ++ [id]
     | Ok CANCELLED =>
         jobs (settings s') = jobs (settings s) /\ threads (trace s') = threads (trace s)
     | Raise _ =>
         threads (trace s') = threads (trace s)
         /\ (jobs (settings s') = jobs (settings s)
             \/ jobs (settings s') = jobs (settings s) ++ [RemoteRenderJob_default])
     end.
Proof.
  cbv zeta. unfold after_upload.
  destruct (negb (Py.truthy upload_result)); [repeat split|].
  unfold bind, report, emit.
  match goal with
  | |- context [submit_render_job bpy upload_result (submit_net env) ?st] =>
      pose proof (submit_render_job_frame bpy upload_result (submit_net env) st)
        as [Hset Hfiles];
      pose proof (submit_render_job_threads bpy upload_result (submit_net env) st) as Hthr;
      destruct (submit_render_job bpy upload_result (submit_net env) st)
        as [[job_result|e] s1]
  end; cbn [fst snd settings fs trace] in *;
    rewrite threads_app in Hthr; simpl in Hthr; rewrite app_nil_r in Hthr.
  - destruct (negb (Py.truthy job_result)).
    + unfold ret. cbn [fst snd]. rewrite Hfiles, Hset, Hthr. repeat split.
    + rewrite register_job_run.
      destruct (submitted_id job_result) as [e|id];
        cbn [fst snd settings fs trace jobs with_jobs set_jobs log];
        rewrite ?threads_app, Hfiles, Hset, Hthr; simpl; rewrite ?app_nil_r.
      * split; [reflexivity|]. split; [reflexivity|]. split; [reflexivity|].
        right. reflexivity.
      * split; [reflexivity|]. split; [reflexivity|]. exists id. split; reflexivity.
  - rewrite Hfiles, Hset, Hthr. repeat split. left. reflexivity.
Qed.

(** [execute] once the scene has been saved: the upload of the file just
    written, then the part that follows it. *)
Lemma execute_saved (bpy : Bpy) (env : submit_env) (s : state) :
  save_fails env = None ->
  exists evs,
    (threads evs = [] /\ posts evs = [])
    /\ INTEGRATED_OT_submit_render.execute bpy env s
       = try_except (after_upload bpy env (answer (upload_net env)))
           (fun e => report "ERROR" ("Error submitting job: " +:+ exn_msg e) ;;
                     ret CANCELLED)
           (log evs (with_fs (fs_unlink (temp_path env)
                                (fs_save (temp_path env) (save_versions env) (fs s))) s)).
Proof.
  intros Hsave.
  rewrite execute_unfold. unfold try_except at 1, bind at 1, report at 1, emit at 1.
  unfold bind at 1. rewrite save_scene_to_temp_run, Hsave.
  unfold bind at 1, report at 1, emit at 1. unfold bind at 1, get_settings at 1.
  unfold bind at 1.
  match goal with
  | |- context [upload_file ?url ?path ?net ?st] =>
      destruct (upload_file_plain url path net st) as (evs & [Ht Hp] & Hrun);
      [apply (fs_save_plain (temp_path env) (save_versions env) (fs s))
      |apply (fs_save_plain (temp_path env) (save_versions env) (fs s))
      |rewrite Hrun]
  end.
  exists ([Report "INFO" "Preparing scene for upload..."; SaveMainfile (temp_path env);
           Report "INFO" "Uploading scene to server..."] ++ evs).
  split.
  { rewrite threads_app, posts_app, Ht, Hp. split; reflexivity. }
  unfold try_except, log, with_fs. cbn [settings fs trace].
  rewrite <- !app_assoc. reflexivity.
Qed.

(** The whole of [execute], summarised. *)
Lemma execute_summary (bpy : Bpy) (env : submit_env) (s : state) :
  let r := fst (INTEGRATED_OT_submit_render.execute bpy env s) in
  let s' := snd (INTEGRATED_OT_submit_render.execute bpy env s) in
  set_jobs [] (settings s') = set_jobs [] (settings s)
  /\ fs s' = match save_fails env with
             | None => fs_unlink (temp_path env)
                         (fs_save (temp_path env) (save_versions env) (fs s))
             | Some _ => fs s
             end
  /\ ((r = Ok FINISHED
       /\ exists id, jobs (settings s') = jobs (settings s) ++ [new_record bpy env id]
                     /\ threads (trace s') = threads (trace s) ++ [id])
      \/ (r = Ok CANCELLED
          /\ threads (trace s') = threads (trace s)
          /\ (jobs (settings s') = jobs (settings s)
              \/ jobs (settings s') = jobs (settings s) ++ [RemoteRenderJob_default]))).
Proof.
  cbv zeta. destruct (save_fails env) as [e|] eqn:Hsave.
  { rewrite execute_unfold. unfold try_except, bind, report, emit, get_settings.
    rewrite save_scene_to_temp_run, Hsave.
    unfold ret, log. cbn [fst snd settings fs trace].
    split; [reflexivity|]. split; [reflexivity|]. right.
    rewrite !threads_app. simpl. rewrite !app_nil_r. auto. }
  destruct (execute_saved bpy env s Hsave) as (evs & [Hthr _] & ->).
  unfold try_except.
  match goal with
  | |- context [after_upload bpy env ?up ?st] =>
      pose proof (after_upload_cases bpy env up st) as (Hf & Hs & Hr);
      destruct (after_upload bpy env up st) as [[[|]|e] s1]
  end; cbn [fst snd settings fs trace log with_fs] in *.
  - split; [exact Hs|]. split; [exact Hf|].
    left. split; [reflexivity|]. destruct Hr as (id & Hj & Ht). exists id.
    split; [exact Hj|]. rewrite Ht, threads_app, Hthr, app_nil_r. reflexivity.
  - split; [exact Hs|]. split; [exact Hf|].
    right. split; [reflexivity|]. destruct Hr as (Hj & Ht).
    split; [|left; exact Hj]. rewrite Ht, threads_app, Hthr, app_nil_r. reflexivity.
  - unfold bind, report, emit, ret. cbn [fst snd settings fs trace].
    split; [exact Hs|]. split; [exact Hf|].
    right. split; [reflexivity|]. destruct Hr as (Ht & Hj).
    split; [|exact Hj]. rewrite threads_app, Ht, threads_app, Hthr. simpl.
    rewrite !app_nil_r. reflexivity.
Qed.



(** X16: [execute] never raises.  When it returns FINISHED it has appended
    exactly one record and started exactly one monitor thread, for the id
    of that record; when it returns CANCELLED it has started none.  No
    setting other than the job collection changes. *)
Theorem execute_starts_one_poller_iff_finished :
  forall (bpy : Bpy) (env : submit_env) (s : state),
    let r := fst (INTEGRATED_OT_submit_render.execute bpy env s) in
    let s' := snd (INTEGRATED_OT_submit_render.execute bpy env s) in
    set_jobs [] (settings s') = set_jobs [] (settings s)
    /\ ((r = Ok FINISHED
         /\ exists new_job,
             jobs (settings s') = jobs (settings s) ++ [new_job]
             /\ threads (trace s') = threads (trace s) ++ [job_id new_job])
        \/ (r = Ok CANCELLED /\ threads (trace s') = threads (trace s))).
Proof.
  intros bpy env s.
  destruct (execute_summary bpy env s) as (Hs & _ & [(Hr & id & Hj & Ht)|(Hr & Ht & _)]).
  - split; [exact Hs|]. left. split; [exact Hr|].
    exists (new_record bpy env id). split; [exact Hj|exact Ht].
  - split; [exact Hs|]. right. split; [exact Hr|exact Ht].
Qed.

(** What [submit_render_job] returns for a dict upload result. *)
Lemma submit_render_job_value (bpy : Bpy) (items : list (string * json))
  (net : http_outcome) (s : state) :
  fst (submit_render_job bpy (JObj items) net s)
  = Ok (match net with
        | inr r =>
            if Z_in (status_code r) [200; 201]
            then match body r with Some v => v | None => JNull end
            else JNull
        | inl _ => JNull
        end).
Proof.
  unfold submit_render_job.
  destruct (render_quality (settings s)) eqn:Hq, net as [e|r];
    repeat (progress (run_py; rewrite ?Hq)); auto;
    repeat (case_match; run_py; simplify_eq); auto.
Qed.

(** [execute] when the scene was saved and both the upload and the job
    creation were accepted: what it returns and the record it leaves
    depend on the id of the job answer alone. *)
Lemma execute_accepted_run (bpy : Bpy) (env : submit_env) (s : state)
  (items : list (string * json)) (job_result : json) :
  save_fails env = None ->
  accepted (upload_net env) (JObj items) -> items <> [] ->
  accepted (submit_net env) job_result -> Py.truthy job_result = true ->
  fst (INTEGRATED_OT_submit_render.execute bpy env s)
  = Ok (match submitted_id job_result with inr _ => FINISHED | inl _ => CANCELLED end)
  /\ jobs (settings (snd (INTEGRATED_OT_submit_render.execute bpy env s)))
     = jobs (settings s)
       ++ [match submitted_id job_result with
           | inr id => new_record bpy env id
           | inl _ => RemoteRenderJob_default
           end].
Proof.
  intros Hsave (r1 & Hnet1 & Hst1 & Hb1) Hitems (r2 & Hnet2 & Hst2 & Hb2) Htruthy.
  destruct (execute_saved bpy env s Hsave) as (evs & _ & ->).
  assert (Hans : answer (upload_net env) = JObj items)
    by (unfold answer; rewrite Hnet1, Hst1, Hb1; reflexivity).
  rewrite Hans. unfold try_except, after_upload.
  replace (negb (Py.truthy (JObj items))) with false
    by (destruct items; [contradiction|reflexivity]).
  unfold bind, report, emit.
  match goal with
  | |- context [submit_render_job bpy (JObj items) (submit_net env) ?st] =>
      pose proof (submit_render_job_value bpy items (submit_net env) st) as Hval;
      pose proof (submit_render_job_frame bpy (JObj items) (submit_net env) st)
        as [Hset _];
      destruct (submit_render_job bpy (JObj items) (submit_net env) st) as [r6 s6]
  end.
  cbn [fst snd settings] in Hval, Hset. rewrite Hnet2, Hst2, Hb2 in Hval. subst r6.
  rewrite Htruthy. cbn [negb]. rewrite register_job_run.
  destruct (submitted_id job_result) as [e|id];
    cbn [fst snd settings jobs with_jobs set_jobs log]; rewrite Hset; split; reflexivity.
Qed.

(** X17: when the scene is saved, the upload is accepted with a non-empty
    object and the job creation is accepted with an object whose id is a
    string, or that has no id at all, [execute] returns FINISHED, appends
    the record of that job (its job id being the answer's id up to its
    first NUL character, if it has one, or [unknown] when the answer has
    no id; status SUBMITTED, progress 0, not complete, flagged as new) and
    starts one monitor thread for the job id of that record. *)
Theorem accepted_submission_registers_job :
  forall (bpy : Bpy) (env : submit_env) (s : state)
         (items job_items : list (string * json)) (id : string),
    save_fails env = None ->
    accepted (upload_net env) (JObj items) -> items <> [] ->
    accepted (submit_net env) (JObj job_items) -> job_items <> [] ->
    Py.assoc "id" job_items = Some (JStr id)
    \/ (Py.assoc "id" job_items = None /\ id = "unknown") ->
    let s' := snd (INTEGRATED_OT_submit_render.execute bpy env s) in
    fst (INTEGRATED_OT_submit_render.execute bpy env s) = Ok FINISHED
    /\ jobs (settings s')
       = jobs (settings s)
         ++ [ {| job_id := cut_at_nul id;
                 scene_name := get_scene_name bpy;
                 submitted_time := clock_hm env;
                 status := "SUBMITTED";
                 progress := 0;
                 is_complete := false;
                 has_notification := true;
                 error_message := "" |} ]
    /\ threads (trace s') = threads (trace s) ++ [cut_at_nul id].
Proof.
  intros bpy env s items job_items id Hsave Hup Hitems Hsub Hjitems Hid s'.
  assert (Htruthy : Py.truthy (JObj job_items) = true)
    by (destruct job_items; [contradiction|reflexivity]).
  assert (Hsid : submitted_id (JObj job_items) = inr (cut_at_nul id)).
  { unfold submitted_id. simpl. destruct Hid as [-> | [-> ->]]; reflexivity. }
  destruct (execute_accepted_run bpy env s items (JObj job_items)
              Hsave Hup Hitems Hsub Htruthy) as [Hr Hj].
  rewrite Hsid in Hr, Hj.
  split; [exact Hr|]. split; [exact Hj|].
  destruct (execute_summary bpy env s)
    as (_ & _ & [(_ & id' & Hj' & Ht)|(Hr' & _)]); [|congruence].
  fold s' in Hj, Hj', Ht. rewrite Hj in Hj'.
  apply app_inv_head in Hj'. injection Hj' as Hid'. rewrite Ht, Hid'. reflexivity.
Qed.

(** The submission of [submit_env0]. *)
Lemma accepted_submission_registers_job_witness :
  fst (INTEGRATED_OT_submit_render.execute bpy0 submit_env0 state1) = Ok FINISHED
  /\ threads (trace (snd (INTEGRATED_OT_submit_render.execute bpy0 submit_env0 state1)))
     = threads (trace state1) ++ ["job-2"].
Proof.
  pose proof (accepted_submission_registers_job bpy0 submit_env0 state1
                [("fileName", JStr "remote_render_1.blend")] [("id", JStr "job-2")]
                "job-2" eq_refl) as H.
  destruct H as (H1 & _ & H3).
  - eexists. split; [reflexivity|]. split; reflexivity.
  - discriminate.
  - eexists. split; [reflexivity|]. split; reflexivity.
  - discriminate.
  - left. reflexivity.
  - split; [exact H1|exact H3].
Defined.

(** X18: when the job answer is accepted (200 or 201, truthy body) but is
    no object, or carries an id that is not a string (a number, say),
    [execute] reports an error and returns CANCELLED, starts no monitor
    thread, and yet leaves behind the record [settings.jobs.add()] had
    already appended, with every field at its default: empty job id,
    status SUBMITTED, flagged as new. *)
Theorem unusable_job_id_leaves_blank_record :
  forall (bpy : Bpy) (env : submit_env) (s : state)
         (items : list (string * json)) (job_result : json) (e : exn),
    save_fails env = None ->
    accepted (upload_net env) (JObj items) -> items <> [] ->
    accepted (submit_net env) job_result -> Py.truthy job_result = true ->
    submitted_id job_result = inl e ->
    let s' := snd (INTEGRATED_OT_submit_render.execute bpy env s) in
    fst (INTEGRATED_OT_submit_render.execute bpy env s) = Ok CANCELLED
    /\ jobs (settings s') = jobs (settings s) ++ [RemoteRenderJob_default]
    /\ threads (trace s') = threads (trace s).
Proof.
  intros bpy env s items job_result e Hsave Hup Hitems Hsub Htruthy Hsid s'.
  destruct (execute_accepted_run bpy env s items job_result
              Hsave Hup Hitems Hsub Htruthy) as [Hr Hj].
  rewrite Hsid in Hr, Hj.
  split; [exact Hr|]. split; [exact Hj|].
  destruct (execute_summary bpy env s)
    as (_ & _ & [(Hr' & _)|(_ & Ht & _)]); [congruence|exact Ht].
Qed.

(** A server that numbers its jobs. *)
Lemma unusable_job_id_leaves_blank_record_witness :
  jobs (settings (snd (INTEGRATED_OT_submit_render.execute bpy0
          {| temp_dir := "/tmp"; now := 1; clock_hm := "12:00";
             save_versions := 1; save_fails := None;
             upload_net := upload_net submit_env0;
             submit_net := inr {| status_code := 201;
                                  body := Some (JObj [("id", JInt 42)]) |} |}
          state1)))
  = jobs (settings state1) ++ [RemoteRenderJob_default].
Proof.
  pose proof (unusable_job_id_leaves_blank_record bpy0
                {| temp_dir := "/tmp"; now := 1; clock_hm := "12:00";
                   save_versions := 1; save_fails := None;
                   upload_net := upload_net submit_env0;
                   submit_net := inr {| status_code := 201;
                                        body := Some (JObj [("id", JInt 42)]) |} |}
                state1 [("fileName", JStr "remote_render_1.blend")]
                (JObj [("id", JInt 42)]) (Exn TypeError "expected a string type")
                eq_refl) as H.
  destruct H as (_ & H2 & _).
  - eexists. split; [reflexivity|]. split; reflexivity.
  - discriminate.
  - eexists. split; [reflexivity|]. split; reflexivity.
  - reflexivity.
  - reflexivity.
  - exact H2.
Defined.

(** What an accepted request hands back is falsy unless it was accepted
    with a truthy body. *)
Lemma refused_answer (net : http_outcome) :
  (forall v, accepted net v -> Py.truthy v = false) -> Py.truthy (answer net) = false.
Proof.
  intros H. unfold answer.
  destruct net as [e|r]; [reflexivity|].
  destruct (Z_in (status_code r) [200; 201]) eqn:Hst; [|reflexivity].
  destruct (body r) as [v|] eqn:Hb; [|reflexivity].
  apply H. exists r. auto.
Qed.

(** X19: when the scene is saved but the upload is not accepted with a
    truthy body (the request raises, the status is not 200 or 201, the body
    does not parse or is empty), or the upload is accepted and the job
    creation is not, [execute] returns CANCELLED with the settings and the
    job store exactly as they were and no monitor thread started; in the
    first case no job creation request is sent at all. *)
Theorem refused_submission_creates_nothing :
  forall (bpy : Bpy) (env : submit_env) (s : state),
    save_fails env = None ->
    (forall v, accepted (upload_net env) v -> Py.truthy v = false)
    \/ ((exists items, accepted (upload_net env) (JObj items) /\ items <> [])
        /\ forall v, accepted (submit_net env) v -> Py.truthy v = false) ->
    let s' := snd (INTEGRATED_OT_submit_render.execute bpy env s) in
    fst (INTEGRATED_OT_submit_render.execute bpy env s) = Ok CANCELLED
    /\ settings s' = settings s
    /\ threads (trace s') = threads (trace s)
    /\ ((forall v, accepted (upload_net env) v -> Py.truthy v = false) ->
        posts (trace s') = posts (trace s)).
Proof.
  intros bpy env s Hsave Hrefused. cbv zeta.
  assert (Hthreads : threads (trace (snd (INTEGRATED_OT_submit_render.execute bpy env s)))
                     = threads (trace s)
                     \/ fst (INTEGRATED_OT_submit_render.execute bpy env s) = Ok FINISHED).
  { destruct (execute_summary bpy env s) as (_ & _ & [(Hr & _)|(_ & Ht & _)]); auto. }
  revert Hthreads.
  destruct (execute_saved bpy env s Hsave) as (evs & [_ Hposts] & ->).
  unfold try_except.
  destruct Hrefused as [Hup | [(items & (r1 & Hnet1 & Hst1 & Hb1) & Hitems) Hsub]].
  - unfold after_upload. rewrite (refused_answer _ Hup). cbn [negb].
    unfold ret. cbn [fst snd settings trace log with_fs]. intros [Ht|Hr]; [|discriminate].
    split; [reflexivity|]. split; [reflexivity|]. split; [exact Ht|].
    intros _. rewrite posts_app, Hposts, app_nil_r. reflexivity.
  - assert (Hans : answer (upload_net env) = JObj items)
      by (unfold answer; rewrite Hnet1, Hst1, Hb1; reflexivity).
    rewrite Hans. unfold after_upload.
    replace (negb (Py.truthy (JObj items))) with false
      by (destruct items; [contradiction|reflexivity]).
    unfold bind, report, emit.
    match goal with
    | |- context [submit_render_job bpy (JObj items) (submit_net env) ?st] =>
        pose proof (submit_render_job_value bpy items (submit_net env) st) as Hval;
        pose proof (submit_render_job_frame bpy (JObj items) (submit_net env) st)
          as [Hset _];
        destruct (submit_render_job bpy (JObj items) (submit_net env) st) as [r6 s6]
    end.
    cbn [fst snd settings log with_fs] in Hval, Hset. subst r6.
    fold (answer (submit_net env)). rewrite (refused_answer _ Hsub).
    cbn [negb]. unfold ret. cbn [fst snd settings trace].
    intros [Ht|Hr]; [|discriminate].
    split; [reflexivity|]. split; [exact Hset|]. split; [exact Ht|].
    intros Hup. exfalso.
    assert (Hbad : Py.truthy (JObj items) = false) by (apply Hup; exists r1; auto).
    destruct items; [contradiction|discriminate].
Qed.

(** A server that refuses the upload with status 500. *)
Lemma refused_submission_creates_nothing_witness :
  settings (snd (INTEGRATED_OT_submit_render.execute bpy0
      {| temp_dir := "/tmp"; now := 1; clock_hm := "12:00";
         save_versions := 1; save_fails := None;
         upload_net := inr {| status_code := 500; body := None |};
         submit_net := submit_net submit_env0 |}
      state1))
  = settings state1.
Proof.
  refine (proj1 (proj2 (refused_submission_creates_nothing bpy0
      {| temp_dir := "/tmp"; now := 1; clock_hm := "12:00";
         save_versions := 1; save_fails := None;
         upload_net := inr {| status_code := 500; body := None |};
         submit_net := submit_net submit_env0 |}
      state1 eq_refl _))).
  left. intros v (r & Hr & Hst & _). injection Hr as <-. discriminate.
Defined.

(** X20: handed a dict, [submit_render_job] never raises and returns the
    parsed answer exactly when the POST is answered with 200 or 201 and a
    body that parses; after a raised request, any other status (202
    included) or an unparsable body it returns [None].  Handed anything but
    a dict it raises before a request is made. *)
Theorem submit_render_job_result :
  forall (bpy : Bpy) (upload_result : json) (net : http_outcome) (s : state),
    (forall items, upload_result = JObj items ->
       fst (submit_render_job bpy upload_result net s)
       = Ok (match net with
             | inr r =>
                 if Z_in (status_code r) [200; 201]
                 then match body r with Some v => v | None => JNull end
                 else JNull
             | inl _ => JNull
             end))
    /\ ((forall items, upload_result <> JObj items) ->
        exists e, submit_render_job bpy upload_result net s = (Raise e, s)
                  /\ exn_cls e = AttributeError).
Proof.
  intros bpy upload_result net s. split.
  - intros items ->. apply submit_render_job_value.
  - intros Hnot. unfold submit_render_job.
    destruct upload_result; try (exfalso; eapply Hnot; reflexivity);
      destruct (render_quality (settings s)) eqn:Hq;
      repeat (progress (run_py; rewrite ?Hq)); eexists; split; reflexivity.
Qed.

(** ** The temporary file name *)

Lemma append_length (a b : string) :
  String.length (a +:+ b) = (String.length a + String.length b)%nat.
Proof. induction a as [|c a IH]; simpl; [reflexivity|]. rewrite IH. reflexivity. Qed.

Lemma append_inj_r (t : string) :
  forall a b : string, a +:+ t = b +:+ t -> a = b.
Proof.
  induction a as [|c a IH]; intros [|d b] H; simpl in H.
  - reflexivity.
  - apply (f_equal String.length) in H. simpl in H.
    rewrite ?append_length in H. simpl in H. exfalso. lia.
  - apply (f_equal String.length) in H. simpl in H.
    rewrite ?append_length in H. simpl in H. exfalso. lia.
  - injection H as -> H. rewrite (IH b H). reflexivity.
Qed.

(** X21: the temporary file name is derived from the clock in whole
    seconds: two saves into the same directory get the same path exactly
    when they happen in the same second. *)
Theorem temp_file_name_by_second :
  forall (env1 env2 : submit_env) (s1 s2 : state) (p1 p2 : string) (t1 t2 : state),
    temp_dir env1 = temp_dir env2 ->
    save_scene_to_temp env1 s1 = (Ok p1, t1) ->
    save_scene_to_temp env2 s2 = (Ok p2, t2) ->
    (p1 = p2 <-> now env1 = now env2).
Proof.
  intros env1 env2 s1 s2 p1 p2 t1 t2 Hdir H1 H2.
  rewrite save_scene_to_temp_run in H1, H2.
  destruct (save_fails env1); [discriminate|]. destruct (save_fails env2); [discriminate|].
  injection H1 as <- _. injection H2 as <- _.
  unfold temp_path. rewrite Hdir. split; [|intros ->; reflexivity].
  intros H.
  assert (Hname : "remote_render_" +:+ pretty (now env1) +:+ ".blend"
                  = "remote_render_" +:+ pretty (now env2) +:+ ".blend").
  { revert H. unfold Py.path_join.
    change ("remote_render_" +:+ pretty (now env1) +:+ ".blend")
      with (String "r" ("emote_render_" +:+ pretty (now env1) +:+ ".blend")).
    change ("remote_render_" +:+ pretty (now env2) +:+ ".blend")
      with (String "r" ("emote_render_" +:+ pretty (now env2) +:+ ".blend")).
    cbn [Ascii.eqb Bool.eqb].
    destruct (String.eqb (temp_dir env2) "" || Py.ends_with_slash (temp_dir env2));
      intros H; apply String.app_inj in H; [exact H|].
    apply (String.app_inj "/") in H. exact H. }
  apply (String.app_inj "remote_render_") in Hname.
  apply append_inj_r in Hname. apply (inj pretty) in Hname. exact Hname.
Qed.

(** A save in second 1 and a save in second 2. *)
Lemma temp_file_name_by_second_witness :
  temp_path submit_env0
  = temp_path {| temp_dir := "/tmp"; now := 2; clock_hm := "12:00";
                 save_versions := 1; save_fails := None;
                 upload_net := upload_net submit_env0;
                 submit_net := submit_net submit_env0 |}
  <-> 1 = 2.
Proof.
  exact (temp_file_name_by_second submit_env0
           {| temp_dir := "/tmp"; now := 2; clock_hm := "12:00";
              save_versions := 1; save_fails := None;
              upload_net := upload_net submit_env0;
              submit_net := submit_net submit_env0 |}
           state0 state1 _ _ _ _ eq_refl eq_refl eq_refl).
Defined.

(** ** The traffic of a poller *)

Lemma gets_app (t1 t2 : list event) : gets (t1 ++ t2) = gets t1 ++ gets t2.
Proof.
  induction t1 as [|e t1 IH]; [reflexivity|].
  destruct e; simpl; rewrite ?IH; reflexivity.
Qed.

Lemma no_traffic_refl (s : state) : no_traffic s s.
Proof. split; reflexivity. Qed.

Lemma no_traffic_trans (s1 s2 s3 : state) :
  no_traffic s1 s2 -> no_traffic s2 s3 -> no_traffic s1 s3.
Proof. intros [H1 H2] [H3 H4]. split; congruence. Qed.

Lemma no_traffic_log (evs : list event) (s : state) :
  gets evs = [] -> posts evs = [] -> no_traffic s (log evs s).
Proof.
  intros Hg Hp. split; simpl; rewrite ?gets_app, ?posts_app, ?Hg, ?Hp, app_nil_r;
    reflexivity.
Qed.

Lemma no_traffic_update_job (i : nat) (f : RemoteRenderJob -> RemoteRenderJob) :
  keeps no_traffic (update_job i f).
Proof. intros s. rewrite update_job_run. split; reflexivity. Qed.

Lemma no_traffic_notifications (scene error : string) (env : plyer_env) :
  keeps no_traffic (show_completion_notification scene env)
  /\ keeps no_traffic (show_failure_notification scene error env).
Proof.
  split; intros s;
    [rewrite show_completion_notification_run|rewrite show_failure_notification_run];
    destruct env as [| |e]; try destruct (is_ImportError e); simpl;
    first [apply no_traffic_log; reflexivity | apply no_traffic_refl].
Qed.

Lemma no_traffic_apply_poll (i : nat) (r : response) (env : plyer_env) :
  keeps no_traffic (apply_poll i r env).
Proof.
  unfold apply_poll, response_json, read_job.
  repeat first
    [ apply no_traffic_update_job
    | apply (proj1 (no_traffic_notifications _ "" env))
    | apply (proj2 (no_traffic_notifications _ _ env))
    | (intros s0; apply (no_traffic_log [TimerRegister update_ui] s0); reflexivity)
    | keeps_step no_traffic_refl no_traffic_trans ].
Qed.

(** A tick on a record that is there sends exactly one request. *)
Lemma monitor_tick_traffic (id : string) (env : tick_env) (s : state) (i : nat) :
  find_job (jobs (settings s)) id = Some i ->
  gets (trace (snd (monitor_tick id env s))) = gets (trace s) ++ [poll_url s id]
  /\ posts (trace (snd (monitor_tick id env s))) = posts (trace s).
Proof.
  intros Hfind. rewrite (monitor_tick_unfold id env s i Hfind).
  destruct (poll env) as [e|r];
    [simpl; rewrite gets_app, posts_app; simpl; rewrite app_nil_r; auto|].
  destruct (status_code r =? 200);
    [|simpl; rewrite gets_app, posts_app; simpl; rewrite app_nil_r; auto].
  pose proof (no_traffic_apply_poll i r (plyer env) (log [HttpGet (poll_url s id) 10] s))
    as [Hg Hp].
  destruct (apply_poll i r (plyer env) (log [HttpGet (poll_url s id) 10] s))
    as [[[|]|e] s1]; simpl in *;
    rewrite ?gets_app, ?posts_app, Hg, Hp, ?gets_app, ?posts_app; simpl;
    rewrite ?app_nil_r; auto.
Qed.

(** X22: the only network traffic of a poller is one GET of
    [/api/jobs/<id>] per tick it runs: it never posts, never asks for
    another address, and sends nothing once it has stopped; while it is
    still polling it has sent one request for each answer it was given. *)
Theorem monitor_job_traffic :
  forall (id : string) (envs : list tick_env) (s : state),
    let s' := snd (monitor_job id envs s) in
    posts (trace s') = posts (trace s)
    /\ exists n : nat,
        (n <= length envs)%nat
        /\ gets (trace s') = gets (trace s) ++ replicate n (poll_url s id)
        /\ (fst (monitor_job id envs s) = Ok Polling -> n = length envs).
Proof.
  intros id envs. induction envs as [|env rest IH]; intros s.
  - simpl. split; [reflexivity|]. exists 0%nat. simpl. rewrite app_nil_r. auto.
  - cbv zeta. simpl monitor_job. unfold bind.
    destruct (find_job (jobs (settings s)) id) as [i|] eqn:Hfind.
    + pose proof (monitor_tick_traffic id env s i Hfind) as [Hg Hp].
      pose proof (keeps_frame_tick_found id env s i Hfind) as Hframe.
      destruct (monitor_tick_returns id env s) as [c Hc].
      destruct (monitor_tick id env s) as [r s1]. simpl in Hc, Hg, Hp, Hframe. subst r.
      destruct c.
      * simpl. split; [exact Hp|]. exists 1%nat. split; [simpl; lia|].
        split; [exact Hg|]. discriminate.
      * destruct (IH s1) as (Hp1 & n & Hn & Hg1 & Hpoll).
        split; [rewrite Hp1; exact Hp|]. exists (S n). split; [simpl; lia|].
        assert (Hurl : poll_url s1 id = poll_url s id).
        { destruct Hframe as (_ & Hs & _). unfold poll_url.
          apply (f_equal server_url) in Hs. simpl in Hs. rewrite Hs. reflexivity. }
        split.
        -- rewrite Hg1, Hg, Hurl, <- app_assoc. reflexivity.
        -- intros H. rewrite (Hpoll H). reflexivity.
    + assert (Htick : monitor_tick id env s = (Ok Break, s)).
      { unfold monitor_tick, monitor_tick_during, try_except, bind, get_settings. rewrite Hfind. reflexivity. }
      rewrite Htick. simpl. split; [reflexivity|]. exists 0%nat.
      split; [lia|]. split; [rewrite app_nil_r; reflexivity|]. discriminate.
Qed.

(** ** From the poller to the panel *)


